(** * Legal-Document-Analyzer: the ingestion and analysis pipeline

    A shallow embedding of the non-presentational logic of the application:
    - [src/services/gemini.ts]: [cleanGeminiResponse] and [GeminiService];
    - the [PDFUpload] component: [extractTextFromPDF] and [onDrop];
    - the [DocumentAnalysis], [ChatInterface] and [App] components: their
      state and event handlers, as transitions of one session state.

    JavaScript strings are sequences of UTF-16 code units; promises are
    modelled by the value they settle with. *)

From Stdlib Require Import String Ascii DecimalString.
From Stdlib Require Import NArith ZArith QArith Bool Lia.
From Stdlib Require Import List Sorted Permutation.
Import ListNotations.

Set Implicit Arguments.

(** ** JavaScript values used by the program *)

Module JS.

(** A string is a list of UTF-16 code units. *)
Definition jsstring := list N.

(** ASCII literals of the source, as code units. *)
Definition lit (s : string) : jsstring :=
  map N_of_ascii (list_ascii_of_string s).

(** Literals of the source that contain the double quote: in the argument
    every [~] stands for one double quote (no source literal has a [~]). *)
Definition litq (s : string) : jsstring :=
  map (fun c => if N.eqb c 126 then 34%N else c) (lit s).

Definition eqb (s t : jsstring) : bool :=
  if list_eq_dec N.eq_dec s t then true else false.

(** [!s] is true exactly for the empty string. *)
Definition truthy (s : jsstring) : bool :=
  match s with [] => false | _ :: _ => true end.

(** ECMAScript WhiteSpace and LineTerminator code points: the set that
    [String.prototype.trim] strips and that [\s] matches. *)
Definition isWhiteSpace (c : N) : bool :=
  ((9 <=? c) && (c <=? 13)          (* TAB LF VT FF CR *)
   || (c =? 32)                     (* SPACE *)
   || (c =? 160)                    (* NBSP *)
   || (c =? 5760)                   (* U+1680 *)
   || ((8192 <=? c) && (c <=? 8202))  (* U+2000 .. U+200A *)
   || (c =? 8232) || (c =? 8233)    (* LS PS *)
   || (c =? 8239) || (c =? 8287)    (* U+202F U+205F *)
   || (c =? 12288)                  (* U+3000 *)
   || (c =? 65279))%N.              (* U+FEFF *)

Fixpoint trimStart (s : jsstring) : jsstring :=
  match s with
  | c :: s' => if isWhiteSpace c then trimStart s' else s
  | [] => []
  end.

Definition trimEnd (s : jsstring) : jsstring := rev (trimStart (rev s)).

Definition trim (s : jsstring) : jsstring := trimEnd (trimStart s).

Fixpoint startsWith (s p : jsstring) {struct p} : bool :=
  match p, s with
  | [], _ => true
  | a :: p', b :: s' => (a =? b)%N && startsWith s' p'
  | _ :: _, [] => false
  end.

Definition endsWith (s p : jsstring) : bool := startsWith (rev s) (rev p).

(** [s.substring(start, end)]: both indices are clamped to [0, s.length]
    and swapped when [start > end]. *)
Definition clamp (len : nat) (i : Z) : nat :=
  Nat.min len (Z.to_nat i).

Definition substring (s : jsstring) (start end_ : Z) : jsstring :=
  let a := clamp (length s) start in
  let b := clamp (length s) end_ in
  firstn (Nat.max a b - Nat.min a b) (skipn (Nat.min a b) s).

(** [s.substring(start)]. *)
Definition substringFrom (s : jsstring) (start : Z) : jsstring :=
  substring s start (Z.of_nat (length s)).

(** [parts.join(sep)]. *)
Fixpoint join (sep : jsstring) (parts : list jsstring) : jsstring :=
  match parts with
  | [] => []
  | [p] => p
  | p :: rest => p ++ sep ++ join sep rest
  end.

(** What a [throw] carries: an [Error] object (a TypeError of the engine
    is one) with its message, or any other value. *)
Inductive Thrown :=
| ErrorObject (message : jsstring)
| OtherValue.

(** The value a promise settles with. *)
Inductive Settled (A : Type) :=
| Fulfilled (v : A)
| Rejected (e : Thrown).
Arguments Rejected {A} e.

(** [n.toString()] for a non-negative integer. *)
Definition toString (n : N) : jsstring :=
  lit (NilEmpty.string_of_uint (N.to_uint n)).

(** *** JSON values

    The value [JSON.parse] builds. A number keeps its lexeme and an object
    its members in the order of the text: no function of the program looks
    inside a parsed value before storing it. *)
#[warnings="-register-all"]
Inductive json :=
| JNull
| JBool (b : bool)
| JNumber (lexeme : jsstring)
| JString (s : jsstring)
| JArray (items : list json)
| JObject (members : list (jsstring * json)).

(** A reference implementation of [JSON.parse] (ECMA-404 grammar), used to
    run the program on concrete replies; [None] is the thrown [SyntaxError].
    The program itself is embedded over an arbitrary [JSON.parse]. The
    reference keeps what the platform function normalises (the lexeme of a
    number, a repeated member, the place of an integer-like key), so it is
    run only on replies made of strings, arrays and objects with distinct
    keys that are no integers, where the two agree. *)
Module Json.

Definition isWs (c : N) : bool :=
  ((c =? 32) || (c =? 9) || (c =? 10) || (c =? 13))%N.

Fixpoint skipWs (s : jsstring) : jsstring :=
  match s with
  | c :: s' => if isWs c then skipWs s' else s
  | [] => []
  end.

Definition isDigit (c : N) : bool := ((48 <=? c) && (c <=? 57))%N.

Definition hexValue (c : N) : option N :=
  if isDigit c then Some (c - 48)%N
  else if ((97 <=? c) && (c <=? 102))%N then Some (c - 87)%N
  else if ((65 <=? c) && (c <=? 70))%N then Some (c - 55)%N
  else None.

Definition hex4 (a b c d : N) : option N :=
  match hexValue a, hexValue b, hexValue c, hexValue d with
  | Some x, Some y, Some z, Some w => Some (((x * 16 + y) * 16 + z) * 16 + w)%N
  | _, _, _, _ => None
  end.

Definition simpleEscape (e : N) : option N :=
  if (e =? 34)%N then Some 34%N          (* quote *)
  else if (e =? 92)%N then Some 92%N     (* backslash *)
  else if (e =? 47)%N then Some 47%N     (* solidus *)
  else if (e =? 98)%N then Some 8%N      (* b *)
  else if (e =? 102)%N then Some 12%N    (* f *)
  else if (e =? 110)%N then Some 10%N    (* n *)
  else if (e =? 114)%N then Some 13%N    (* r *)
  else if (e =? 116)%N then Some 9%N     (* t *)
  else None.

Definition consTo (c : N) (r : option (jsstring * jsstring)) :=
  match r with
  | Some (str, rest) => Some (c :: str, rest)
  | None => None
  end.

(** The characters of a string literal, after its opening quote. *)
Fixpoint parseChars (s : jsstring) : option (jsstring * jsstring) :=
  match s with
  | [] => None
  | c :: s' =>
      if (c =? 34)%N then Some ([], s')
      else if (c =? 92)%N then
        match s' with
        | [] => None
        | e :: s'' =>
            if (e =? 117)%N then
              match s'' with
              | h1 :: h2 :: h3 :: h4 :: s5 =>
                  match hex4 h1 h2 h3 h4 with
                  | Some u => consTo u (parseChars s5)
                  | None => None
                  end
              | _ => None
              end
            else
              match simpleEscape e with
              | Some u => consTo u (parseChars s'')
              | None => None
              end
        end
      else if (c <? 32)%N then None
      else consTo c (parseChars s')
  end.

Fixpoint spanDigits (s : jsstring) : jsstring * jsstring :=
  match s with
  | c :: s' =>
      if isDigit c then let (d, r) := spanDigits s' in (c :: d, r) else ([], s)
  | [] => ([], [])
  end.

(** A number: an optional minus, an integer part without leading zero, an
    optional fraction and an optional exponent. *)
Definition parseNumber (s : jsstring) : option (jsstring * jsstring) :=
  let (sign, s1) :=
    match s with
    | c :: r => if (c =? 45)%N then ([c], r) else ([], s)
    | [] => ([], s)
    end in
  let int :=
    match s1 with
    | c :: r =>
        if (c =? 48)%N then Some ([c], r)
        else if isDigit c then let (d, r') := spanDigits r in Some (c :: d, r')
        else None
    | [] => None
    end in
  match int with
  | None => None
  | Some (ipart, s2) =>
      let frac :=
        match s2 with
        | c :: r =>
            if (c =? 46)%N then
              match spanDigits r with
              | ([], _) => None
              | (d, r') => Some (c :: d, r')
              end
            else Some ([], s2)
        | [] => Some ([], s2)
        end in
      match frac with
      | None => None
      | Some (fpart, s3) =>
          let exp :=
            match s3 with
            | c :: r =>
                if ((c =? 101) || (c =? 69))%N then
                  let (esign, r1) :=
                    match r with
                    | g :: r' =>
                        if ((g =? 43) || (g =? 45))%N then ([g], r') else ([], r)
                    | [] => ([], r)
                    end in
                  match spanDigits r1 with
                  | ([], _) => None
                  | (d, r') => Some (c :: esign ++ d, r')
                  end
                else Some ([], s3)
            | [] => Some ([], s3)
            end in
          match exp with
          | None => None
          | Some (epart, s4) => Some (sign ++ ipart ++ fpart ++ epart, s4)
          end
      end
  end.

Definition keyword (w : string) (v : json) (s : jsstring)
  : option (json * jsstring) :=
  if startsWith s (lit w) then Some (v, skipn (String.length w) s) else None.

Fixpoint parseValue (fuel : nat) (s : jsstring) {struct fuel}
  : option (json * jsstring) :=
  match fuel with
  | O => None
  | S f =>
      match skipWs s with
      | [] => None
      | c :: r =>
          if (c =? 123)%N then                      (* { *)
            match skipWs r with
            | d :: r' =>
                if (d =? 125)%N then Some (JObject [], r')
                else
                  match parseMembers f (d :: r') with
                  | Some (ms, r'') => Some (JObject ms, r'')
                  | None => None
                  end
            | [] => None
            end
          else if (c =? 91)%N then                  (* [ *)
            match skipWs r with
            | d :: r' =>
                if (d =? 93)%N then Some (JArray [], r')
                else
                  match parseElements f (d :: r') with
                  | Some (vs, r'') => Some (JArray vs, r'')
                  | None => None
                  end
            | [] => None
            end
          else if (c =? 34)%N then
            match parseChars r with
            | Some (str, r') => Some (JString str, r')
            | None => None
            end
          else if (c =? 110)%N then keyword "null" JNull (c :: r)
          else if (c =? 116)%N then keyword "true" (JBool true) (c :: r)
          else if (c =? 102)%N then keyword "false" (JBool false) (c :: r)
          else
            match parseNumber (c :: r) with
            | Some (lexeme, r') => Some (JNumber lexeme, r')
            | None => None
            end
      end
  end
with parseElements (fuel : nat) (s : jsstring) {struct fuel}
  : option (list json * jsstring) :=
  match fuel with
  | O => None
  | S f =>
      match parseValue f s with
      | None => None
      | Some (v, r) =>
          match skipWs r with
          | d :: r' =>
              if (d =? 44)%N then
                match parseElements f r' with
                | Some (vs, r'') => Some (v :: vs, r'')
                | None => None
                end
              else if (d =? 93)%N then Some ([v], r')
              else None
          | [] => None
          end
      end
  end
with parseMembers (fuel : nat) (s : jsstring) {struct fuel}
  : option (list (jsstring * json) * jsstring) :=
  match fuel with
  | O => None
  | S f =>
      match skipWs s with
      | q :: r =>
          if (q =? 34)%N then
            match parseChars r with
            | None => None
            | Some (k, r1) =>
                match skipWs r1 with
                | colon :: r2 =>
                    if (colon =? 58)%N then
                      match parseValue f r2 with
                      | None => None
                      | Some (v, r3) =>
                          match skipWs r3 with
                          | d :: r4 =>
                              if (d =? 44)%N then
                                match parseMembers f r4 with
                                | Some (ms, r5) => Some ((k, v) :: ms, r5)
                                | None => None
                                end
                              else if (d =? 125)%N then Some ([(k, v)], r4)
                              else None
                          | [] => None
                          end
                      end
                    else None
                | [] => None
                end
            end
          else None
      | [] => None
      end
  end.

(** Each level of descent either consumes a code unit or is followed by
    one that does, so twice the length of the text bounds the depth. *)
Definition parse (s : jsstring) : option json :=
  match parseValue (2 * length s + 2) s with
  | Some (v, r) => match skipWs r with [] => Some v | _ :: _ => None end
  | None => None
  end.

(** [JSON.stringify(v, null, 2)] on the values above. *)
Definition hexDigit (n : N) : N :=
  if (n <? 10)%N then (n + 48)%N else (n + 87)%N.

Definition unicodeEscape (c : N) : jsstring :=
  [92; 117; hexDigit (c / 4096 mod 16); hexDigit (c / 256 mod 16);
   hexDigit (c / 16 mod 16); hexDigit (c mod 16)]%N.

Definition isHighSurrogate (c : N) : bool := ((55296 <=? c) && (c <=? 56319))%N.
Definition isLowSurrogate (c : N) : bool := ((56320 <=? c) && (c <=? 57343))%N.

Definition quoteUnit (c : N) : jsstring :=
  if (c =? 34)%N then [92; 34]%N
  else if (c =? 92)%N then [92; 92]%N
  else if (c =? 8)%N then [92; 98]%N
  else if (c =? 12)%N then [92; 102]%N
  else if (c =? 10)%N then [92; 110]%N
  else if (c =? 13)%N then [92; 114]%N
  else if (c =? 9)%N then [92; 116]%N
  else if (c <? 32)%N then unicodeEscape c
  else [c].

Fixpoint quoteUnits (s : jsstring) : jsstring :=
  match s with
  | [] => []
  | c :: s' =>
      if isHighSurrogate c then
        match s' with
        | d :: s'' =>
            if isLowSurrogate d then c :: d :: quoteUnits s''
            else unicodeEscape c ++ quoteUnits s'
        | [] => unicodeEscape c
        end
      else if isLowSurrogate c then unicodeEscape c ++ quoteUnits s'
      else quoteUnit c ++ quoteUnits s'
  end.

Definition quote (s : jsstring) : jsstring := [34%N] ++ quoteUnits s ++ [34%N].

Definition block (open close indent : jsstring) (lines : list jsstring)
  : jsstring :=
  match lines with
  | [] => open ++ close
  | _ :: _ =>
      let inner := indent ++ lit "  " in
      open ++ [10%N] ++ inner ++ join ([44; 10]%N ++ inner) lines
        ++ [10%N] ++ indent ++ close
  end.

Fixpoint stringifyAt (indent : jsstring) (v : json) : jsstring :=
  match v with
  | JNull => lit "null"
  | JBool true => lit "true"
  | JBool false => lit "false"
  | JNumber lexeme => lexeme
  | JString s => quote s
  | JArray items =>
      block (lit "[") (lit "]") indent
        (map (stringifyAt (indent ++ lit "  ")) items)
  | JObject members =>
      block (lit "{") (lit "}") indent
        (map (fun kv => quote (fst kv) ++ lit ": "
                          ++ stringifyAt (indent ++ lit "  ") (snd kv))
           members)
  end.

Definition stringify (v : json) : jsstring := stringifyAt [] v.

End Json.

End JS.

(** ** [src/services/gemini.ts] *)

Module Gemini.
Import JS.

(** Helper function to clean Gemini response and extract JSON. *)
Definition cleanGeminiResponse (response : jsstring) : jsstring :=
  (* Remove markdown code blocks if present *)
  let cleaned := trim response in
  (* Remove ```json at the beginning *)
  let cleaned :=
    if startsWith cleaned (lit "```json") then substringFrom cleaned 7
    else if startsWith cleaned (lit "```") then substringFrom cleaned 3
    else cleaned in
  (* Remove ``` at the end *)
  let cleaned :=
    if endsWith cleaned (lit "```")
    then substring cleaned 0 (Z.of_nat (length cleaned) - 3)
    else cleaned in
  trim cleaned.

Definition strings (l : list string) : json :=
  JArray (map (fun s => JString (lit s)) l).

(** The fallback of [analyzeDocument]: a basic analysis structure. *)
Definition fallbackAnalysis : json :=
  JObject
    [ (lit "summary", JString (lit "Document analysis completed. The AI has processed the available content and extracted key information where possible."));
      (lit "keyPoints", strings ["Document uploaded and processed"; "Content analyzed for key information"; "Analysis completed with available data"]);
      (lit "legalIssues", strings ["Text extraction quality may affect analysis accuracy"]);
      (lit "recommendations", strings ["Review the original document for complete accuracy"; "Consider re-uploading if text appears corrupted"; "Consult with a legal professional for important matters"]);
      (lit "documentType", JString (lit "Document (type analysis in progress)"));
      (lit "parties", strings ["Analysis in progress"]);
      (lit "dates", strings ["Analysis in progress"]);
      (lit "jurisdiction", JString (lit "Not specified")) ]%string.

Definition notConfiguredMessage : jsstring :=
  lit "Gemini API is not configured. Please provide a valid API key.".
Definition analyzeFailedMessage : jsstring :=
  lit "Failed to analyze document. Please check your API key and try again.".
Definition askFailedMessage : jsstring :=
  lit "Failed to get answer. Please check your API key and try again.".

(** The prompt of [analyzeDocument] around the document text. *)
Definition analysisPrompt (text : jsstring) : jsstring :=
  litq "
You are a legal AI assistant. Analyze the following text that was extracted from a document. The text may be from various types of documents (legal, business, academic, etc.) and might contain some extraction artifacts or formatting issues.

Document Text:
~~~
"
  ++ text ++
  litq "
~~~

Please provide your analysis in the following JSON structure. Be flexible and work with whatever content is provided - even if it's not a perfect legal document:

{
  ~summary~: ~A comprehensive summary of the document content in 2-3 sentences~,
  ~keyPoints~: [~Key point 1~, ~Key point 2~, ~Key point 3~, ...],
  ~legalIssues~: [~Legal issue 1~, ~Legal issue 2~, ...],
  ~recommendations~: [~Recommendation 1~, ~Recommendation 2~, ...],
  ~documentType~: ~Type of document (e.g., Contract, Agreement, Legal Brief, Business Document, Letter, etc.)~,
  ~parties~: [~Party 1~, ~Party 2~, ...],
  ~dates~: [~Important date 1~, ~Important date 2~, ...],
  ~jurisdiction~: ~Relevant jurisdiction or 'Not specified'~
}

Guidelines for analysis:
1. **Be flexible**: Work with any type of document content, even if imperfect
2. **Extract value**: Find meaningful information even from poorly formatted text
3. **Document classification**: Identify what type of document this appears to be
4. **Key information**: Extract names, dates, important terms, obligations, rights
5. **Legal relevance**: Identify any legal implications, even in non-legal documents
6. **Practical advice**: Provide actionable recommendations based on the content
7. **Context awareness**: Consider business, contractual, or regulatory contexts

If the text appears to be corrupted or unreadable:
- Still attempt to extract any readable portions
- Identify the likely document type if possible
- Provide recommendations for document improvement
- Note specific issues with text extraction

Focus on being helpful rather than dismissive. Even fragmentary or imperfect documents can yield useful insights.
".

(** The prompt of [askQuestion]. *)
Definition questionPrompt (documentText question : jsstring)
    (previousContext : option jsstring) : jsstring :=
  litq "
You are a legal AI assistant. You have access to a legal document and need to answer a specific question about it.

Document Text:
~~~
"
  ++ documentText ++
  litq "
~~~

"
  ++ match previousContext with
     | Some ctx =>
         if truthy ctx
         then lit "Previous Analysis Context:" ++ [10%N] ++ ctx ++ [10%N]
         else []
     | None => []
     end ++
  litq "

Question: "
  ++ question ++
  litq "

Please provide a detailed, accurate answer based solely on the information in the document. If the document doesn't contain sufficient information to answer the question, clearly state that. Focus on legal accuracy and cite specific sections or clauses when relevant.

Guidelines:
1. Base your answer only on the provided document
2. Be specific and cite relevant sections
3. If information is not available in the document, explicitly state this
4. Provide legal context when helpful
5. Keep the response professional and legally sound
6. If the question requires legal advice, remind that this is for informational purposes only

Answer:
".

(** What [model.generateContent(prompt)], [result.response] and
    [response.text()] together settle with: the reply text, or a throw. *)
Definition GenerativeModel := jsstring -> Settled jsstring.

Section Service.

(** [import.meta.env.VITE_GEMINI_API_KEY]: undefined or a string. *)
Variable API_KEY : option jsstring.

Definition hasKey : bool :=
  match API_KEY with Some k => truthy k | None => false end.

(** [genAI] and [model] are objects of the client library: [genAI] is
    null without a key, and [model] is then undefined. *)
Definition genAI : option unit := if hasKey then Some tt else None.

Definition model : option unit :=
  match genAI with Some _ => Some tt | None => None end.

Definition isConfigured : bool :=
  hasKey && match model with Some _ => true | None => false end.

Section Calls.

(** [model.generateContent]: the external text-generation endpoint. *)
Variable generateContent : GenerativeModel.
(** The platform's [JSON.parse]; [None] when it throws. *)
Variable JSON_parse : jsstring -> option json.

Definition analyzeDocument (text : jsstring) : Settled json :=
  match model with
  | None => Rejected (ErrorObject notConfiguredMessage)
  | Some _ =>
      match generateContent (analysisPrompt text) with
      | Fulfilled analysisText =>
          (* Parse the JSON response *)
          match JSON_parse (cleanGeminiResponse analysisText) with
          | Some analysis => Fulfilled analysis
          | None =>
              (* Fallback: create a basic analysis structure *)
              Fulfilled fallbackAnalysis
          end
      | Rejected _ => Rejected (ErrorObject analyzeFailedMessage)
      end
  end.

Definition askQuestion (documentText question : jsstring)
    (previousContext : option jsstring) : Settled jsstring :=
  match model with
  | None => Rejected (ErrorObject notConfiguredMessage)
  | Some _ =>
      match generateContent (questionPrompt documentText question previousContext) with
      | Fulfilled answer => Fulfilled answer
      | Rejected _ => Rejected (ErrorObject askFailedMessage)
      end
  end.

End Calls.

End Service.

Definition getConfigurationInstructions : jsstring :=
  lit "
To use the AI analysis features, you need to configure a Gemini API key:

1. Go to https://ai.google.dev/
2. Sign in with your Google account
3. Get your API key
4. Create a .env file in your project root
5. Add: VITE_GEMINI_API_KEY=your_api_key_here
6. Restart the development server

The app will work without an API key, but AI features will be disabled.
".

End Gemini.

(** ** The [PDFUpload] component *)

Module PDFUpload.
Import JS.

(** The fields of a browser [File] that the component reads. *)
Record File := { name : jsstring; type : jsstring; size : N }.

(** An item of [page.getTextContent()]: a text item carries [str], a
    marked-content item does not. *)
Inductive TextContentItem :=
| TextItem (str : jsstring)
| TextMarkedContent.

Definition Page := list TextContentItem.

(** A loaded document: what [getPage(pageNum)] followed by
    [getTextContent()] settles with, for [pageNum = 1 .. numPages]. *)
Record PDFDocument := { pages : list (Settled Page) }.

Definition numPages (pdf : PDFDocument) : nat := length (pages pdf).

Definition pageText (items : Page) : jsstring :=
  join (lit " ")
    (map (fun item => match item with TextItem str => str | TextMarkedContent => [] end)
       items).

(** [Promise.all]: every value, in index order, or a rejection (the one of
    lowest index stands for the first to occur). *)
Fixpoint promiseAll {A : Type} (l : list (Settled A)) : Settled (list A) :=
  match l with
  | [] => Fulfilled []
  | Rejected e :: _ => Rejected e
  | Fulfilled v :: l' =>
      match promiseAll l' with
      | Fulfilled vs => Fulfilled (v :: vs)
      | Rejected e => Rejected e
      end
  end.

(** [.replace(/\s+/g, ' ')]: every maximal whitespace run becomes one
    space; [inRun] tells that the previous code unit was whitespace. *)
Fixpoint replaceWhitespaceFrom (inRun : bool) (s : jsstring) : jsstring :=
  match s with
  | [] => []
  | c :: s' =>
      if isWhiteSpace c
      then (if inRun then [] else [32%N]) ++ replaceWhitespaceFrom true s'
      else c :: replaceWhitespaceFrom false s'
  end.

Definition replaceWhitespace (s : jsstring) : jsstring :=
  replaceWhitespaceFrom false s.

(** How far the greedy [\s*\n] reaches from the start of [s]: the number
    of code units of the leading whitespace run of [s] up to its last line
    feed, if it has one. *)
Fixpoint blankLineExtent (s : jsstring) : option nat :=
  match s with
  | c :: s' =>
      if isWhiteSpace c then
        match blankLineExtent s' with
        | Some n => Some (S n)
        | None => if (c =? 10)%N then Some 1%nat else None
        end
      else None
  | [] => None
  end.

(** [.replace(/\n\s*\n/g, '\n')], scanning left to right; [skip] counts the
    code units still covered by the match being replaced. *)
Fixpoint removeEmptyLinesFrom (skip : nat) (s : jsstring) : jsstring :=
  match s with
  | [] => []
  | c :: s' =>
      match skip with
      | S k => removeEmptyLinesFrom k s'
      | O =>
          if (c =? 10)%N then
            match blankLineExtent s' with
            | Some n => 10%N :: removeEmptyLinesFrom n s'
            | None => c :: removeEmptyLinesFrom 0 s'
            end
          else c :: removeEmptyLinesFrom 0 s'
      end
  end.

Definition removeEmptyLines (s : jsstring) : jsstring :=
  removeEmptyLinesFrom 0 s.

(** Clean up the extracted text. *)
Definition cleanText (fullText : jsstring) : jsstring :=
  trim (removeEmptyLines (replaceWhitespace fullText)).

Definition insufficientTextMessage : jsstring :=
  lit "Could not extract sufficient readable text from the PDF. The document might be image-based, password-protected, or contain mostly non-text content.".
Definition extractionFailedMessage : jsstring :=
  lit "Failed to extract text from PDF. Please ensure the file is a valid, unprotected PDF document.".

(** In this file [Error] is not the global constructor: the import list of
    @mui/icons-material at the head of the file binds [Error] to the icon
    of that name, a component object. So [new Error(message)] builds no
    error: the engine throws its own TypeError, whatever [message] is. Its
    message names the binding as the module has it, as below when the
    module runs as written. *)
Definition notAConstructorMessage : jsstring := lit "Error is not a constructor".

(** What [throw new Error(message)] throws in this file. *)
Definition throwNewError (message : jsstring) : Thrown :=
  ErrorObject notAConstructorMessage.

(** The [catch] of [extractTextFromPDF]: an object with a message is
    thrown anew with that message, anything else with the general one. *)
Definition rethrow (error : Thrown) : Thrown :=
  match error with
  | ErrorObject message => throwNewError message
  | OtherValue => throwNewError extractionFailedMessage
  end.

(** [loaded] is what [file.arrayBuffer()] and [getDocument(...).promise]
    settle with. *)
Definition extractTextFromPDF (loaded : Settled PDFDocument) : Settled jsstring :=
  match loaded with
  | Rejected error => Rejected (rethrow error)
  | Fulfilled pdf =>
      let textPromises :=
        map (fun p => match p with
                      | Fulfilled page => Fulfilled (pageText page)
                      | Rejected e => Rejected e
                      end) (pages pdf) in
      match promiseAll textPromises with
      | Rejected error => Rejected (rethrow error)
      | Fulfilled pageTexts =>
          let fullText := join [10; 10]%N pageTexts in
          let cleanedText := cleanText fullText in
          if negb (truthy cleanedText) || (length cleanedText <? 50)%nat
          then Rejected (rethrow (throwNewError insufficientTextMessage))
          else Fulfilled cleanedText
      end
  end.

(** The value passed to [setExtractionProgress] when the task of page
    [pageNum] completes: [(pageNum / pdf.numPages) * 100]. The quotient is
    taken in the rationals: the rounding of the two double-precision
    operations is monotone, and for the page counts of a document it keeps
    the values of two different pages apart, so the order of two reports
    is the same. *)
Definition progressAt (numPages pageNum : nat) : Q :=
  (inject_Z (Z.of_nat pageNum) / inject_Z (Z.of_nat numPages)) * 100.

(** The values reported during one extraction job, when the page tasks
    complete in the order [completionOrder] (page numbers from 1). *)
Definition progressReports (numPages : nat) (completionOrder : list nat) : list Q :=
  map (progressAt numPages) completionOrder.

Definition invalidTypeMessage : jsstring := lit "Please upload a PDF file only.".
Definition tooLargeMessage : jsstring := lit "File size must be less than 50MB.".

(** The validation at the head of [onDrop]: [None] when the file passes
    and [onFileUpload(file)] is called, and what is thrown otherwise. *)
Definition validate (file : File) : option Thrown :=
  if negb (eqb (type file) (lit "application/pdf"))
  then Some (throwNewError invalidTypeMessage)
  else if (50 * 1024 * 1024 <? size file)%N
  then Some (throwNewError tooLargeMessage)
  else None.

End PDFUpload.

(** ** The session: [App], [DocumentAnalysis] and [ChatInterface]

    The React state of the three components, the calls in flight, and the
    event handlers as transitions. A handler that awaits is split at the
    [await]: its synchronous head registers the call, its continuation runs
    when the call settles. State updates of one handler are batched, and the
    effects run after the render that follows. *)

Module Session.
Import JS.

Module App.
Record State := {
  uploadedFile : option PDFUpload.File;
  extractedText : jsstring;
  analysis : jsstring;
  isAnalyzing : bool
}.
Definition initial : State :=
  {| uploadedFile := None; extractedText := []; analysis := [];
     isAnalyzing := false |}.
End App.

Module DocumentAnalysis.
Record State := {
  analysis : option json;       (* AnalysisResult | null; [None] is null *)
  error : option jsstring;
  autoAnalyzeStarted : bool
}.
Definition initial : State :=
  {| analysis := None; error := None; autoAnalyzeStarted := false |}.
End DocumentAnalysis.

Module ChatInterface.
Inductive MessageType := user | assistant.
Record Message := {
  id : jsstring;
  type : MessageType;
  content : jsstring;
  timestamp : N
}.
Record State := {
  messages : list Message;
  input : jsstring;
  isLoading : bool;
  error : option jsstring
}.
Definition initial : State :=
  {| messages := []; input := []; isLoading := false; error := None |}.
End ChatInterface.

(** The arguments of a [GeminiService.askQuestion] call in flight. *)
Record AskCall := {
  documentText : jsstring;
  question : jsstring;
  previousContext : jsstring
}.

Record t := {
  app : App.State;
  doc : DocumentAnalysis.State;
  chat : ChatInterface.State;
(** [extractTextFromPDF(file)] calls awaited by [onDrop]. *)
pendingExtractions : nat;
(** [GeminiService.analyzeDocument(text)] calls awaited by [DocumentAnalysis]. *)
pendingAnalyses : list jsstring;
(** [GeminiService.askQuestion(...)] calls awaited by [ChatInterface]. *)
pendingAsks : list AskCall
}.

Definition initial : t :=
  {| app := App.initial; doc := DocumentAnalysis.initial;
     chat := ChatInterface.initial; pendingExtractions := 0;
     pendingAnalyses := []; pendingAsks := [] |}.

(** *** State setters *)

Definition withApp (f : App.State -> App.State) (s : t) : t :=
  {| app := f (app s); doc := doc s; chat := chat s;
     pendingExtractions := pendingExtractions s;
     pendingAnalyses := pendingAnalyses s; pendingAsks := pendingAsks s |}.
Definition withDoc (f : DocumentAnalysis.State -> DocumentAnalysis.State) (s : t) : t :=
  {| app := app s; doc := f (doc s); chat := chat s;
     pendingExtractions := pendingExtractions s;
     pendingAnalyses := pendingAnalyses s; pendingAsks := pendingAsks s |}.
Definition withChat (f : ChatInterface.State -> ChatInterface.State) (s : t) : t :=
  {| app := app s; doc := doc s; chat := f (chat s);
     pendingExtractions := pendingExtractions s;
     pendingAnalyses := pendingAnalyses s; pendingAsks := pendingAsks s |}.
Definition withPendingExtractions (n : nat) (s : t) : t :=
  {| app := app s; doc := doc s; chat := chat s; pendingExtractions := n;
     pendingAnalyses := pendingAnalyses s; pendingAsks := pendingAsks s |}.
Definition withPendingAnalyses (l : list jsstring) (s : t) : t :=
  {| app := app s; doc := doc s; chat := chat s;
     pendingExtractions := pendingExtractions s;
     pendingAnalyses := l; pendingAsks := pendingAsks s |}.
Definition withPendingAsks (l : list AskCall) (s : t) : t :=
  {| app := app s; doc := doc s; chat := chat s;
     pendingExtractions := pendingExtractions s;
     pendingAnalyses := pendingAnalyses s; pendingAsks := l |}.

Definition setUploadedFile (v : option PDFUpload.File) : t -> t :=
  withApp (fun a => {| App.uploadedFile := v; App.extractedText := App.extractedText a;
                       App.analysis := App.analysis a; App.isAnalyzing := App.isAnalyzing a |}).
Definition setExtractedText (v : jsstring) : t -> t :=
  withApp (fun a => {| App.uploadedFile := App.uploadedFile a; App.extractedText := v;
                       App.analysis := App.analysis a; App.isAnalyzing := App.isAnalyzing a |}).
Definition setAppAnalysis (v : jsstring) : t -> t :=
  withApp (fun a => {| App.uploadedFile := App.uploadedFile a; App.extractedText := App.extractedText a;
                       App.analysis := v; App.isAnalyzing := App.isAnalyzing a |}).
Definition setIsAnalyzing (v : bool) : t -> t :=
  withApp (fun a => {| App.uploadedFile := App.uploadedFile a; App.extractedText := App.extractedText a;
                       App.analysis := App.analysis a; App.isAnalyzing := v |}).

Definition setAnalysis (v : option json) : t -> t :=
  withDoc (fun d => {| DocumentAnalysis.analysis := v; DocumentAnalysis.error := DocumentAnalysis.error d;
                       DocumentAnalysis.autoAnalyzeStarted := DocumentAnalysis.autoAnalyzeStarted d |}).
Definition setDocError (v : option jsstring) : t -> t :=
  withDoc (fun d => {| DocumentAnalysis.analysis := DocumentAnalysis.analysis d; DocumentAnalysis.error := v;
                       DocumentAnalysis.autoAnalyzeStarted := DocumentAnalysis.autoAnalyzeStarted d |}).
Definition setAutoAnalyzeStarted (v : bool) : t -> t :=
  withDoc (fun d => {| DocumentAnalysis.analysis := DocumentAnalysis.analysis d;
                       DocumentAnalysis.error := DocumentAnalysis.error d;
                       DocumentAnalysis.autoAnalyzeStarted := v |}).

Definition setMessages (f : list ChatInterface.Message -> list ChatInterface.Message) : t -> t :=
  withChat (fun c => {| ChatInterface.messages := f (ChatInterface.messages c);
                        ChatInterface.input := ChatInterface.input c;
                        ChatInterface.isLoading := ChatInterface.isLoading c;
                        ChatInterface.error := ChatInterface.error c |}).
Definition setInput (v : jsstring) : t -> t :=
  withChat (fun c => {| ChatInterface.messages := ChatInterface.messages c;
                        ChatInterface.input := v;
                        ChatInterface.isLoading := ChatInterface.isLoading c;
                        ChatInterface.error := ChatInterface.error c |}).
Definition setIsLoading (v : bool) : t -> t :=
  withChat (fun c => {| ChatInterface.messages := ChatInterface.messages c;
                        ChatInterface.input := ChatInterface.input c;
                        ChatInterface.isLoading := v;
                        ChatInterface.error := ChatInterface.error c |}).
Definition setChatError (v : option jsstring) : t -> t :=
  withChat (fun c => {| ChatInterface.messages := ChatInterface.messages c;
                        ChatInterface.input := ChatInterface.input c;
                        ChatInterface.isLoading := ChatInterface.isLoading c;
                        ChatInterface.error := v |}).

(** [DocumentAnalysis] and [ChatInterface] are rendered once a file is set. *)
Definition mounted (s : t) : bool :=
  match App.uploadedFile (app s) with Some _ => true | None => false end.

(** [l] without its element of index [i]. *)
Definition removeAt {A : Type} (i : nat) (l : list A) : list A :=
  firstn i l ++ skipn (S i) l.

(** A parsed reply as a value of type [AnalysisResult | null]: the JSON
    [null] is the null of the state. *)
Definition orNull (result : json) : option json :=
  match result with
  | JNull => None
  | _ => Some result
  end.

(** [error instanceof Error ? error.message : fallback]. *)
Definition messageOf (error : Thrown) (fallback : jsstring) : jsstring :=
  match error with
  | ErrorObject message => message
  | OtherValue => fallback
  end.

(** In the handlers below [now] is the reading of the clock when the
    handler runs: the value of [Date.now()] and of [new Date()]. *)

Section Handlers.

Variable API_KEY : option jsstring.
Variable JSON_parse : jsstring -> option json.
(** [JSON.stringify(result, null, 2)]. *)
Variable JSON_stringify : json -> jsstring.

Definition isConfigured : bool := Gemini.isConfigured API_KEY.

(** *** [App] *)

Definition handleFileUpload (file : PDFUpload.File) (s : t) : t :=
  setAppAnalysis [] (setUploadedFile (Some file) s).

Definition handleTextExtracted (text : jsstring) (s : t) : t :=
  setExtractedText text s.

Definition handleAnalysisComplete (analysisResult : jsstring) (s : t) : t :=
  setIsAnalyzing false (setAppAnalysis analysisResult s).

(** *** [DocumentAnalysis] *)

(** [analyzeDocument] up to its [await]. *)
Definition analyzeDocument (s : t) : t :=
  if negb (truthy (App.extractedText (app s))) then
    setDocError (Some (lit "No text extracted from the document.")) s
  else
    let s := setIsAnalyzing true s in
    let s := setDocError None s in
    withPendingAnalyses (pendingAnalyses s ++ [App.extractedText (app s)]) s.

(** [analyzeDocument] after its [await], with what the call settled with. *)
Definition analyzeDocumentSettled (outcome : Settled json) (s : t) : t :=
  let s :=
    match outcome with
    | Fulfilled result =>
        let s := setAnalysis (orNull result) s in
        handleAnalysisComplete (JSON_stringify result) s
    | Rejected error =>
        setDocError (Some (messageOf error (lit "Unknown error occurred"))) s
    end in
  setIsAnalyzing false s.

(** The click handler of the re-analyze button. *)
Definition reanalyze (s : t) : t :=
  let s := setAnalysis None s in
  let s := setAutoAnalyzeStarted false s in
  analyzeDocument s.

(** Auto-analyze when text is extracted. *)
Definition autoAnalyzeEffect (s : t) : t :=
  if truthy (App.extractedText (app s))
     && negb (DocumentAnalysis.autoAnalyzeStarted (doc s))
     && isConfigured
  then analyzeDocument (setAutoAnalyzeStarted true s)
  else s.

(** *** [ChatInterface] *)

Definition fileName (s : t) : jsstring :=
  match App.uploadedFile (app s) with
  | Some file => PDFUpload.name file
  | None => []
  end.

Definition welcomeMessage (now : N) (fileName : jsstring) : ChatInterface.Message :=
  {| ChatInterface.id := toString now;
     ChatInterface.type := ChatInterface.assistant;
     ChatInterface.content :=
       litq "Hello! I've analyzed your document ~" ++ fileName ++
       litq "~. You can now ask me specific questions about the content, legal provisions, clauses, or anything else related to this document. What would you like to know?";
     ChatInterface.timestamp := now |}.

(** Add welcome message when component mounts. *)
Definition welcomeEffect (now : N) (s : t) : t :=
  if truthy (App.extractedText (app s))
     && (length (ChatInterface.messages (chat s)) =? 0)%nat
  then setMessages (fun _ => [welcomeMessage now (fileName s)]) s
  else s.

Definition apology : jsstring :=
  lit "I apologize, but I encountered an error processing your question. Please try again or rephrase your question.".

(** [handleSubmit] up to its [await]. *)
Definition handleSubmit (now : N) (s : t) : t :=
  let input := ChatInterface.input (chat s) in
  if negb (truthy (trim input)) || ChatInterface.isLoading (chat s) then s
  else if negb isConfigured then
    setChatError (Some (lit "Gemini AI is not configured. Please check your API key.")) s
  else if negb (truthy (App.extractedText (app s))) then
    setChatError (Some (lit "No document text available. Please upload a document first.")) s
  else
    let userMessage :=
      {| ChatInterface.id := toString now;
         ChatInterface.type := ChatInterface.user;
         ChatInterface.content := trim input;
         ChatInterface.timestamp := now |} in
    let s := setMessages (fun prev => prev ++ [userMessage]) s in
    let s := setInput [] s in
    let s := setIsLoading true s in
    let s := setChatError None s in
    withPendingAsks
      (pendingAsks s ++
         [{| documentText := App.extractedText (app s);
             question := ChatInterface.content userMessage;
             previousContext := App.analysis (app s) |}]) s.

(** [handleSubmit] after its [await]. *)
Definition handleSubmitSettled (now : N) (outcome : Settled jsstring) (s : t) : t :=
  let s :=
    match outcome with
    | Fulfilled response =>
        let assistantMessage :=
          {| ChatInterface.id := toString (now + 1);
             ChatInterface.type := ChatInterface.assistant;
             ChatInterface.content := response;
             ChatInterface.timestamp := now |} in
        setMessages (fun prev => prev ++ [assistantMessage]) s
    | Rejected error =>
        let s := setChatError (Some (messageOf error (lit "Failed to get response"))) s in
        let errorMessage :=
          {| ChatInterface.id := toString (now + 1);
             ChatInterface.type := ChatInterface.assistant;
             ChatInterface.content := apology;
             ChatInterface.timestamp := now |} in
        setMessages (fun prev => prev ++ [errorMessage]) s
    end in
  setIsLoading false s.

Definition clearChat (now : N) (s : t) : t :=
  let s := setMessages (fun _ => []) s in
  let s := setChatError None s in
  (* Re-add welcome message *)
  setMessages (fun _ => [welcomeMessage now (fileName s)]) s.

(** *** Events *)

Inductive Event :=
| Drop (file : PDFUpload.File)                    (* a file accepted by the drop zone *)
| ExtractionSettles (loaded : Settled PDFUpload.PDFDocument)
| ClickAnalyze                                    (* start or retry analysis *)
| ClickReanalyze
| AnalysisSettles (i : nat) (reply : Settled jsstring)
| Type_ (text : jsstring)                         (* typing, or a suggested question *)
| Submit
| AskSettles (i : nat) (reply : Settled jsstring)
| ClearChat.

(** What one event does before the next render. [reply] is what the
    endpoint answers to the call of index [i] among those in flight. A
    handler runs whenever its event is raised, as the function of the
    source does when it is called; which events the rendered page can
    raise in a session is stated apart, in [Page] below. *)
Definition handle (now : N) (ev : Event) (s : t) : t :=
  match ev with
  | Drop file =>
      if mounted s then s       (* the drop zone is rendered only without a file *)
      else
        match PDFUpload.validate file with
        | Some _ => s
        | None =>
            withPendingExtractions (S (pendingExtractions s))
              (handleFileUpload file s)
        end
  | ExtractionSettles loaded =>
      match pendingExtractions s with
      | O => s
      | S n =>
          let s := withPendingExtractions n s in
          match PDFUpload.extractTextFromPDF loaded with
          | Fulfilled extractedText =>
              if negb (truthy extractedText) || (length extractedText <? 50)%nat
              then s
              else handleTextExtracted extractedText s
          | Rejected _ => s
          end
      end
  | ClickAnalyze => if mounted s then analyzeDocument s else s
  | ClickReanalyze => if mounted s then reanalyze s else s
  | AnalysisSettles i reply =>
      match nth_error (pendingAnalyses s) i with
      | Some text =>
          analyzeDocumentSettled
            (Gemini.analyzeDocument API_KEY (fun _ => reply) JSON_parse text)
            (withPendingAnalyses (removeAt i (pendingAnalyses s)) s)
      | None => s
      end
  | Type_ text => if mounted s then setInput text s else s
  | Submit => if mounted s then handleSubmit now s else s
  | AskSettles i reply =>
      match nth_error (pendingAsks s) i with
      | Some call =>
          handleSubmitSettled now
            (Gemini.askQuestion API_KEY (fun _ => reply)
               (documentText call) (question call) (Some (previousContext call)))
            (withPendingAsks (removeAt i (pendingAsks s)) s)
      | None => s
      end
  | ClearChat => if mounted s then clearChat now s else s
  end.

(** The effects that run after a render. React runs an effect when one of
    its dependencies has changed; the guard of each of the two effects
    reads only its dependencies and is false once the effect has run, so
    the effect is due exactly when its guard holds. *)
Definition runEffects (now : N) (s : t) : t :=
  if mounted s then welcomeEffect now (autoAnalyzeEffect s) else s.

Definition step (now : N) (ev : Event) (s : t) : t :=
  runEffects now (handle now ev s).

Fixpoint run (evs : list (N * Event)) (s : t) : t :=
  match evs with
  | [] => s
  | (now, ev) :: evs' => run evs' (step now ev s)
  end.

End Handlers.

End Session.

(** ** The turns of a conversation

    The two messages that [handleSubmit] builds around its call, named for
    the statements below. *)

Module Turns.
Import JS Session Session.ChatInterface.


Definition replyTurn (now : N) (outcome : Settled jsstring) : Message :=
  {| id := toString (now + 1);
     type := assistant;
     content :=
       match outcome with
       | Fulfilled answer => answer
       | Rejected _ => apology
       end;
     timestamp := now |}.

End Turns.

(** ** Shapes of text *)

Module Shape.
Import JS.

(** No two whitespace code units stand side by side. *)
Fixpoint noWhitespaceRun (s : jsstring) : bool :=
  match s with
  | a :: ((b :: _) as r) =>
      negb (isWhiteSpace a && isWhiteSpace b) && noWhitespaceRun r
  | _ => true
  end.

(** The only whitespace code unit is the space. *)
Definition onlySpaces (s : jsstring) : Prop :=
  forall c, In c s -> isWhiteSpace c = true -> c = 32%N.

(** The code units that are not whitespace, in order. *)
Definition ink (s : jsstring) : jsstring :=
  filter (fun c => negb (isWhiteSpace c)) s.

End Shape.

(** ** Concrete replies and documents *)

Module Samples.
Import JS.

(** A reply that wraps [body] in a fenced code block. *)
Definition fenced (body : jsstring) : jsstring :=
  lit "```json" ++ [10%N] ++ body ++ [10%N] ++ lit "```".

Definition key : option jsstring := Some (lit "AIza-example-key").

Definition replies (reply : jsstring) : Gemini.GenerativeModel :=
  fun _ => Fulfilled reply.

Definition networkDown : Gemini.GenerativeModel :=
  fun _ => Rejected (ErrorObject (lit "fetch failed")).

Definition summaryBody : jsstring := litq "{~summary~:~x~}".

Definition malformedBody : jsstring := litq "{~summary~: ~x~,".

(** The text of the specification's normalization example. *)
Definition spacedText : jsstring := lit "A B    C" ++ [10; 10; 10]%N ++ lit "D".

(** A two-page document with selectable text, and a scanned one. *)
Definition leasePages : list PDFUpload.Page :=
  [ [PDFUpload.TextItem (lit "LEASE AGREEMENT"); PDFUpload.TextMarkedContent;
     PDFUpload.TextItem (lit "between Alice Landlord and Bob Tenant,")];
    [PDFUpload.TextItem (lit "governed by the laws of Ohio.")] ].

Definition scannedPages : list PDFUpload.Page :=
  [ [PDFUpload.TextMarkedContent]; [] ].

Definition loadedWith (pages : list PDFUpload.Page) : Settled PDFUpload.PDFDocument :=
  Fulfilled {| PDFUpload.pages := map (@Fulfilled PDFUpload.Page) pages |}.

Definition leaseFile : PDFUpload.File :=
  {| PDFUpload.name := lit "lease.pdf";
     PDFUpload.type := lit "application/pdf";
     PDFUpload.size := 120000 |}.

Definition contractFile : PDFUpload.File :=
  {| PDFUpload.name := lit "contract.pdf";
     PDFUpload.type := lit "application/pdf";
     PDFUpload.size := 48000 |}.

(** A reply with the eight fields of [AnalysisResult], and its value. *)
Definition leaseReply : jsstring :=
  fenced (litq "{~summary~:~A lease.~,~keyPoints~:[~Rent is due monthly~],~legalIssues~:[],~recommendations~:[~Keep a signed copy~],~documentType~:~Lease~,~parties~:[~Alice~,~Bob~],~dates~:[],~jurisdiction~:~Ohio~}").

Definition leaseResult : json :=
  JObject [ (lit "summary", JString (lit "A lease."));
            (lit "keyPoints", JArray [JString (lit "Rent is due monthly")]);
            (lit "legalIssues", JArray []);
            (lit "recommendations", JArray [JString (lit "Keep a signed copy")]);
            (lit "documentType", JString (lit "Lease"));
            (lit "parties", JArray [JString (lit "Alice"); JString (lit "Bob")]);
            (lit "dates", JArray []);
            (lit "jurisdiction", JString (lit "Ohio")) ].

(** The lease is dropped and its text extracted; with a key, the analysis
    starts by itself and is in flight. *)
Definition analyzing (API_KEY : option jsstring) : Session.t :=
  Session.run API_KEY Json.parse Json.stringify
    [ (1000%N, Session.Drop leaseFile);
      (1200%N, Session.ExtractionSettles (loadedWith leasePages)) ]
    Session.initial.

(** The analysis has settled: the session is ready. *)
Definition ready : Session.t :=
  Session.step key Json.parse Json.stringify 3000
    (Session.AnalysisSettles 0 (Fulfilled leaseReply)) (analyzing key).

Definition rentQuestion : jsstring := lit "  What is the rent? ".

End Samples.

(** ** The document information card of [DocumentAnalysis] *)

Module DocumentInfo.
Import JS.

(** [text.split(/\s+/)]: the pieces between the runs of whitespace, empty
    ones at the ends included; [inRun] tells that the previous code unit
    was whitespace. *)
Fixpoint splitFrom (inRun : bool) (s : jsstring) : list jsstring :=
  match s with
  | [] => [[]]
  | c :: s' =>
      if isWhiteSpace c then
        if inRun then splitFrom true s' else [] :: splitFrom true s'
      else
        match splitFrom false s' with
        | piece :: pieces => (c :: piece) :: pieces
        | [] => [[c]]
        end
  end.

Definition split (text : jsstring) : list jsstring := splitFrom false text.

(** [text.split(/\s+/).filter(word => word.length > 0)]. *)
Definition words (text : jsstring) : list jsstring := filter truthy (split text).

(** The figure of the word count entry. *)
Definition wordCount (text : jsstring) : nat := length (words text).

(** [\w]: a letter, a digit or the underscore. *)
Definition isWordChar (c : N) : bool :=
  (((48 <=? c) && (c <=? 57)) || ((65 <=? c) && (c <=? 90))
   || (c =? 95) || ((97 <=? c) && (c <=? 122)))%N.

(** [text.match(/[^\w\s]/g) || []]. *)
Definition specialChars (text : jsstring) : jsstring :=
  filter (fun c => negb (isWordChar c) && negb (isWhiteSpace c)) text.

(** Get text quality assessment. The two quotients are compared as exact
    fractions: [specialChars / length > 0.3] as
    [10 * specialChars > 3 * length], and the average word length
    [nonWhitespace / words] against 2 and 15 by cross-multiplication; in
    double precision the comparisons come out the same for every string
    shorter than 2^50 code units. *)
Definition getTextQuality (extractedText : jsstring) : jsstring :=
  if negb (truthy extractedText) then lit "No text"
  else
    let length := length extractedText in
    let words := wordCount extractedText in
    let nonWhitespace := List.length (Shape.ink extractedText) in
    let specialChars := List.length (specialChars extractedText) in
    if (length <? 100)%nat then lit "Very short"
    else if (3 * length <? 10 * specialChars)%nat then lit "Potentially corrupted"
    else if (if (words =? 0)%nat then true
             else (nonWhitespace <? 2 * words)%nat
                  || (15 * words <? nonWhitespace)%nat)
    then lit "Questionable quality"
    else lit "Good quality".

End DocumentInfo.

(** ** Replies, documents and sessions that the statements speak of *)

Module Cases.
Import JS.

(** [x] stands in [r] as it is, between some [p] and some [q]. *)
Definition within (x r : jsstring) : Prop := exists p q, r = p ++ x ++ q.

(** A reply fenced without the json tag, one with the opening fence only
    and one with the closing fence only. *)
Definition plainFenced (body : jsstring) : jsstring :=
  lit "```" ++ [10%N] ++ body ++ [10%N] ++ lit "```".
Definition opened (body : jsstring) : jsstring := lit "```json" ++ body.
Definition closed (body : jsstring) : jsstring := body ++ lit "```".

(** The text of an item, as [pageText] reads it. *)
Definition itemText (item : PDFUpload.TextContentItem) : jsstring :=
  match item with
  | PDFUpload.TextItem str => str
  | PDFUpload.TextMarkedContent => []
  end.

(** The words of all text items of all pages, in reading order. *)
Definition documentWords (pages : list PDFUpload.Page) : list jsstring :=
  concat (map (fun page => concat (map (fun item => DocumentInfo.words (itemText item)) page))
            pages).

Definition notice : jsstring := litq "NOTICE of termination: ~Tenant~ shall vacate,".

(** A page of one item and a page of three, with the same words. *)
Definition noticePagesA : list PDFUpload.Page :=
  [ [PDFUpload.TextItem (litq "  NOTICE of   termination: ~Tenant~ shall vacate, ")];
    [PDFUpload.TextItem (lit "the premises within thirty (30) days of this letter.")] ].
Definition noticePagesB : list PDFUpload.Page :=
  [ [PDFUpload.TextItem (lit "NOTICE of"); PDFUpload.TextMarkedContent;
     PDFUpload.TextItem (litq "termination: ~Tenant~")];
    [PDFUpload.TextItem (lit "shall vacate, the premises within thirty (30)")];
    [];
    [PDFUpload.TextItem (lit "days of this letter.")] ].

End Cases.

(** ** What holds of every session *)

Module Invariant.
Import JS Session.

Record Holds (s : t) : Prop := {
  idle : mounted s = false -> s = initial;
  file_valid :
    forall file, App.uploadedFile (app s) = Some file ->
                 PDFUpload.validate file = None;
  extracting :
    pendingExtractions s = 0%nat
    \/ (pendingExtractions s = 1%nat /\ App.extractedText (app s) = []);
  text_clean :
    App.extractedText (app s) = []
    \/ (pendingExtractions s = 0%nat
        /\ (50 <= length (App.extractedText (app s)))%nat
        /\ PDFUpload.cleanText (App.extractedText (app s))
           = App.extractedText (app s));
  analyses_current :
    Forall (fun text => text = App.extractedText (app s) /\ text <> [])
      (pendingAnalyses s);
  asks_current :
    Forall (fun call => documentText call = App.extractedText (app s)
                        /\ documentText call <> []
                        /\ question call <> [])
      (pendingAsks s);
  one_question :
    (pendingAsks s = [] /\ ChatInterface.isLoading (chat s) = false)
    \/ ((exists call, pendingAsks s = [call])
        /\ ChatInterface.isLoading (chat s) = true);
  analyzing_pending :
    App.isAnalyzing (app s) = true -> pendingAnalyses s <> [];
  greeting_first :
    match ChatInterface.messages (chat s) with
    | [] => True
    | m :: _ => exists now, m = welcomeMessage now (fileName s)
    end
}.

(** What the effects have seen to once a render is over. *)
Record Settled_ (API_KEY : option jsstring) (s : t) : Prop := {
  greeted :
    App.extractedText (app s) <> [] -> ChatInterface.messages (chat s) <> [];
  auto_started :
    App.extractedText (app s) <> [] -> isConfigured API_KEY = true ->
    DocumentAnalysis.autoAnalyzeStarted (doc s) = true
}.

End Invariant.

(** ** What the rendered page offers

    A handler of [Session.handle] runs whenever its event is raised. The
    page raises an event only through a control that it renders, enabled:
    the conditions below are those of the JSX of [App], [DocumentAnalysis]
    and [ChatInterface]. *)

Module Page.
Import JS Session.

(** The value of a member of a parsed object: the last of that name. *)
Fixpoint member (key : jsstring) (members : list (jsstring * json)) : option json :=
  match members with
  | [] => None
  | (k, v) :: rest =>
      match member key rest with
      | Some v' => Some v'
      | None => if eqb k key then Some v else None
      end
  end.

Definition isString (v : option json) : bool :=
  match v with Some (JString _) => true | _ => false end.

Definition isStrings (v : option json) : bool :=
  match v with
  | Some (JArray items) =>
      forallb (fun item => match item with JString _ => true | _ => false end) items
  | _ => false
  end.

(** [interface AnalysisResult] of [gemini.ts]: the shape that the results
    of [DocumentAnalysis] read off the stored value, field by field. *)
Definition isAnalysisResult (v : json) : bool :=
  match v with
  | JObject members =>
      isString (member (lit "summary") members)
      && isStrings (member (lit "keyPoints") members)
      && isStrings (member (lit "legalIssues") members)
      && isStrings (member (lit "recommendations") members)
      && isString (member (lit "documentType") members)
      && isStrings (member (lit "parties") members)
      && isStrings (member (lit "dates") members)
      && isString (member (lit "jurisdiction") members)
  | _ => false
  end.

Section Rendered.

Variable API_KEY : option jsstring.


(** [DocumentAnalysis]: with a key, and while no analysis is running, a
    stored result is shown with the re-analyze button under it. The JSX
    reads the fields of [AnalysisResult] off the stored value, so the
    condition asks for a value of that shape: the render of another value
    throws. *)
Definition resultsRendered (s : t) : bool :=
  mounted s && isConfigured API_KEY && negb (App.isAnalyzing (app s))
  && match DocumentAnalysis.analysis (doc s) with
     | Some result => isAnalysisResult result
     | None => false
     end.




End Rendered.

End Page.

(** * Properties *)

Import JS.

(** ** The reference JSON functions on small texts *)

Example parse_nested :
  Json.parse (litq " {~a~ : [1, -2.5e+3, true, null, ~x\u0041~], ~b~:{} } ")
  = Some (JObject
            [ (lit "a", JArray [JNumber (lit "1"); JNumber (lit "-2.5e+3");
                                JBool true; JNull; JString (lit "xA")]);
              (lit "b", JObject []) ]).
Proof. vm_compute. reflexivity. Qed.

Example parse_rejects :
  map Json.parse [lit ""; lit "[1,]"; lit "{} x"; lit "01"; litq "{~a~}";
                  lit "Here is the analysis: {}"]
  = [None; None; None; None; None; None].
Proof. vm_compute. reflexivity. Qed.

Example stringify_indents :
  Json.stringify
    (JObject [ (lit "a", JArray [JNumber (lit "1"); JString (litq "x~y")]);
               (lit "b", JObject []) ])
  = litq "{
  ~a~: [
    1,
    ~x\~y~
  ],
  ~b~: {}
}".
Proof. vm_compute. reflexivity. Qed.

(** ** Strings *)

Lemma trim_app_ws (s : jsstring) (c : N) :
  isWhiteSpace c = true -> trim (s ++ [c]) = trim s.
Proof.
  intros Hc. unfold trim.
  induction s as [|a s IH]; simpl.
  - rewrite Hc. reflexivity.
  - destruct (isWhiteSpace a) eqn:Ha; [exact IH|].
    unfold trimEnd. change (a :: s ++ [c]) with ((a :: s) ++ [c]).
    rewrite rev_app_distr. simpl rev at 1. simpl app.
    cbn [trimStart]. rewrite Hc. reflexivity.
Qed.

Lemma trim_cons_ws (s : jsstring) (c : N) :
  isWhiteSpace c = true -> trim (c :: s) = trim s.
Proof. intros Hc. unfold trim. simpl. rewrite Hc. reflexivity. Qed.

Lemma startsWith_app (p r : jsstring) : startsWith (p ++ r) p = true.
Proof.
  induction p as [|a p IH]; simpl; [reflexivity|].
  rewrite N.eqb_refl. exact IH.
Qed.

Lemma endsWith_app (s p : jsstring) : endsWith (s ++ p) p = true.
Proof. unfold endsWith. rewrite rev_app_distr. apply startsWith_app. Qed.

Lemma substringFrom_skipn (s : jsstring) (n : nat) :
  (n <= length s)%nat -> substringFrom s (Z.of_nat n) = skipn n s.
Proof.
  intros Hn. unfold substringFrom, substring, clamp.
  rewrite !Nat2Z.id.
  replace (Nat.min (length s) n) with n by lia.
  rewrite Nat.min_id.
  replace (Nat.max n (length s)) with (length s) by lia.
  replace (Nat.min n (length s)) with n by lia.
  apply firstn_all2. rewrite length_skipn. lia.
Qed.

Lemma substring_drop_suffix (s p : jsstring) :
  substring (s ++ p) 0 (Z.of_nat (length (s ++ p)) - Z.of_nat (length p)) = s.
Proof.
  unfold substring, clamp. rewrite length_app.
  replace (Z.of_nat (length s + length p) - Z.of_nat (length p))%Z
    with (Z.of_nat (length s)) by lia.
  rewrite Nat2Z.id. simpl Z.to_nat.
  rewrite Nat.min_0_r.
  replace (Nat.min (length s + length p) (length s)) with (length s) by lia.
  rewrite Nat.max_0_l, Nat.min_0_l, Nat.sub_0_r. simpl skipn.
  rewrite firstn_app, Nat.sub_diag, firstn_all. simpl. apply app_nil_r.
Qed.

Lemma trim_guarded (a b : N) (r : jsstring) :
  isWhiteSpace a = false -> isWhiteSpace b = false ->
  trim ((a :: r) ++ [b]) = (a :: r) ++ [b].
Proof.
  intros Ha Hb. unfold trim.
  assert (Hstart : trimStart ((a :: r) ++ [b]) = (a :: r) ++ [b])
    by (simpl; rewrite Ha; reflexivity).
  rewrite Hstart. unfold trimEnd. rewrite rev_app_distr.
  change (rev [b] ++ rev (a :: r)) with (b :: rev (a :: r)).
  cbn [trimStart]. rewrite Hb.
  change (b :: rev (a :: r)) with ([b] ++ rev (a :: r)).
  rewrite rev_app_distr, rev_involutive. reflexivity.
Qed.

(** ** The response cleaner *)

Lemma clean_fenced (s : jsstring) :
  Gemini.cleanGeminiResponse (Samples.fenced s) = trim s.
Proof.
  unfold Gemini.cleanGeminiResponse.
  assert (Hshape : Samples.fenced s
                   = (96%N :: lit "``json" ++ [10%N] ++ s ++ [10%N] ++ lit "``")
                       ++ [96%N]).
  { unfold Samples.fenced. simpl. rewrite <- app_assoc. reflexivity. }
  assert (Htrim : trim (Samples.fenced s) = Samples.fenced s).
  { rewrite Hshape. apply trim_guarded; reflexivity. }
  rewrite Htrim.
  assert (Hhead : startsWith (Samples.fenced s) (lit "```json") = true)
    by apply startsWith_app.
  rewrite Hhead.
  assert (Hskip : substringFrom (Samples.fenced s) 7
                  = ([10%N] ++ s ++ [10%N]) ++ lit "```").
  { change 7%Z with (Z.of_nat 7). rewrite substringFrom_skipn.
    - unfold Samples.fenced. simpl. rewrite <- app_assoc. reflexivity.
    - unfold Samples.fenced. simpl. lia. }
  rewrite Hskip. rewrite endsWith_app.
  change 3%Z with (Z.of_nat (length (lit "```"))).
  rewrite substring_drop_suffix.
  change ([10%N] ++ s ++ [10%N]) with (10%N :: (s ++ [10%N])).
  rewrite trim_cons_ws by reflexivity.
  apply trim_app_ws. reflexivity.
Qed.

Lemma trimStart_snoc (l : jsstring) (c : N) :
  trimStart (l ++ [c]) =
  match trimStart l with
  | [] => if isWhiteSpace c then [] else [c]
  | r => r ++ [c]
  end.
Proof.
  induction l as [|a l IH]; simpl; [reflexivity|].
  destruct (isWhiteSpace a); [exact IH | reflexivity].
Qed.

Lemma trimEnd_cons (c : N) (s : jsstring) :
  trimEnd (c :: s) =
  match trimEnd s with
  | [] => if isWhiteSpace c then [] else [c]
  | r => c :: r
  end.
Proof.
  unfold trimEnd. simpl rev at 1. rewrite trimStart_snoc.
  destruct (trimStart (rev s)) as [|x r] eqn:E.
  - simpl. destruct (isWhiteSpace c); reflexivity.
  - rewrite rev_app_distr. change (rev [c]) with [c].
    change ([c] ++ rev (x :: r)) with (c :: rev (x :: r)).
    destruct (rev (x :: r)) as [|y q] eqn:E'; [|reflexivity].
    apply (f_equal (@length N)) in E'. rewrite length_rev in E'. discriminate.
Qed.

Lemma trimStart_trimEnd (s : jsstring) :
  trimStart (trimEnd s) = trimEnd (trimStart s).
Proof.
  induction s as [|c s IH]; [reflexivity|].
  simpl trimStart at 2. destruct (isWhiteSpace c) eqn:Hc.
  - rewrite <- IH, trimEnd_cons.
    destruct (trimEnd s); rewrite ?Hc; simpl; rewrite ?Hc; reflexivity.
  - rewrite trimEnd_cons.
    destruct (trimEnd s); rewrite ?Hc; simpl; rewrite ?Hc; reflexivity.
Qed.

Lemma trimStart_idem (s : jsstring) : trimStart (trimStart s) = trimStart s.
Proof.
  induction s as [|c s IH]; [reflexivity|].
  simpl. destruct (isWhiteSpace c) eqn:Hc; [exact IH|].
  simpl. rewrite Hc. reflexivity.
Qed.

Lemma trim_idem (s : jsstring) : trim (trim s) = trim s.
Proof.
  unfold trim. rewrite trimStart_trimEnd, trimStart_idem.
  unfold trimEnd. rewrite rev_involutive, trimStart_idem. reflexivity.
Qed.

Lemma startsWith_longer (s p q : jsstring) :
  startsWith s p = false -> startsWith s (p ++ q) = false.
Proof.
  revert s. induction p as [|a p IH]; intros s H; simpl in *; [discriminate|].
  destruct s as [|b s]; [reflexivity|].
  destruct (a =? b)%N; simpl in *; [apply IH; exact H | reflexivity].
Qed.

(** A reply without fence at either end is only trimmed. *)
Lemma clean_unfenced (s : jsstring) :
  startsWith (trim s) (lit "```") = false ->
  endsWith (trim s) (lit "```") = false ->
  Gemini.cleanGeminiResponse s = trim s.
Proof.
  intros Hs He. unfold Gemini.cleanGeminiResponse.
  change (lit "```json") with (lit "```" ++ lit "json").
  rewrite (startsWith_longer _ _ _ Hs), Hs, He.
  apply trim_idem.
Qed.

(** ** [GeminiService.analyzeDocument] *)

Lemma configured_model (API_KEY : option jsstring) :
  Gemini.isConfigured API_KEY = true -> Gemini.model API_KEY = Some tt.
Proof.
  unfold Gemini.isConfigured, Gemini.model, Gemini.genAI.
  destruct (Gemini.hasKey API_KEY); [reflexivity | discriminate].
Qed.

Lemma unconfigured_model (API_KEY : option jsstring) :
  Gemini.isConfigured API_KEY = false -> Gemini.model API_KEY = None.
Proof.
  unfold Gemini.isConfigured, Gemini.model, Gemini.genAI.
  destruct (Gemini.hasKey API_KEY); [discriminate | reflexivity].
Qed.

(** C5: cleaning a reply that wraps a body [s] in a json code fence yields
    exactly the trimmed [s], for every [s]; so whatever [JSON.parse] is, the
    fenced reply parses as the trimmed body does. And when the trimmed body
    has no fence of its own, the cleaner only trims the bare body, so
    [analyzeDocument] settles alike on the fenced and on the bare reply. *)
Theorem fenced_reply_cleans_to_trimmed_body (s : jsstring) :
  Gemini.cleanGeminiResponse (Samples.fenced s) = trim s
  /\ (forall JSON_parse : jsstring -> option json,
        JSON_parse (Gemini.cleanGeminiResponse (Samples.fenced s))
        = JSON_parse (trim s))
  /\ (startsWith (trim s) (lit "```") = false ->
      endsWith (trim s) (lit "```") = false ->
      Gemini.cleanGeminiResponse s = trim s
      /\ forall API_KEY JSON_parse text,
           Gemini.analyzeDocument API_KEY (Samples.replies (Samples.fenced s))
             JSON_parse text
           = Gemini.analyzeDocument API_KEY (Samples.replies s) JSON_parse text).
Proof.
  split; [apply clean_fenced|].
  split; [intros P; rewrite clean_fenced; reflexivity|].
  intros Hs He. split; [apply clean_unfenced; assumption|].
  intros API_KEY P text. unfold Gemini.analyzeDocument, Samples.replies.
  rewrite clean_fenced, clean_unfenced by assumption. reflexivity.
Qed.

Lemma fenced_reply_cleans_to_trimmed_body_witness :
  startsWith (trim Samples.summaryBody) (lit "```") = false
  /\ endsWith (trim Samples.summaryBody) (lit "```") = false
  /\ Gemini.cleanGeminiResponse (Samples.fenced Samples.summaryBody)
     = trim Samples.summaryBody
  /\ Gemini.analyzeDocument Samples.key
       (Samples.replies (Samples.fenced Samples.summaryBody)) Json.parse []
     = Gemini.analyzeDocument Samples.key
         (Samples.replies Samples.summaryBody) Json.parse [].
Proof.
  destruct (fenced_reply_cleans_to_trimmed_body Samples.summaryBody)
    as [Hclean [_ Hpipe]].
  split; [reflexivity|]. split; [reflexivity|]. split; [exact Hclean|].
  destruct (Hpipe eq_refl eq_refl) as [_ Hsame].
  exact (Hsame Samples.key Json.parse []).
Defined.

(** The fenced reply of the specification's example, run through the
    reference parser. *)
Example fenced_summary_parses :
  Gemini.analyzeDocument Samples.key
    (Samples.replies (Samples.fenced Samples.summaryBody)) Json.parse (lit "text")
  = Fulfilled (JObject [(lit "summary", JString (lit "x"))]).
Proof. vm_compute. reflexivity. Qed.

(** C1: when the key is configured and the endpoint answers with a reply
    whose cleaned text [JSON.parse] rejects, [analyzeDocument] does not
    reject: it fulfils with the fixed fallback record, whose eight fields
    hold the hard-coded values below. So it does on a reply that wraps in
    a code fence a body that [JSON.parse] rejects. *)
Theorem parse_failure_yields_fallback
    (API_KEY : option jsstring) (generateContent : Gemini.GenerativeModel)
    (JSON_parse : jsstring -> option json) (text : jsstring) :
  Gemini.isConfigured API_KEY = true ->
  let outcome := Gemini.analyzeDocument API_KEY generateContent JSON_parse text in
  let strings := fun l => JArray (map (fun s => JString (lit s)) l) in
  let fallback :=
    JObject
      [ (lit "summary",
         JString (lit "Document analysis completed. The AI has processed the available content and extracted key information where possible."));
        (lit "keyPoints",
         strings ["Document uploaded and processed";
                  "Content analyzed for key information";
                  "Analysis completed with available data"]%string);
        (lit "legalIssues",
         strings ["Text extraction quality may affect analysis accuracy"]%string);
        (lit "recommendations",
         strings ["Review the original document for complete accuracy";
                  "Consider re-uploading if text appears corrupted";
                  "Consult with a legal professional for important matters"]%string);
        (lit "documentType", JString (lit "Document (type analysis in progress)"));
        (lit "parties", strings ["Analysis in progress"]%string);
        (lit "dates", strings ["Analysis in progress"]%string);
        (lit "jurisdiction", JString (lit "Not specified")) ] in
  (forall reply,
     generateContent (Gemini.analysisPrompt text) = Fulfilled reply ->
     JSON_parse (Gemini.cleanGeminiResponse reply) = None ->
     outcome = Fulfilled fallback)
  /\ (forall body,
        generateContent (Gemini.analysisPrompt text)
        = Fulfilled (Samples.fenced body) ->
        JSON_parse (trim body) = None ->
        outcome = Fulfilled fallback)
  /\ Page.isAnalysisResult fallback = true.
Proof.
  intros Hcfg outcome strings fallback.
  assert (H : forall reply,
             generateContent (Gemini.analysisPrompt text) = Fulfilled reply ->
             JSON_parse (Gemini.cleanGeminiResponse reply) = None ->
             outcome = Fulfilled fallback).
  { intros reply Hcall Hparse. unfold outcome, Gemini.analyzeDocument.
    rewrite (configured_model _ Hcfg), Hcall, Hparse. reflexivity. }
  split; [exact H|]. split.
  - intros body Hcall Hparse. apply (H _ Hcall).
    rewrite clean_fenced. exact Hparse.
  - vm_compute. reflexivity.
Qed.

Lemma parse_failure_yields_fallback_witness :
  Json.parse (trim Samples.malformedBody) = None
  /\ Gemini.analyzeDocument Samples.key
       (Samples.replies (Samples.fenced Samples.malformedBody)) Json.parse
       (lit "LEASE AGREEMENT")
     = Fulfilled Gemini.fallbackAnalysis
  /\ Gemini.analyzeDocument Samples.key
       (Samples.replies (lit "I cannot analyze this document.")) Json.parse
       (lit "LEASE AGREEMENT")
     = Fulfilled Gemini.fallbackAnalysis.
Proof.
  pose proof (parse_failure_yields_fallback Samples.key
                (Samples.replies (Samples.fenced Samples.malformedBody))
                Json.parse (lit "LEASE AGREEMENT") eq_refl) as H1.
  pose proof (parse_failure_yields_fallback Samples.key
                (Samples.replies (lit "I cannot analyze this document."))
                Json.parse (lit "LEASE AGREEMENT") eq_refl) as H2.
  cbv zeta in H1, H2.
  destruct H1 as (_ & H1 & _). destruct H2 as (H2 & _).
  split; [reflexivity|]. split.
  - exact (H1 Samples.malformedBody eq_refl eq_refl).
  - exact (H2 (lit "I cannot analyze this document.") eq_refl eq_refl).
Defined.

(** C2: when the endpoint call fails, [analyzeDocument] rejects with an
    [Error] (the analysis-failed message; the not-configured message when
    there is no key), never fulfils, and so never yields the fallback
    record; the caller then records the message and stores no result. *)
Theorem transport_failure_rejects
    (API_KEY : option jsstring) (generateContent : Gemini.GenerativeModel)
    (JSON_parse : jsstring -> option json) (text : jsstring) (e : Thrown) :
  generateContent (Gemini.analysisPrompt text) = Rejected e ->
  let outcome := Gemini.analyzeDocument API_KEY generateContent JSON_parse text in
  let message := if Gemini.isConfigured API_KEY
                 then Gemini.analyzeFailedMessage
                 else Gemini.notConfiguredMessage in
  outcome = Rejected (ErrorObject message)
  /\ (forall v, outcome <> Fulfilled v)
  /\ forall (JSON_stringify : json -> jsstring) (s : Session.t),
       let s' := Session.analyzeDocumentSettled JSON_stringify outcome s in
       Session.DocumentAnalysis.analysis (Session.doc s')
       = Session.DocumentAnalysis.analysis (Session.doc s)
       /\ Session.DocumentAnalysis.error (Session.doc s') = Some message.
Proof.
  intros Hcall outcome message.
  assert (Hout : outcome = Rejected (ErrorObject message)).
  { unfold outcome, message, Gemini.analyzeDocument.
    destruct (Gemini.isConfigured API_KEY) eqn:Hcfg.
    - rewrite (configured_model _ Hcfg), Hcall. reflexivity.
    - rewrite (unconfigured_model _ Hcfg). reflexivity. }
  split; [exact Hout|]. split.
  - intros v Hv. rewrite Hout in Hv. discriminate.
  - intros JSON_stringify s. rewrite Hout. split; reflexivity.
Qed.

Lemma transport_failure_rejects_witness :
  Gemini.analyzeDocument Samples.key Samples.networkDown Json.parse
    (lit "LEASE AGREEMENT")
  = Rejected (ErrorObject Gemini.analyzeFailedMessage).
Proof.
  exact (proj1 (transport_failure_rejects Samples.key Samples.networkDown
                  Json.parse (lit "LEASE AGREEMENT")
                  (e := ErrorObject (lit "fetch failed")) eq_refl)).
Defined.

(** C10: when the key is configured and the endpoint answers, every value
    that [JSON.parse] yields for the cleaned reply is returned as it is,
    without a check of its fields; the fallback record comes out only when
    [JSON.parse] throws (or when the reply spells that very record). *)
Theorem parsed_reply_returned_verbatim
    (API_KEY : option jsstring) (generateContent : Gemini.GenerativeModel)
    (JSON_parse : jsstring -> option json) (text reply : jsstring) :
  Gemini.isConfigured API_KEY = true ->
  generateContent (Gemini.analysisPrompt text) = Fulfilled reply ->
  let outcome := Gemini.analyzeDocument API_KEY generateContent JSON_parse text in
  (forall v, JSON_parse (Gemini.cleanGeminiResponse reply) = Some v ->
             outcome = Fulfilled v)
  /\ (outcome = Fulfilled Gemini.fallbackAnalysis ->
      JSON_parse (Gemini.cleanGeminiResponse reply) = None
      \/ JSON_parse (Gemini.cleanGeminiResponse reply) = Some Gemini.fallbackAnalysis).
Proof.
  intros Hcfg Hcall outcome. unfold outcome, Gemini.analyzeDocument.
  rewrite (configured_model _ Hcfg), Hcall.
  destruct (JSON_parse (Gemini.cleanGeminiResponse reply)) as [v|].
  - split.
    + intros v' Hv. injection Hv as <-. reflexivity.
    + intros H. injection H as ->. right. reflexivity.
  - split; [discriminate | left; reflexivity].
Qed.

Lemma parsed_reply_returned_verbatim_witness :
  Gemini.analyzeDocument Samples.key (Samples.replies (lit "{}")) Json.parse
    (lit "LEASE AGREEMENT") = Fulfilled (JObject [])
  /\ Gemini.analyzeDocument Samples.key (Samples.replies (lit "[]")) Json.parse
       (lit "LEASE AGREEMENT") = Fulfilled (JArray [])
  /\ Gemini.analyzeDocument Samples.key (Samples.replies (lit "null")) Json.parse
       (lit "LEASE AGREEMENT") = Fulfilled JNull.
Proof.
  split; [|split].
  - exact (proj1 (parsed_reply_returned_verbatim Samples.key
                    (Samples.replies (lit "{}")) Json.parse
                    (lit "LEASE AGREEMENT") (reply := lit "{}") eq_refl eq_refl)
             (JObject []) eq_refl).
  - exact (proj1 (parsed_reply_returned_verbatim Samples.key
                    (Samples.replies (lit "[]")) Json.parse
                    (lit "LEASE AGREEMENT") (reply := lit "[]") eq_refl eq_refl)
             (JArray []) eq_refl).
  - exact (proj1 (parsed_reply_returned_verbatim Samples.key
                    (Samples.replies (lit "null")) Json.parse
                    (lit "LEASE AGREEMENT") (reply := lit "null") eq_refl eq_refl)
             JNull eq_refl).
Defined.

(** ** [extractTextFromPDF] *)

Lemma promiseAll_fulfilled (pages : list PDFUpload.Page) :
  PDFUpload.promiseAll
    (map (fun p => match p with
                   | Fulfilled page => Fulfilled (PDFUpload.pageText page)
                   | Rejected e => Rejected e
                   end) (map (@Fulfilled PDFUpload.Page) pages))
  = Fulfilled (map PDFUpload.pageText pages).
Proof.
  induction pages as [|p pages IH]; simpl; [reflexivity|].
  rewrite IH. reflexivity.
Qed.

Lemma extract_loaded (pages : list PDFUpload.Page) :
  PDFUpload.extractTextFromPDF (Samples.loadedWith pages)
  = let cleanedText :=
      PDFUpload.cleanText (join [10; 10]%N (map PDFUpload.pageText pages)) in
    if (length cleanedText <? 50)%nat
    then Rejected (ErrorObject PDFUpload.notAConstructorMessage)
    else Fulfilled cleanedText.
Proof.
  unfold PDFUpload.extractTextFromPDF, Samples.loadedWith. cbn [PDFUpload.pages].
  rewrite promiseAll_fulfilled. cbv zeta.
  destruct (PDFUpload.cleanText _) as [|c r]; reflexivity.
Qed.

(** C4: when the document loads and every page yields its text content,
    extraction fulfils with the cleaned text exactly when that text has at
    least 50 code units. Below 50 the code sets out to reject with the
    insufficient-text error and misses it: in this file [Error] is the
    imported icon, so the [throw new Error] statement itself throws, and
    extraction rejects with the TypeError of the engine, whose message
    says nothing of the text. So it does on the scanned document, two
    pages without a text item. *)
Theorem insufficient_text_rejects_with_type_error :
  let notAConstructor := ErrorObject (lit "Error is not a constructor") in
  let insufficientText :=
    ErrorObject (lit "Could not extract sufficient readable text from the PDF. The document might be image-based, password-protected, or contain mostly non-text content.") in
  PDFUpload.extractTextFromPDF (Samples.loadedWith Samples.scannedPages)
  = Rejected notAConstructor
  /\ notAConstructor <> insufficientText
  /\ forall pages : list PDFUpload.Page,
       let cleanedText :=
         PDFUpload.cleanText (join [10; 10]%N (map PDFUpload.pageText pages)) in
       let outcome := PDFUpload.extractTextFromPDF (Samples.loadedWith pages) in
       ((50 <= length cleanedText)%nat -> outcome = Fulfilled cleanedText)
       /\ ((length cleanedText < 50)%nat -> outcome = Rejected notAConstructor)
       /\ ((exists text, outcome = Fulfilled text)
           <-> (50 <= length cleanedText)%nat).
Proof.
  intros notAConstructor insufficientText.
  split; [vm_compute; reflexivity|]. split; [discriminate|].
  intros pages cleanedText outcome. unfold outcome. rewrite extract_loaded.
  fold cleanedText. cbv zeta.
  destruct (Nat.ltb_spec (length cleanedText) 50) as [Hlt|Hge].
  - split; [lia|]. split; [reflexivity|].
    split; [intros [text H]; discriminate | lia].
  - split; [reflexivity|]. split; [lia|].
    split; [intros _; exact Hge | intros _; eexists; reflexivity].
Qed.

(** ** The clean-up of the extracted text *)

Lemma replaceWhitespace_units (inRun : bool) (s : jsstring) (c : N) :
  In c (PDFUpload.replaceWhitespaceFrom inRun s) ->
  isWhiteSpace c = true -> c = 32%N.
Proof.
  revert inRun. induction s as [|a s IH]; intros inRun Hin Hc; simpl in Hin.
  - contradiction.
  - destruct (isWhiteSpace a) eqn:Ha.
    + apply in_app_or in Hin. destruct Hin as [Hin|Hin]; [|eauto].
      destruct inRun; simpl in Hin; [contradiction|].
      destruct Hin as [<-|[]]. reflexivity.
    + destruct Hin as [<-|Hin]; [congruence | eauto].
Qed.

Lemma removeEmptyLines_without_lf (s : jsstring) :
  ~ In 10%N s -> PDFUpload.removeEmptyLinesFrom 0 s = s.
Proof.
  induction s as [|c s IH]; intros Hno; simpl; [reflexivity|].
  destruct (N.eqb_spec c 10) as [->|Hc].
  - exfalso. apply Hno. left. reflexivity.
  - rewrite IH; [reflexivity|]. intros Hin. apply Hno. right. exact Hin.
Qed.

Lemma trimStart_incl (s : jsstring) (c : N) : In c (trimStart s) -> In c s.
Proof.
  induction s as [|a s IH]; simpl; [tauto|].
  destruct (isWhiteSpace a); [intros H; right; auto | tauto].
Qed.

Lemma trim_incl (s : jsstring) (c : N) : In c (trim s) -> In c s.
Proof.
  unfold trim, trimEnd. intros H.
  apply in_rev in H. apply trimStart_incl in H. apply in_rev in H.
  apply trimStart_incl. exact H.
Qed.

(** The second replacement never finds a match: the first one has turned
    every line feed into a space. *)
Lemma removeEmptyLines_dead (s : jsstring) :
  PDFUpload.removeEmptyLines (PDFUpload.replaceWhitespace s)
  = PDFUpload.replaceWhitespace s.
Proof.
  apply removeEmptyLines_without_lf. intros Hin.
  apply replaceWhitespace_units in Hin; [discriminate | reflexivity].
Qed.

Lemma cleanText_unfold (s : jsstring) :
  PDFUpload.cleanText s = trim (PDFUpload.replaceWhitespace s).
Proof. unfold PDFUpload.cleanText. rewrite removeEmptyLines_dead. reflexivity. Qed.

(** What the clean-up does achieve: every whitespace run of the text is one
    space, and none is left at either end. *)
Lemma replaceWhitespace_single (inRun : bool) (s : jsstring) :
  Shape.noWhitespaceRun (PDFUpload.replaceWhitespaceFrom inRun s) = true
  /\ (inRun = true ->
      match PDFUpload.replaceWhitespaceFrom inRun s with
      | c :: _ => isWhiteSpace c = false
      | [] => True
      end).
Proof.
  revert inRun. induction s as [|a s IH]; intros inRun; simpl.
  - split; [reflexivity | trivial].
  - destruct (isWhiteSpace a) eqn:Ha.
    + destruct (IH true) as [Hrun Hhead]. specialize (Hhead eq_refl).
      destruct inRun; simpl.
      * split; [exact Hrun | intros _; exact Hhead].
      * split; [|discriminate].
        destruct (PDFUpload.replaceWhitespaceFrom true s) as [|c r]; [reflexivity|].
        cbn [Shape.noWhitespaceRun] in Hrun |- *. rewrite Hhead in Hrun |- *.
        exact Hrun.
    + destruct (IH false) as [Hrun _]. split; [|intros _; exact Ha].
      destruct (PDFUpload.replaceWhitespaceFrom false s) as [|c r]; [reflexivity|].
      cbn [Shape.noWhitespaceRun]. rewrite Ha. exact Hrun.
Qed.

Lemma noWhitespaceRun_tail (a : N) (s : jsstring) :
  Shape.noWhitespaceRun (a :: s) = true -> Shape.noWhitespaceRun s = true.
Proof.
  destruct s as [|b s]; [reflexivity|].
  cbn [Shape.noWhitespaceRun]. intros H. apply andb_prop in H. apply H.
Qed.

Lemma noWhitespaceRun_prefix (p q : jsstring) :
  Shape.noWhitespaceRun (p ++ q) = true -> Shape.noWhitespaceRun p = true.
Proof.
  induction p as [|a p IH]; [reflexivity|].
  intros H. pose proof (noWhitespaceRun_tail _ _ H) as Ht.
  destruct p as [|b p]; [reflexivity|].
  cbn [app Shape.noWhitespaceRun] in H |- *.
  apply andb_prop in H. destruct H as [H _]. rewrite H. apply IH. exact Ht.
Qed.

Lemma trimStart_keeps_single (s : jsstring) :
  Shape.noWhitespaceRun s = true -> Shape.noWhitespaceRun (trimStart s) = true.
Proof.
  induction s as [|a s IH]; [reflexivity|].
  intros H. simpl. destruct (isWhiteSpace a); [|exact H].
  apply IH. exact (noWhitespaceRun_tail _ _ H).
Qed.

Lemma trimEnd_prefix (s : jsstring) : exists q, s = trimEnd s ++ q.
Proof.
  induction s as [|c s [q IH]]; [exists []; reflexivity|].
  rewrite trimEnd_cons. destruct (trimEnd s) as [|x r].
  - destruct (isWhiteSpace c); [exists (c :: s) | exists s]; reflexivity.
  - exists q. simpl. rewrite IH at 1. reflexivity.
Qed.

Lemma replaceWhitespace_ink (inRun : bool) (s : jsstring) :
  Shape.ink (PDFUpload.replaceWhitespaceFrom inRun s) = Shape.ink s.
Proof.
  revert inRun. unfold Shape.ink.
  induction s as [|a s IH]; intros inRun; simpl; [reflexivity|].
  destruct (isWhiteSpace a) eqn:Ha; simpl.
  - rewrite filter_app, IH. destruct inRun; reflexivity.
  - rewrite Ha, IH. reflexivity.
Qed.

Lemma trimStart_ink (s : jsstring) : Shape.ink (trimStart s) = Shape.ink s.
Proof.
  unfold Shape.ink. induction s as [|a s IH]; simpl; [reflexivity|].
  destruct (isWhiteSpace a) eqn:Ha; simpl; [exact IH|].
  rewrite Ha. reflexivity.
Qed.

Lemma trim_ink (s : jsstring) : Shape.ink (trim s) = Shape.ink s.
Proof.
  unfold trim, trimEnd.
  change (Shape.ink (rev (trimStart (rev (trimStart s))))) 
    with (filter (fun c => negb (isWhiteSpace c))
            (rev (trimStart (rev (trimStart s))))).
  rewrite filter_rev.
  change (filter (fun c => negb (isWhiteSpace c)) (trimStart (rev (trimStart s))))
    with (Shape.ink (trimStart (rev (trimStart s)))).
  rewrite trimStart_ink. unfold Shape.ink at 1.
  rewrite filter_rev, rev_involutive. apply trimStart_ink.
Qed.

(** The text that the clean-up returns: every run of whitespace, line feeds
    included, has become one space, both ends are trimmed, and every other
    code unit is kept in place. *)
Lemma cleanText_single_spaced (s : jsstring) :
  Shape.noWhitespaceRun (PDFUpload.cleanText s) = true
  /\ Shape.onlySpaces (PDFUpload.cleanText s)
  /\ trim (PDFUpload.cleanText s) = PDFUpload.cleanText s
  /\ Shape.ink (PDFUpload.cleanText s) = Shape.ink s.
Proof.
  assert (Hunits : Shape.onlySpaces (PDFUpload.cleanText s)).
  { rewrite cleanText_unfold. intros c Hin. apply trim_incl in Hin.
    exact (replaceWhitespace_units _ _ _ Hin). }
  split; [|split; [exact Hunits|split]].
  - rewrite cleanText_unfold. unfold trim.
    destruct (trimEnd_prefix (trimStart (PDFUpload.replaceWhitespace s))) as [q Hq].
    apply noWhitespaceRun_prefix with (q := q). rewrite <- Hq.
    apply trimStart_keeps_single. apply replaceWhitespace_single.
  - rewrite cleanText_unfold. apply trim_idem.
  - rewrite cleanText_unfold, trim_ink. apply replaceWhitespace_ink.
Qed.

(** C3: on the text ["A B    C\n\n\nD"] the clean-up returns ["A B C D"],
    not ["A B C\nD"], and the two pages of the lease come out as one line:
    the first replacement has turned every run with line feeds into one
    space, so the replacement of blank lines by one line feed that follows
    never finds a match, and no cleaned text contains a line feed. *)
Theorem cleanText_flattens_line_feeds :
  PDFUpload.cleanText Samples.spacedText = lit "A B C D"
  /\ PDFUpload.cleanText Samples.spacedText <> lit "A B C" ++ [10%N] ++ lit "D"
  /\ PDFUpload.extractTextFromPDF (Samples.loadedWith Samples.leasePages)
     = Fulfilled (lit "LEASE AGREEMENT between Alice Landlord and Bob Tenant, governed by the laws of Ohio.")
  /\ (forall s, PDFUpload.removeEmptyLines (PDFUpload.replaceWhitespace s)
                = PDFUpload.replaceWhitespace s)
  /\ (forall s, ~ In 10%N (PDFUpload.cleanText s)).
Proof.
  split; [reflexivity|]. split; [vm_compute; discriminate|].
  split; [reflexivity|].
  split; [exact removeEmptyLines_dead|].
  intros s Hin.
  destruct (cleanText_single_spaced s) as (_ & Hunits & _).
  specialize (Hunits _ Hin eq_refl). discriminate.
Qed.

(** With line feeds kept by the first replacement, the second one does
    collapse the blank lines of the example into one line feed. *)
Example removeEmptyLines_on_kept_lines :
  trim (PDFUpload.removeEmptyLines (lit "A B C" ++ [10; 10; 10]%N ++ lit "D"))
  = lit "A B C" ++ [10%N] ++ lit "D".
Proof. reflexivity. Qed.

(** ** Progress reports *)

Lemma progressAt_le (numPages p q : nat) :
  (0 < numPages)%nat ->
  (PDFUpload.progressAt numPages p <= PDFUpload.progressAt numPages q)%Q
  <-> (p <= q)%nat.
Proof.
  intros Hn. destruct numPages as [|n]; [lia|].
  unfold PDFUpload.progressAt, Qle, Qdiv, Qmult, Qinv, inject_Z.
  change (Z.of_nat (S n)) with (Z.pos (Pos.of_succ_nat n)).
  cbn -[Z.mul Z.of_nat Pos.mul].
  split; intros H; nia.
Qed.

Lemma Sorted_map_iff {A B : Type} (R : A -> A -> Prop) (R' : B -> B -> Prop)
    (f : A -> B) :
  (forall a b, R' (f a) (f b) <-> R a b) ->
  forall l, Sorted R' (map f l) <-> Sorted R l.
Proof.
  intros Hf. induction l as [|a l IH]; simpl.
  - split; constructor.
  - split; intros H; apply Sorted_inv in H; destruct H as [Hs Hh];
      (constructor; [apply IH; exact Hs|]);
      destruct l as [|b l]; simpl in *; constructor;
      apply HdRel_inv in Hh; apply Hf; exact Hh.
Qed.

Lemma seq_sorted (start len : nat) : Sorted le (seq start len).
Proof.
  revert start. induction len as [|len IH]; intros start; simpl.
  - constructor.
  - constructor; [apply IH|].
    destruct len; simpl; constructor. lia.
Qed.

Lemma sorted_permutation_seq (len start : nat) (l : list nat) :
  Sorted le l -> Permutation l (seq start len) -> l = seq start len.
Proof.
  revert start l. induction len as [|len IH]; intros start l Hs Hp.
  - apply Permutation_sym, Permutation_nil in Hp. exact Hp.
  - destruct l as [|x l].
    + apply Permutation_nil in Hp. discriminate.
    + assert (Hx : x = start).
      { assert (Hge : (start <= x)%nat).
        { assert (Hin : In x (seq start (S len)))
            by (apply (Permutation_in _ Hp); left; reflexivity).
          apply in_seq in Hin. lia. }
        assert (Hin : In start (x :: l))
          by (apply (Permutation_in _ (Permutation_sym Hp)); left; reflexivity).
        destruct Hin as [Hin|Hin]; [exact Hin|].
        apply Sorted_StronglySorted in Hs; [|intros u v w; apply Nat.le_trans].
        apply StronglySorted_inv in Hs. destruct Hs as [_ Hall].
        rewrite Forall_forall in Hall. specialize (Hall _ Hin). lia. }
      subst x. simpl in Hp. apply Permutation_cons_inv in Hp.
      apply Sorted_inv in Hs. destruct Hs as [Hs _].
      simpl. f_equal. apply IH; assumption.
Qed.

(** C6, as the code has it: the value reported when the task of page [k]
    completes is [100 * k / numPages], whatever was reported before; so the
    reported sequence is non-decreasing exactly when the page numbers come
    in non-decreasing order, which for the pages 1 to [numPages], each
    completing once, is the ascending page order alone. *)
Theorem progress_follows_completion_order (numPages : nat) (order : list nat) :
  (0 < numPages)%nat ->
  (Sorted Qle (PDFUpload.progressReports numPages order) <-> Sorted le order)
  /\ (Permutation order (seq 1 numPages) ->
      (Sorted Qle (PDFUpload.progressReports numPages order)
       <-> order = seq 1 numPages)).
Proof.
  intros Hn.
  assert (H : Sorted Qle (PDFUpload.progressReports numPages order)
              <-> Sorted le order).
  { unfold PDFUpload.progressReports.
    apply Sorted_map_iff. intros a b. apply progressAt_le. exact Hn. }
  split; [exact H|]. intros Hp. rewrite H. split.
  - intros Hs. apply sorted_permutation_seq; assumption.
  - intros ->. apply seq_sorted.
Qed.

Lemma progress_follows_completion_order_witness :
  Sorted Qle (PDFUpload.progressReports 3 [1; 2; 3]%nat).
Proof.
  apply (proj2 (proj2 (@progress_follows_completion_order 3 [1; 2; 3]%nat
                         ltac:(lia))
                  (Permutation_refl _))).
  reflexivity.
Defined.

(** C6 fails as stated: of two pages, the second may complete first, and
    the reports are then 100 followed by 50. *)
Lemma progress_decreases_out_of_order :
  Permutation [2; 1]%nat (seq 1 2)
  /\ ~ Sorted Qle (PDFUpload.progressReports 2 [2; 1]%nat).
Proof.
  split; [apply perm_swap|].
  intros H. apply Sorted_inv in H. destruct H as [_ H].
  apply HdRel_inv in H. vm_compute in H. apply H. reflexivity.
Qed.

(** ** The session *)

Import Session.

Ltac unfold_setters :=
  unfold setUploadedFile, setExtractedText, setAppAnalysis, setIsAnalyzing,
    setAnalysis, setDocError, setAutoAnalyzeStarted, setMessages, setInput,
    setIsLoading, setChatError, withApp, withDoc, withChat,
    withPendingExtractions, withPendingAnalyses, withPendingAsks in *.

Ltac case_conditions :=
  repeat match goal with
         | |- context [if ?b then _ else _] => destruct b eqn:?
         end.

Section Effects.

Variable API_KEY : option jsstring.

Lemma analyzeDocument_keeps (s : t) :
  DocumentAnalysis.analysis (doc (analyzeDocument s))
  = DocumentAnalysis.analysis (doc s)
  /\ App.analysis (app (analyzeDocument s)) = App.analysis (app s)
  /\ App.extractedText (app (analyzeDocument s)) = App.extractedText (app s)
  /\ App.uploadedFile (app (analyzeDocument s)) = App.uploadedFile (app s)
  /\ chat (analyzeDocument s) = chat s
  /\ pendingAsks (analyzeDocument s) = pendingAsks s.
Proof.
  unfold analyzeDocument. unfold_setters. case_conditions; simpl; auto 10.
Qed.

Lemma analyzeDocument_calls (s : t) :
  truthy (App.extractedText (app s)) = true ->
  pendingAnalyses (analyzeDocument s)
  = pendingAnalyses s ++ [App.extractedText (app s)].
Proof.
  intros H. unfold analyzeDocument. rewrite H. reflexivity.
Qed.

Lemma runEffects_keeps (now : N) (s : t) :
  DocumentAnalysis.analysis (doc (runEffects API_KEY now s))
  = DocumentAnalysis.analysis (doc s)
  /\ App.analysis (app (runEffects API_KEY now s)) = App.analysis (app s)
  /\ App.extractedText (app (runEffects API_KEY now s))
     = App.extractedText (app s)
  /\ pendingAsks (runEffects API_KEY now s) = pendingAsks s
  /\ exists more,
       pendingAnalyses (runEffects API_KEY now s) = pendingAnalyses s ++ more.
Proof.
  unfold runEffects, welcomeEffect, autoAnalyzeEffect.
  destruct (mounted s); [|repeat split; exists []; symmetry; apply app_nil_r].
  destruct (truthy (App.extractedText (app s))
            && negb (DocumentAnalysis.autoAnalyzeStarted (doc s))
            && isConfigured API_KEY) eqn:Hauto.
  - destruct (analyzeDocument_keeps (setAutoAnalyzeStarted true s))
      as (Ha & Hb & Hc & _ & Hd & He).
    apply andb_prop in Hauto. destruct Hauto as [Hauto _].
    apply andb_prop in Hauto. destruct Hauto as [Htext _].
    pose proof (analyzeDocument_calls (setAutoAnalyzeStarted true s) Htext) as Hp.
    case_conditions; unfold_setters; simpl in *;
      rewrite ?Ha, ?Hb, ?Hc, ?He; repeat split; eauto.
  - case_conditions; unfold_setters; simpl;
      repeat split; exists []; symmetry; apply app_nil_r.
Qed.

End Effects.

Section Reanalysis.

Variable API_KEY : option jsstring.
Variable JSON_parse : jsstring -> option json.
Variable JSON_stringify : json -> jsstring.

Local Abbreviation step := (Session.step API_KEY JSON_parse JSON_stringify).

Lemma reanalyze_clears (s : t) :
  DocumentAnalysis.analysis (doc (reanalyze s)) = None
  /\ App.analysis (app (reanalyze s)) = App.analysis (app s)
  /\ App.extractedText (app (reanalyze s)) = App.extractedText (app s).
Proof.
  unfold reanalyze.
  destruct (analyzeDocument_keeps (setAutoAnalyzeStarted false (setAnalysis None s)))
    as (Ha & Hb & Hc & _).
  rewrite Ha, Hb, Hc. repeat split.
Qed.

Lemma settle_analysis (now : N) (i : nat) (reply : Settled jsstring)
    (text : jsstring) (s : t) :
  nth_error (pendingAnalyses s) i = Some text ->
  let s' := step now (AnalysisSettles i reply) s in
  match Gemini.analyzeDocument API_KEY (fun _ => reply) JSON_parse text with
  | Fulfilled result =>
      DocumentAnalysis.analysis (doc s') = orNull result
      /\ App.analysis (app s') = JSON_stringify result
  | Rejected _ =>
      DocumentAnalysis.analysis (doc s') = DocumentAnalysis.analysis (doc s)
      /\ App.analysis (app s') = App.analysis (app s)
  end.
Proof.
  intros Hnth s'. unfold s', Session.step, handle. rewrite Hnth.
  match goal with
  | |- context [runEffects _ _ ?x] =>
      destruct (runEffects_keeps API_KEY now x) as (Ha & Hb & _)
  end.
  rewrite Ha, Hb. unfold analyzeDocumentSettled.
  destruct (Gemini.analyzeDocument API_KEY (fun _ => reply) JSON_parse text);
    split; reflexivity.
Qed.

End Reanalysis.

Section Questions.

Variable API_KEY : option jsstring.
Variable JSON_parse : jsstring -> option json.
Variable JSON_stringify : json -> jsstring.

Local Abbreviation step := (Session.step API_KEY JSON_parse JSON_stringify).

Lemma handleSubmitSettled_appends (now : N) (outcome : Settled jsstring) (s : t) :
  ChatInterface.messages (chat (handleSubmitSettled now outcome s))
  = ChatInterface.messages (chat s) ++ [Turns.replyTurn now outcome]
  /\ ChatInterface.isLoading (chat (handleSubmitSettled now outcome s)) = false
  /\ pendingAsks (handleSubmitSettled now outcome s) = pendingAsks s.
Proof.
  unfold handleSubmitSettled, Turns.replyTurn. destruct outcome; repeat split.
Qed.

Lemma runEffects_nonempty_chat (now : N) (s : t) :
  ChatInterface.messages (chat s) <> [] ->
  chat (runEffects API_KEY now s) = chat s.
Proof.
  intros Hne. unfold runEffects, welcomeEffect, autoAnalyzeEffect.
  destruct (mounted s); [|reflexivity].
  assert (Hlen : forall s', chat s' = chat s ->
                   (length (ChatInterface.messages (chat s')) =? 0)%nat = false).
  { intros s' ->. destruct (ChatInterface.messages (chat s)); [congruence|reflexivity]. }
  destruct (truthy (App.extractedText (app s))
            && negb (DocumentAnalysis.autoAnalyzeStarted (doc s))
            && isConfigured API_KEY).
  - destruct (analyzeDocument_keeps (setAutoAnalyzeStarted true s))
      as (_ & _ & _ & _ & Hchat & _).
    rewrite (Hlen _ Hchat), andb_false_r. exact Hchat.
  - rewrite (Hlen _ eq_refl), andb_false_r. reflexivity.
Qed.

End Questions.

(** ** Words *)

Lemma splitFrom_nonempty (b : bool) (s : jsstring) :
  DocumentInfo.splitFrom b s <> [].
Proof.
  revert b. induction s as [|c s IH]; intros b; simpl; [discriminate|].
  destruct (isWhiteSpace c).
  - destruct b; [apply IH | discriminate].
  - destruct (DocumentInfo.splitFrom false s); discriminate.
Qed.

Lemma splitFrom_ink_cons (b : bool) (c : N) (s : jsstring) :
  isWhiteSpace c = false ->
  DocumentInfo.splitFrom b (c :: s)
  = (c :: hd [] (DocumentInfo.splitFrom false s))
      :: tl (DocumentInfo.splitFrom false s).
Proof.
  intros Hc. simpl. rewrite Hc.
  destruct (DocumentInfo.splitFrom false s) eqn:E; [|reflexivity].
  exfalso. exact (splitFrom_nonempty _ _ E).
Qed.

Lemma join_cons (sep p : jsstring) (rest : list jsstring) :
  rest <> [] -> join sep (p :: rest) = p ++ sep ++ join sep rest.
Proof. destruct rest; [congruence | reflexivity]. Qed.

Lemma join_ink_cons (sep : jsstring) (c : N) (pieces : list jsstring) :
  join sep ((c :: hd [] pieces) :: tl pieces) = c :: join sep pieces.
Proof.
  destruct pieces as [|p [|q ps]]; reflexivity.
Qed.

Lemma replaceWhitespace_join (b : bool) (s : jsstring) :
  PDFUpload.replaceWhitespaceFrom b s
  = join [32%N] (DocumentInfo.splitFrom b s).
Proof.
  revert b. induction s as [|c s IH]; intros b; [reflexivity|].
  destruct (isWhiteSpace c) eqn:Hc.
  - simpl. rewrite Hc. destruct b; simpl app.
    + apply IH.
    + rewrite join_cons by apply splitFrom_nonempty. rewrite IH. reflexivity.
  - rewrite splitFrom_ink_cons by exact Hc. rewrite join_ink_cons.
    simpl. rewrite Hc, IH. reflexivity.
Qed.

Lemma replaceWhitespace_fixed (b : bool) (x : jsstring) :
  Shape.noWhitespaceRun x = true ->
  Shape.onlySpaces x ->
  (b = true -> match x with c :: _ => isWhiteSpace c = false | [] => True end) ->
  PDFUpload.replaceWhitespaceFrom b x = x.
Proof.
  revert b. induction x as [|c x IH]; intros b Hrun Hsp Hb; [reflexivity|].
  assert (Hsp' : Shape.onlySpaces x)
    by (intros d Hd; apply Hsp; right; exact Hd).
  pose proof (noWhitespaceRun_tail _ _ Hrun) as Hrun'.
  simpl. destruct (isWhiteSpace c) eqn:Hc.
  - destruct b; [specialize (Hb eq_refl); simpl in Hb; congruence|].
    rewrite (Hsp c (or_introl eq_refl) Hc). simpl. f_equal.
    apply IH; [exact Hrun' | exact Hsp' |]. intros _.
    destruct x as [|d x]; [exact I|].
    cbn [Shape.noWhitespaceRun] in Hrun. rewrite Hc in Hrun. simpl in Hrun.
    apply andb_prop in Hrun. destruct Hrun as [Hd _].
    destruct (isWhiteSpace d); [discriminate | reflexivity].
  - f_equal. apply IH; [exact Hrun' | exact Hsp' | discriminate].
Qed.

Lemma trimEnd_fixed_tail (c : N) (x : jsstring) :
  trimEnd (c :: x) = c :: x -> trimEnd x = x.
Proof.
  rewrite trimEnd_cons. destruct (trimEnd x) as [|y r].
  - destruct (isWhiteSpace c); [discriminate|].
    intros H. injection H as <-. reflexivity.
  - intros H. injection H as <-. reflexivity.
Qed.

Lemma trimEnd_fixed_single (c : N) :
  trimEnd [c] = [c] -> isWhiteSpace c = false.
Proof.
  rewrite trimEnd_cons. simpl. destruct (isWhiteSpace c); [discriminate | reflexivity].
Qed.

Lemma splitFrom_trimmed (b : bool) (x : jsstring) :
  trimEnd x = x ->
  Forall (fun p => truthy p = true) (tl (DocumentInfo.splitFrom b x))
  /\ (forall c r, x = c :: r -> b = true \/ isWhiteSpace c = false ->
      truthy (hd [] (DocumentInfo.splitFrom b x)) = true).
Proof.
  revert b. induction x as [|c x IH]; intros b Hfix.
  - split; [constructor | discriminate].
  - pose proof (trimEnd_fixed_tail Hfix) as Hfix'.
    destruct (isWhiteSpace c) eqn:Hc.
    + assert (Hne : exists d r, x = d :: r).
      { destruct x as [|d r]; [|eauto].
        apply trimEnd_fixed_single in Hfix. congruence. }
      destruct Hne as (d & r & Hx).
      destruct (IH true Hfix') as [Htl Hhd].
      specialize (Hhd d r Hx (or_introl eq_refl)).
      simpl. rewrite Hc. destruct b.
      * split; [exact Htl|]. intros c' r' _ _. exact Hhd.
      * split.
        -- cbn [tl]. destruct (DocumentInfo.splitFrom true x) as [|p ps];
             [constructor|]. constructor; [exact Hhd | exact Htl].
        -- intros c' r' E [E'|E']; [discriminate|].
           injection E as <- _. congruence.
    + rewrite splitFrom_ink_cons by exact Hc.
      destruct (IH false Hfix') as [Htl _].
      split; [exact Htl | reflexivity].
Qed.

Lemma filter_all_true {A : Type} (f : A -> bool) (l : list A) :
  Forall (fun a => f a = true) l -> filter f l = l.
Proof.
  induction 1 as [|a l Ha _ IH]; simpl; [reflexivity|].
  rewrite Ha, IH. reflexivity.
Qed.

Lemma splitFrom_replaceWhitespace (b : bool) (s : jsstring) :
  DocumentInfo.splitFrom b (PDFUpload.replaceWhitespaceFrom b s)
  = DocumentInfo.splitFrom b s.
Proof.
  revert b. induction s as [|c s IH]; intros b; [reflexivity|].
  destruct (isWhiteSpace c) eqn:Hc.
  - simpl. rewrite Hc. destruct b; simpl; [apply IH|].
    rewrite IH. reflexivity.
  - rewrite splitFrom_ink_cons by exact Hc.
    simpl PDFUpload.replaceWhitespaceFrom. rewrite Hc.
    rewrite splitFrom_ink_cons by exact Hc. rewrite IH. reflexivity.
Qed.

Lemma words_in_run (s : jsstring) :
  filter truthy (DocumentInfo.splitFrom true s) = DocumentInfo.words s.
Proof.
  unfold DocumentInfo.words, DocumentInfo.split.
  destruct s as [|c s]; [reflexivity|].
  simpl. destruct (isWhiteSpace c); reflexivity.
Qed.

Lemma words_hd_tl (s : jsstring) :
  DocumentInfo.words s
  = filter truthy [hd [] (DocumentInfo.split s)]
      ++ filter truthy (tl (DocumentInfo.split s)).
Proof.
  unfold DocumentInfo.words.
  destruct (DocumentInfo.split s) as [|p ps] eqn:E.
  - exfalso. exact (splitFrom_nonempty _ _ E).
  - simpl. destruct (truthy p); reflexivity.
Qed.

(** The words on either side of a whitespace code unit. *)
Lemma splitFrom_app (w : N) (a : jsstring) :
  isWhiteSpace w = true ->
  (forall r,
     hd [] (DocumentInfo.splitFrom false (a ++ w :: r))
     = hd [] (DocumentInfo.splitFrom false a)
     /\ filter truthy (tl (DocumentInfo.splitFrom false (a ++ w :: r)))
        = filter truthy (tl (DocumentInfo.splitFrom false a))
            ++ DocumentInfo.words r)
  /\ (forall r,
        filter truthy (DocumentInfo.splitFrom true (a ++ w :: r))
        = filter truthy (DocumentInfo.splitFrom true a) ++ DocumentInfo.words r).
Proof.
  intros Hw. induction a as [|c a [IHf IHt]].
  - split; intros r; simpl; rewrite Hw; simpl.
    + split; [reflexivity | apply words_in_run].
    + apply words_in_run.
  - destruct (isWhiteSpace c) eqn:Hc.
    + split; intros r; simpl; rewrite Hc.
      * split; [reflexivity | apply IHt].
      * apply IHt.
    + split; intros r; change ((c :: a) ++ w :: r) with (c :: (a ++ w :: r));
        rewrite !splitFrom_ink_cons by exact Hc;
        destruct (IHf r) as [Hhd Htl].
      * cbn [hd tl]. rewrite Hhd. split; [reflexivity | exact Htl].
      * cbn [filter truthy]. rewrite Hhd, Htl. reflexivity.
Qed.

Lemma words_app (w : N) (a r : jsstring) :
  isWhiteSpace w = true ->
  DocumentInfo.words (a ++ w :: r) = DocumentInfo.words a ++ DocumentInfo.words r.
Proof.
  intros Hw. destruct (@splitFrom_app w a Hw) as [Hf _].
  destruct (Hf r) as [Hhd Htl].
  rewrite (words_hd_tl (a ++ w :: r)), (words_hd_tl a).
  unfold DocumentInfo.split. rewrite Hhd, Htl. apply app_assoc.
Qed.

Lemma words_whitespace (q : jsstring) :
  Forall (fun c => isWhiteSpace c = true) q -> DocumentInfo.words q = [].
Proof.
  induction 1 as [|c q Hc _ IH]; [reflexivity|].
  change (c :: q) with ([] ++ c :: q). rewrite words_app by exact Hc. exact IH.
Qed.

Lemma words_app_sep (sep a r : jsstring) :
  sep <> [] -> Forall (fun c => isWhiteSpace c = true) sep ->
  DocumentInfo.words (a ++ sep ++ r) = DocumentInfo.words a ++ DocumentInfo.words r.
Proof.
  intros Hne Hsep. destruct sep as [|w q]; [congruence|].
  inversion Hsep as [|? ? Hw Hq]; subst.
  change (a ++ (w :: q) ++ r) with (a ++ w :: (q ++ r)).
  rewrite words_app by exact Hw. f_equal.
  clear Hne Hsep Hw. induction Hq as [|c q Hc _ IH]; [reflexivity|].
  change ((c :: q) ++ r) with ([] ++ c :: (q ++ r)).
  rewrite words_app by exact Hc. exact IH.
Qed.

Lemma trimStart_split (y : jsstring) :
  exists p, y = p ++ trimStart y /\ Forall (fun c => isWhiteSpace c = true) p.
Proof.
  induction y as [|c y (p & Hp & Hall)]; [exists []; split; [reflexivity|constructor]|].
  simpl. destruct (isWhiteSpace c) eqn:Hc.
  - exists (c :: p). split; [simpl; f_equal; exact Hp | constructor; assumption].
  - exists []. split; [reflexivity | constructor].
Qed.

Lemma words_trimStart (y : jsstring) :
  DocumentInfo.words (trimStart y) = DocumentInfo.words y.
Proof.
  destruct (trimStart_split y) as (p & Hp & Hall).
  rewrite Hp at 2. clear Hp.
  induction Hall as [|c p Hc _ IH]; [reflexivity|].
  change ((c :: p) ++ trimStart y) with ([] ++ c :: (p ++ trimStart y)).
  rewrite words_app by exact Hc. exact IH.
Qed.

Lemma words_trimEnd (z : jsstring) :
  DocumentInfo.words (trimEnd z) = DocumentInfo.words z.
Proof.
  destruct (trimStart_split (rev z)) as (p & Hp & Hall).
  assert (Hz : z = trimEnd z ++ rev p).
  { unfold trimEnd. rewrite <- rev_app_distr, <- Hp, rev_involutive. reflexivity. }
  assert (Hall' : Forall (fun c => isWhiteSpace c = true) (rev p)).
  { apply Forall_forall. intros c Hin. apply in_rev in Hin.
    rewrite Forall_forall in Hall. exact (Hall _ Hin). }
  rewrite Hz at 2.
  destruct (rev p) as [|w q]; [rewrite app_nil_r; reflexivity|].
  inversion Hall' as [|? ? Hw Hq]; subst.
  rewrite words_app by exact Hw. rewrite (words_whitespace Hq). 
  symmetry. apply app_nil_r.
Qed.

Lemma words_cleanText (s : jsstring) :
  DocumentInfo.words (PDFUpload.cleanText s) = DocumentInfo.words s.
Proof.
  rewrite cleanText_unfold. unfold trim.
  rewrite words_trimEnd, words_trimStart.
  unfold DocumentInfo.words, DocumentInfo.split, PDFUpload.replaceWhitespace.
  rewrite splitFrom_replaceWhitespace. reflexivity.
Qed.

Lemma trimEnd_idem (s : jsstring) : trimEnd (trimEnd s) = trimEnd s.
Proof.
  unfold trimEnd. rewrite rev_involutive, trimStart_idem. reflexivity.
Qed.

Lemma trim_fixed_ends (x : jsstring) :
  trim x = x -> trimStart x = x /\ trimEnd x = x.
Proof.
  intros H. split.
  - rewrite <- H at 1. unfold trim.
    rewrite trimStart_trimEnd, trimStart_idem. exact H.
  - rewrite <- H at 1. unfold trim. rewrite trimEnd_idem. exact H.
Qed.

Lemma trimStart_length (s : jsstring) : (length (trimStart s) <= length s)%nat.
Proof.
  induction s as [|c s IH]; simpl; [lia|].
  destruct (isWhiteSpace c); simpl; lia.
Qed.

Lemma trimStart_fixed_head (c : N) (r : jsstring) :
  trimStart (c :: r) = c :: r -> isWhiteSpace c = false.
Proof.
  simpl. destruct (isWhiteSpace c); [|reflexivity].
  intros H. pose proof (trimStart_length r) as Hl.
  rewrite H in Hl. simpl in Hl. lia.
Qed.

(** The clean-up of a text is its words, joined by single spaces. *)
Lemma cleanText_words (s : jsstring) :
  PDFUpload.cleanText s = join [32%N] (DocumentInfo.words s).
Proof.
  rewrite <- (words_cleanText s).
  destruct (cleanText_single_spaced s) as (Hrun & Hsp & Htrim & _).
  destruct (trim_fixed_ends Htrim) as [Hstart Hend].
  set (x := PDFUpload.cleanText s) in *.
  destruct x as [|c r] eqn:Ex; [reflexivity|].
  rewrite <- (@replaceWhitespace_fixed false (c :: r) Hrun Hsp) at 1
    by discriminate.
  rewrite replaceWhitespace_join. f_equal.
  unfold DocumentInfo.words, DocumentInfo.split.
  destruct (@splitFrom_trimmed false (c :: r) Hend) as [Htl Hhd].
  specialize (Hhd c r eq_refl (or_intror (trimStart_fixed_head Hstart))).
  symmetry. apply filter_all_true.
  destruct (DocumentInfo.splitFrom false (c :: r)) as [|p ps];
    [constructor | constructor; assumption].
Qed.

(** ** More on the response cleaner *)

Lemma within_refl (x : jsstring) : Cases.within x x.
Proof. exists [], []. rewrite app_nil_r. reflexivity. Qed.

Lemma within_trans (x y z : jsstring) :
  Cases.within x y -> Cases.within y z -> Cases.within x z.
Proof.
  intros (p & q & ->) (p' & q' & ->). exists (p' ++ p), (q ++ q').
  repeat rewrite <- app_assoc. reflexivity.
Qed.

Lemma within_length (x r : jsstring) :
  Cases.within x r -> (length x <= length r)%nat.
Proof. intros (p & q & ->). rewrite !length_app. lia. Qed.

Lemma substring_within (s : jsstring) (a b : Z) :
  Cases.within (substring s a b) s.
Proof.
  unfold substring.
  set (m := Nat.min (clamp (length s) a) (clamp (length s) b)).
  set (k := (Nat.max (clamp (length s) a) (clamp (length s) b) - m)%nat).
  exists (firstn m s), (skipn k (skipn m s)).
  rewrite (firstn_skipn k (skipn m s)). symmetry. apply firstn_skipn.
Qed.

Lemma trim_within (s : jsstring) : Cases.within (trim s) s.
Proof.
  unfold trim. destruct (trimStart_split s) as (p & Hp & _).
  destruct (trimEnd_prefix (trimStart s)) as [q Hq].
  exists p, q. rewrite <- Hq. exact Hp.
Qed.

(** X1: the cleaner takes nothing out of the middle of a reply and adds
    nothing: the cleaned text stands in the reply as it is, so it is never
    longer than the reply; and it has no whitespace at either end. *)
Theorem cleaned_reply_is_part_of_reply (response : jsstring) :
  Cases.within (Gemini.cleanGeminiResponse response) response
  /\ (length (Gemini.cleanGeminiResponse response) <= length response)%nat
  /\ trim (Gemini.cleanGeminiResponse response)
     = Gemini.cleanGeminiResponse response.
Proof.
  assert (H : Cases.within (Gemini.cleanGeminiResponse response) response).
  { unfold Gemini.cleanGeminiResponse.
    eapply within_trans; [apply trim_within|].
    set (c1 := if startsWith (trim response) (lit "```json")
               then substringFrom (trim response) 7
               else if startsWith (trim response) (lit "```")
                    then substringFrom (trim response) 3
                    else trim response).
    assert (H1 : Cases.within c1 response).
    { unfold c1.
      destruct (startsWith (trim response) (lit "```json"));
        [|destruct (startsWith (trim response) (lit "```"))];
        try (eapply within_trans; [apply substring_within | apply trim_within]).
      apply trim_within. }
    destruct (endsWith c1 (lit "```")); [|exact H1].
    eapply within_trans; [apply substring_within | exact H1]. }
  split; [exact H|]. split; [exact (within_length H)|].
  unfold Gemini.cleanGeminiResponse. apply trim_idem.
Qed.

(** X2: a reply fenced without the json tag is cleaned like one with it:
    to the trimmed body, whatever the body. *)
Theorem plain_fence_cleans_to_trimmed_body (s : jsstring) :
  Gemini.cleanGeminiResponse (Cases.plainFenced s) = trim s.
Proof.
  unfold Gemini.cleanGeminiResponse.
  assert (Hshape : Cases.plainFenced s
                   = (96%N :: lit "``" ++ [10%N] ++ s ++ [10%N] ++ lit "``")
                       ++ [96%N]).
  { unfold Cases.plainFenced. simpl. rewrite <- app_assoc. reflexivity. }
  assert (Htrim : trim (Cases.plainFenced s) = Cases.plainFenced s).
  { rewrite Hshape. apply trim_guarded; reflexivity. }
  rewrite Htrim.
  assert (Hjson : startsWith (Cases.plainFenced s) (lit "```json") = false)
    by reflexivity.
  assert (Hhead : startsWith (Cases.plainFenced s) (lit "```") = true)
    by apply startsWith_app.
  rewrite Hjson, Hhead.
  assert (Hskip : substringFrom (Cases.plainFenced s) 3
                  = ([10%N] ++ s ++ [10%N]) ++ lit "```").
  { change 3%Z with (Z.of_nat 3). rewrite substringFrom_skipn.
    - unfold Cases.plainFenced. simpl. rewrite <- app_assoc. reflexivity.
    - unfold Cases.plainFenced. simpl. lia. }
  rewrite Hskip, endsWith_app.
  change 3%Z with (Z.of_nat (length (lit "```"))).
  rewrite substring_drop_suffix.
  change ([10%N] ++ s ++ [10%N]) with (10%N :: (s ++ [10%N])).
  rewrite trim_cons_ws by reflexivity.
  apply trim_app_ws. reflexivity.
Qed.

Lemma trimStart_app_fixed (s p : jsstring) :
  trimStart p = p -> trimStart (s ++ p) = trimStart s ++ p.
Proof.
  intros Hp. induction s as [|c s IH]; simpl; [exact Hp|].
  destruct (isWhiteSpace c); [exact IH | reflexivity].
Qed.

Lemma trimEnd_app_fixed (p s : jsstring) :
  trimEnd p = p -> trimEnd (p ++ s) = p ++ trimEnd s.
Proof.
  intros Hp. unfold trimEnd. rewrite rev_app_distr.
  assert (Hp' : trimStart (rev p) = rev p).
  { unfold trimEnd in Hp. rewrite <- Hp at 2. rewrite rev_involutive. reflexivity. }
  rewrite (trimStart_app_fixed _ Hp'), rev_app_distr, rev_involutive.
  reflexivity.
Qed.

Lemma startsWith_head_mismatch (a c : N) (p t : jsstring) :
  (a =? c)%N = false -> startsWith (c :: t) (a :: p) = false.
Proof. intros H. simpl. rewrite H. reflexivity. Qed.

Lemma trimEnd_app_fence (x : jsstring) :
  trimEnd (x ++ lit "```") = x ++ lit "```".
Proof.
  unfold trimEnd. rewrite rev_app_distr. simpl.
  rewrite rev_involutive. repeat rewrite <- app_assoc. reflexivity.
Qed.

(** X3: each fence is taken off without the other. A reply that opens
    with the json fence and never closes it is cleaned to its trimmed
    body, when the body does not itself end with a fence; a reply that
    only ends with a fence is cleaned to its trimmed body, when the body
    does not begin with a backtick. *)
Theorem lone_fence_is_stripped (s : jsstring) :
  (endsWith (trimEnd s) (lit "```") = false ->
   Gemini.cleanGeminiResponse (Cases.opened s) = trim s)
  /\ (startsWith (trimStart s) (lit "`") = false ->
      Gemini.cleanGeminiResponse (Cases.closed s) = trim s).
Proof.
  split.
  - intros Hend. unfold Gemini.cleanGeminiResponse, Cases.opened.
    assert (Htrim : trim (lit "```json" ++ s) = lit "```json" ++ trimEnd s).
    { unfold trim. change (trimStart (lit "```json" ++ s)) with (lit "```json" ++ s).
      apply trimEnd_app_fixed. reflexivity. }
    rewrite Htrim, startsWith_app.
    assert (Hskip : substringFrom (lit "```json" ++ trimEnd s) 7 = trimEnd s).
    { change 7%Z with (Z.of_nat 7). rewrite substringFrom_skipn; [reflexivity|].
      rewrite length_app. simpl. lia. }
    rewrite Hskip, Hend. unfold trim.
    rewrite trimStart_trimEnd, trimEnd_idem. reflexivity.
  - intros Hstart. unfold Gemini.cleanGeminiResponse, Cases.closed.
    assert (Htrim : trim (s ++ lit "```") = trimStart s ++ lit "```").
    { unfold trim. rewrite trimStart_app_fixed by reflexivity.
      apply trimEnd_app_fence. }
    rewrite Htrim. unfold trim at 2.
    destruct (trimStart s) as [|c t] eqn:Et; [reflexivity|].
    assert (Hc : (96 =? c)%N = false).
    { change (lit "`") with [96%N] in Hstart. cbn [startsWith] in Hstart.
      rewrite andb_true_r in Hstart. exact Hstart. }
    assert (H1 : startsWith ((c :: t) ++ lit "```") (lit "```json") = false)
      by (apply (@startsWith_head_mismatch 96 c (lit "``json")); exact Hc).
    assert (H2 : startsWith ((c :: t) ++ lit "```") (lit "```") = false)
      by (apply (@startsWith_head_mismatch 96 c (lit "``")); exact Hc).
    rewrite H1, H2, endsWith_app.
    change 3%Z with (Z.of_nat (length (lit "```"))).
    rewrite substring_drop_suffix. unfold trim.
    rewrite <- Et, trimStart_idem. reflexivity.
Qed.

Lemma lone_fence_is_stripped_witness :
  Gemini.cleanGeminiResponse (Cases.opened Samples.summaryBody)
  = Samples.summaryBody
  /\ Gemini.cleanGeminiResponse (Cases.closed Samples.summaryBody)
     = Samples.summaryBody.
Proof.
  destruct (lone_fence_is_stripped Samples.summaryBody) as [Ho Hc].
  split; [exact (Ho eq_refl) | exact (Hc eq_refl)].
Defined.

(** ** The service without a key, and its errors *)

Lemma truthy_iff (s : jsstring) : truthy s = true <-> s <> [].
Proof. destruct s; simpl; split; congruence. Qed.

(** X4: the service is configured exactly when the key is present and not
    the empty string. Without that, [analyzeDocument] and [askQuestion]
    reject with the not-configured error whatever the endpoint would have
    done: no prompt is sent. *)
Theorem missing_key_disables_service (API_KEY : option jsstring) :
  (Gemini.isConfigured API_KEY = true <-> exists k, API_KEY = Some k /\ k <> [])
  /\ (Gemini.isConfigured API_KEY = false ->
      (forall generateContent JSON_parse text,
         Gemini.analyzeDocument API_KEY generateContent JSON_parse text
         = Rejected (ErrorObject Gemini.notConfiguredMessage))
      /\ (forall generateContent documentText question previousContext,
            Gemini.askQuestion API_KEY generateContent documentText question
              previousContext
            = Rejected (ErrorObject Gemini.notConfiguredMessage))).
Proof.
  split.
  - unfold Gemini.isConfigured, Gemini.model, Gemini.genAI, Gemini.hasKey.
    destruct API_KEY as [k|].
    + destruct k as [|c k]; simpl.
      * split; [discriminate | intros (k' & E & Hne); injection E as <-; congruence].
      * split; [intros _; eexists; split; [reflexivity | discriminate] | reflexivity].
    + split; [discriminate | intros (k & E & _); discriminate].
  - intros Hcfg. pose proof (unconfigured_model _ Hcfg) as Hm.
    split; intros; [unfold Gemini.analyzeDocument | unfold Gemini.askQuestion];
      rewrite Hm; reflexivity.
Qed.

Lemma missing_key_disables_service_witness :
  Gemini.analyzeDocument (Some []) (Samples.replies Samples.summaryBody)
    Json.parse (lit "LEASE AGREEMENT")
  = Rejected (ErrorObject Gemini.notConfiguredMessage)
  /\ Gemini.askQuestion None (Samples.replies (lit "It is 900 a month."))
       (lit "LEASE AGREEMENT") (lit "What is the rent?") None
     = Rejected (ErrorObject Gemini.notConfiguredMessage).
Proof.
  split.
  - apply (proj1 (proj2 (missing_key_disables_service (Some [])) eq_refl)).
  - apply (proj2 (proj2 (missing_key_disables_service None) eq_refl)).
Defined.

(** X5: with a key, [askQuestion] hands back the reply of the endpoint as
    it is, fences and surrounding whitespace included. Whatever the
    endpoint throws, each of the two service calls rejects with its one
    fixed message, so the cause never reaches the page: the chat shows
    the fixed message of [askQuestion] as its error and appends the
    apology, and the analysis pane is handed the fixed message of
    [analyzeDocument]. *)
Theorem service_passes_answer_and_masks_errors
    (API_KEY : option jsstring) (JSON_parse : jsstring -> option json)
    (JSON_stringify : json -> jsstring)
    (documentText question text : jsstring) (previousContext : option jsstring) :
  Gemini.isConfigured API_KEY = true ->
  let askFailed :=
    lit "Failed to get answer. Please check your API key and try again." in
  let analyzeFailed :=
    lit "Failed to analyze document. Please check your API key and try again." in
  (forall answer,
     Gemini.askQuestion API_KEY (Samples.replies answer) documentText question
       previousContext = Fulfilled answer)
  /\ (forall e : Thrown,
        Gemini.askQuestion API_KEY (fun _ => Rejected e) documentText question
          previousContext
        = Rejected (ErrorObject askFailed)
        /\ Gemini.analyzeDocument API_KEY (fun _ => Rejected e) JSON_parse text
           = Rejected (ErrorObject analyzeFailed))
  /\ (forall (e : Thrown) (now : N) (i : nat) (call : AskCall) (s : t),
        nth_error (pendingAsks s) i = Some call ->
        let s' := Session.step API_KEY JSON_parse JSON_stringify now
                    (AskSettles i (Rejected e)) s in
        ChatInterface.error (chat s') = Some askFailed
        /\ ChatInterface.messages (chat s')
           = ChatInterface.messages (chat s)
               ++ [Turns.replyTurn now (Rejected (ErrorObject askFailed))])
  /\ (forall (e : Thrown) (now : N) (i : nat) (s : t),
        nth_error (pendingAnalyses s) i = Some text ->
        let s' := Session.handle API_KEY JSON_parse JSON_stringify now
                    (AnalysisSettles i (Rejected e)) s in
        DocumentAnalysis.error (doc s') = Some analyzeFailed
        /\ DocumentAnalysis.analysis (doc s') = DocumentAnalysis.analysis (doc s)).
Proof.
  intros Hcfg askFailed analyzeFailed.
  pose proof (configured_model _ Hcfg) as Hm.
  assert (Hask : forall e d q c,
             Gemini.askQuestion API_KEY (fun _ => Rejected e) d q c
             = Rejected (ErrorObject askFailed))
    by (intros; unfold Gemini.askQuestion; rewrite Hm; reflexivity).
  assert (Han : forall e,
             Gemini.analyzeDocument API_KEY (fun _ => Rejected e) JSON_parse text
             = Rejected (ErrorObject analyzeFailed))
    by (intros; unfold Gemini.analyzeDocument; rewrite Hm; reflexivity).
  split; [|split; [|split]].
  - intros answer. unfold Gemini.askQuestion, Samples.replies.
    rewrite Hm. reflexivity.
  - intros e. split; [apply Hask | apply Han].
  - intros e now i call s Hnth s'.
    unfold s', Session.step, Session.handle. rewrite Hnth, Hask.
    set (s0 := withPendingAsks (removeAt i (pendingAsks s)) s).
    destruct (handleSubmitSettled_appends now
                (Rejected (ErrorObject askFailed)) s0) as (Hmsgs & _).
    rewrite (runEffects_nonempty_chat API_KEY now).
    + split; [reflexivity | exact Hmsgs].
    + rewrite Hmsgs. intros Hnil. apply app_eq_nil in Hnil.
      destruct Hnil as [_ Hnil]. discriminate.
  - intros e now i s Hnth s'.
    unfold s', Session.handle. rewrite Hnth, Han. split; reflexivity.
Qed.

Lemma service_passes_answer_and_masks_errors_witness :
  Gemini.askQuestion Samples.key
    (Samples.replies (Samples.fenced Samples.summaryBody))
    (lit "LEASE AGREEMENT") (lit "Summarise as JSON.") None
  = Fulfilled (Samples.fenced Samples.summaryBody)
  /\ Gemini.askQuestion Samples.key Samples.networkDown
       (lit "LEASE AGREEMENT") (lit "Summarise as JSON.") None
     = Rejected (ErrorObject (lit "Failed to get answer. Please check your API key and try again.")).
Proof.
  pose proof (@service_passes_answer_and_masks_errors Samples.key Json.parse
                Json.stringify (lit "LEASE AGREEMENT")
                (lit "Summarise as JSON.") [] None eq_refl) as H.
  cbv zeta in H. destruct H as (H1 & H2 & _).
  split; [apply H1 | apply (H2 (ErrorObject (lit "fetch failed")))].
Defined.

(** ** More on the extraction *)

(** X6: the clean-up of a text is the list of its words (the maximal runs
    of code units that are not whitespace), joined by single spaces. So
    cleaning a cleaned text changes nothing, and the word count shown for
    the cleaned text is that of the text before the clean-up. *)
Theorem cleanText_joins_words (s : jsstring) :
  PDFUpload.cleanText s = join [32%N] (DocumentInfo.words s)
  /\ PDFUpload.cleanText (PDFUpload.cleanText s) = PDFUpload.cleanText s
  /\ DocumentInfo.wordCount (PDFUpload.cleanText s) = DocumentInfo.wordCount s.
Proof.
  split; [apply cleanText_words|]. split.
  - rewrite (cleanText_words (PDFUpload.cleanText s)), words_cleanText.
    symmetry. apply cleanText_words.
  - unfold DocumentInfo.wordCount. rewrite words_cleanText. reflexivity.
Qed.

Lemma words_join (sep : jsstring) (parts : list jsstring) :
  sep <> [] -> Forall (fun c => isWhiteSpace c = true) sep ->
  DocumentInfo.words (join sep parts) = concat (map DocumentInfo.words parts).
Proof.
  intros Hne Hsep. induction parts as [|p parts IH]; [reflexivity|].
  destruct parts as [|q parts].
  - simpl. symmetry. apply app_nil_r.
  - rewrite join_cons by discriminate.
    rewrite words_app_sep by assumption. rewrite IH. reflexivity.
Qed.

Lemma words_of_pages (pages : list PDFUpload.Page) :
  DocumentInfo.words (join [10; 10]%N (map PDFUpload.pageText pages))
  = Cases.documentWords pages.
Proof.
  rewrite words_join; [|discriminate | repeat constructor].
  unfold Cases.documentWords. rewrite map_map. f_equal.
  apply map_ext. intros page. unfold PDFUpload.pageText.
  rewrite words_join; [|discriminate | repeat constructor].
  rewrite map_map. reflexivity.
Qed.

(** X7: when the document loads and every page yields its text content,
    the text that extraction works with is exactly the words of all text
    items of all pages in reading order, joined by single spaces: it
    fulfils with that text when it has 50 code units or more, and rejects
    otherwise, with the TypeError that a [throw new Error] of this file
    raises. Page breaks, the split of a line into items and
    marked-content items leave no trace: two documents with the same
    words extract alike. *)
Theorem extraction_yields_document_words (pages : list PDFUpload.Page) :
  let text := join [32%N] (Cases.documentWords pages) in
  PDFUpload.extractTextFromPDF (Samples.loadedWith pages)
  = (if (length text <? 50)%nat
     then Rejected (ErrorObject (lit "Error is not a constructor"))
     else Fulfilled text)
  /\ forall pages',
       Cases.documentWords pages' = Cases.documentWords pages ->
       PDFUpload.extractTextFromPDF (Samples.loadedWith pages')
       = PDFUpload.extractTextFromPDF (Samples.loadedWith pages).
Proof.
  assert (H : forall ps,
             PDFUpload.extractTextFromPDF (Samples.loadedWith ps)
             = (if (length (join [32%N] (Cases.documentWords ps)) <? 50)%nat
                then Rejected (ErrorObject (lit "Error is not a constructor"))
                else Fulfilled (join [32%N] (Cases.documentWords ps)))).
  { intros ps. rewrite extract_loaded. cbv zeta.
    rewrite cleanText_words, words_of_pages. reflexivity. }
  intros text. split; [apply H|].
  intros pages' Hsame. rewrite (H pages'), (H pages), Hsame. reflexivity.
Qed.

Lemma extraction_yields_document_words_witness :
  PDFUpload.extractTextFromPDF (Samples.loadedWith Cases.noticePagesB)
  = PDFUpload.extractTextFromPDF (Samples.loadedWith Cases.noticePagesA)
  /\ PDFUpload.extractTextFromPDF (Samples.loadedWith Cases.noticePagesA)
     = Fulfilled (litq "NOTICE of termination: ~Tenant~ shall vacate, the premises within thirty (30) days of this letter.").
Proof.
  split.
  - apply (proj2 (extraction_yields_document_words Cases.noticePagesA)).
    reflexivity.
  - reflexivity.
Defined.

(** X8: whatever the document and its pages settle with, a text that
    extraction fulfils with has at least 50 code units, no whitespace at
    either end, single spaces as its only whitespace; so the second check
    of the length, made by [onDrop] on the returned text, never fails. *)
Theorem extraction_fulfils_with_clean_text
    (loaded : Settled PDFUpload.PDFDocument) (text : jsstring) :
  PDFUpload.extractTextFromPDF loaded = Fulfilled text ->
  (50 <= length text)%nat
  /\ trim text = text
  /\ Shape.noWhitespaceRun text = true
  /\ Shape.onlySpaces text
  /\ negb (truthy text) || (length text <? 50)%nat = false.
Proof.
  unfold PDFUpload.extractTextFromPDF.
  destruct loaded as [pdf|e]; [|discriminate].
  destruct (PDFUpload.promiseAll _) as [pageTexts|e]; [|discriminate].
  set (cleaned := PDFUpload.cleanText (join [10; 10]%N pageTexts)).
  destruct (negb (truthy cleaned) || (length cleaned <? 50)%nat) eqn:Hcheck;
    [discriminate|].
  intros H. injection H as <-.
  apply orb_false_elim in Hcheck. destruct Hcheck as [_ Hlen].
  apply Nat.ltb_ge in Hlen.
  destruct (cleanText_single_spaced (join [10; 10]%N pageTexts))
    as (Hrun & Hsp & Htrim & _).
  fold cleaned in Hrun, Hsp, Htrim.
  repeat (split; [assumption|]).
  destruct cleaned; [simpl in Hlen; lia|].
  simpl. apply Nat.ltb_ge. exact Hlen.
Qed.

Lemma extraction_fulfils_with_clean_text_witness :
  (50 <= length (lit "LEASE AGREEMENT between Alice Landlord and Bob Tenant, governed by the laws of Ohio."))%nat.
Proof.
  apply (proj1 (@extraction_fulfils_with_clean_text
                  (Samples.loadedWith Samples.leasePages) _ eq_refl)).
Defined.

Lemma promiseAll_rejected {A : Type} (l : list (Settled A)) (e : Thrown) :
  In (Rejected e) l -> exists e', PDFUpload.promiseAll l = Rejected e'.
Proof.
  induction l as [|x l IH]; intros Hin; [contradiction|].
  simpl. destruct x as [v|e0]; [|eauto].
  destruct Hin as [Hin|Hin]; [discriminate|].
  destruct (IH Hin) as [e' ->]. eauto.
Qed.

(** X9: whatever makes extraction fail, it rejects with one and the same
    TypeError. The [catch] means to throw an [Error] that carries the
    message of the failure, or the general message; its [new Error] throws
    instead. So a document that does not load, a page that fails and a
    text that is too short cannot be told apart by the rejection; and one
    page that fails makes the whole extraction reject, whatever text the
    other pages hold. *)
Theorem extraction_failures_reject_alike :
  let notAConstructor := ErrorObject (lit "Error is not a constructor") in
  (forall loaded e,
     PDFUpload.extractTextFromPDF loaded = Rejected e -> e = notAConstructor)
  /\ (forall e, PDFUpload.extractTextFromPDF (Rejected e) = Rejected notAConstructor)
  /\ (forall pages e,
        In (Rejected e) pages ->
        PDFUpload.extractTextFromPDF (Fulfilled {| PDFUpload.pages := pages |})
        = Rejected notAConstructor).
Proof.
  intros notAConstructor.
  assert (Hre : forall e, PDFUpload.rethrow e = notAConstructor)
    by (intros [m|]; reflexivity).
  split; [|split].
  - intros loaded e. unfold PDFUpload.extractTextFromPDF.
    destruct loaded as [pdf|e0].
    + destruct (PDFUpload.promiseAll _) as [pageTexts|e1].
      * destruct (_ || _); [|discriminate].
        intros H. injection H as <-. reflexivity.
      * intros H. injection H as <-. apply Hre.
    + intros H. injection H as <-. apply Hre.
  - intros e. unfold PDFUpload.extractTextFromPDF. rewrite Hre. reflexivity.
  - intros pages e Hin. unfold PDFUpload.extractTextFromPDF. cbn [PDFUpload.pages].
    assert (Hin' : In (Rejected e)
                     (map (fun p : Settled PDFUpload.Page =>
                             match p with
                             | Fulfilled page => Fulfilled (PDFUpload.pageText page)
                             | Rejected e0 => Rejected e0
                             end) pages)).
    { apply in_map_iff. exists (Rejected e). split; [reflexivity | exact Hin]. }
    destruct (promiseAll_rejected _ _ Hin') as [e' ->].
    rewrite Hre. reflexivity.
Qed.

Lemma extraction_failures_reject_alike_witness :
  PDFUpload.extractTextFromPDF
    (Fulfilled {| PDFUpload.pages :=
                    map (@Fulfilled PDFUpload.Page) Samples.leasePages
                      ++ [Rejected (ErrorObject (lit "Invalid page request"))] |})
  = Rejected (ErrorObject (lit "Error is not a constructor")).
Proof.
  apply (proj2 (proj2 extraction_failures_reject_alike) _
           (ErrorObject (lit "Invalid page request"))).
  apply in_or_app. right. left. reflexivity.
Defined.

(** ** What every session keeps *)

Ltac break_session s :=
  destruct s as [[? ? ? ?] [? ? ?] [? ? ? ?] ? ? ?].

Ltac open_holds H :=
  destruct H as [Hidle Hfile Hext Htext Han Hasks Hone Hspin Hgreet];
  unfold mounted, fileName in *; cbn [app doc chat pendingExtractions
    pendingAnalyses pendingAsks App.uploadedFile App.extractedText App.analysis
    App.isAnalyzing DocumentAnalysis.analysis DocumentAnalysis.error
    DocumentAnalysis.autoAnalyzeStarted ChatInterface.messages
    ChatInterface.input ChatInterface.isLoading ChatInterface.error] in *.

Ltac close_holds :=
  constructor; unfold mounted, fileName; simpl; auto; try congruence.

Lemma holds_initial : Invariant.Holds initial.
Proof.
  constructor; simpl; try (intros; congruence); auto.
Qed.

Lemma Forall_firstn_skipn {A : Type} (P : A -> Prop) (n : nat) (l : list A) :
  Forall P l -> Forall P (firstn n l) /\ Forall P (skipn n l).
Proof.
  intros H. rewrite <- (firstn_skipn n l) in H.
  apply Forall_app in H. exact H.
Qed.

Lemma Forall_removeAt {A : Type} (P : A -> Prop) (i : nat) (l : list A) :
  Forall P l -> Forall P (removeAt i l).
Proof.
  intros H. unfold removeAt. apply Forall_app. split.
  - apply (Forall_firstn_skipn i H).
  - apply (Forall_firstn_skipn (S i) H).
Qed.

Lemma holds_analyzeDocument (s : t) :
  Invariant.Holds s -> mounted s = true -> Invariant.Holds (analyzeDocument s).
Proof.
  intros H Hm. unfold analyzeDocument. unfold_setters.
  break_session s. open_holds H.
  destruct (truthy _) eqn:Ht; close_holds.
  - apply Forall_app. split; [exact Han|].
    constructor; [|constructor]. split; [reflexivity|].
    apply truthy_iff. exact Ht.
  - intros _. intros E. apply app_eq_nil in E. destruct E; discriminate.
Qed.

Lemma holds_withDoc (f : DocumentAnalysis.State -> DocumentAnalysis.State) (s : t) :
  Invariant.Holds s -> mounted s = true -> Invariant.Holds (withDoc f s).
Proof.
  intros H Hm. unfold withDoc. break_session s. open_holds H. close_holds.
Qed.

Lemma holds_reanalyze (s : t) :
  Invariant.Holds s -> mounted s = true -> Invariant.Holds (reanalyze s).
Proof.
  intros H Hm. unfold reanalyze, setAnalysis, setAutoAnalyzeStarted.
  apply holds_analyzeDocument; [|exact Hm].
  repeat apply holds_withDoc; assumption.
Qed.

Lemma holds_autoAnalyzeEffect (API_KEY : option jsstring) (s : t) :
  Invariant.Holds s -> mounted s = true ->
  Invariant.Holds (autoAnalyzeEffect API_KEY s).
Proof.
  intros H Hm. unfold autoAnalyzeEffect.
  destruct (_ && _); [|exact H].
  apply holds_analyzeDocument; [|exact Hm].
  unfold setAutoAnalyzeStarted. apply holds_withDoc; assumption.
Qed.

Lemma holds_welcomeEffect (now : N) (s : t) :
  Invariant.Holds s -> mounted s = true -> Invariant.Holds (welcomeEffect now s).
Proof.
  intros H Hm. unfold welcomeEffect. destruct (_ && _); [|exact H].
  unfold_setters. break_session s. open_holds H. close_holds. eauto.
Qed.

Lemma holds_clearChat (now : N) (s : t) :
  Invariant.Holds s -> mounted s = true -> Invariant.Holds (clearChat now s).
Proof.
  intros H Hm. unfold clearChat. unfold_setters.
  break_session s. open_holds H. close_holds. eauto.
Qed.

Lemma holds_setInput (text : jsstring) (s : t) :
  Invariant.Holds s -> mounted s = true -> Invariant.Holds (setInput text s).
Proof.
  intros H Hm. unfold_setters. break_session s. open_holds H. close_holds.
Qed.

Lemma holds_analyzeDocumentSettled
    (JSON_stringify : json -> jsstring) (outcome : Settled json) (i : nat) (s : t) :
  Invariant.Holds s -> mounted s = true ->
  Invariant.Holds
    (analyzeDocumentSettled JSON_stringify outcome
       (withPendingAnalyses (removeAt i (pendingAnalyses s)) s)).
Proof.
  intros H Hm. unfold analyzeDocumentSettled, handleAnalysisComplete.
  unfold_setters. break_session s. open_holds H.
  destruct outcome; close_holds; apply Forall_removeAt; assumption.
Qed.

Lemma holds_handleSubmit (API_KEY : option jsstring) (now : N) (s : t) :
  Invariant.Holds s -> mounted s = true ->
  (App.extractedText (app s) <> [] -> ChatInterface.messages (chat s) <> []) ->
  Invariant.Holds (handleSubmit API_KEY now s).
Proof.
  intros H Hm Hgreeted. unfold handleSubmit.
  destruct (negb (truthy (trim (ChatInterface.input (chat s))))
            || ChatInterface.isLoading (chat s)) eqn:Hguard; [exact H|].
  apply orb_false_elim in Hguard. destruct Hguard as [Hq Hl].
  apply negb_false_iff in Hq.
  destruct (negb (isConfigured API_KEY)).
  { unfold_setters. break_session s. open_holds H. close_holds. }
  destruct (negb (truthy (App.extractedText (app s)))) eqn:Ht.
  { unfold_setters. break_session s. open_holds H. close_holds. }
  apply negb_false_iff, truthy_iff in Ht. apply truthy_iff in Hq.
  specialize (Hgreeted Ht).
  unfold_setters. break_session s. open_holds H. simpl in *.
  destruct Hone as [[Hp _]|[_ Hl']].
  2: congruence.
  subst. close_holds.
  - right. split; [eauto | reflexivity].
  - destruct messages; [congruence | exact Hgreet].
Qed.

Lemma holds_handleSubmitSettled
    (now : N) (outcome : Settled jsstring) (i : nat) (call : AskCall) (s : t) :
  Invariant.Holds s -> mounted s = true ->
  (App.extractedText (app s) <> [] -> ChatInterface.messages (chat s) <> []) ->
  nth_error (pendingAsks s) i = Some call ->
  Invariant.Holds
    (handleSubmitSettled now outcome
       (withPendingAsks (removeAt i (pendingAsks s)) s)).
Proof.
  intros H Hm Hgreeted Hnth. unfold handleSubmitSettled.
  unfold_setters. break_session s. open_holds H. simpl in *.
  destruct Hone as [[-> _]|[[call' ->] Hl]];
    [destruct i; discriminate|].
  assert (Hi : i = 0%nat).
  { destruct i; [reflexivity|]. destruct i; discriminate. }
  subst i. inversion Hasks as [|? ? (Hd & Hdne & _) _]; subst.
  assert (Hmsg : messages <> []) by (apply Hgreeted; congruence).
  destruct outcome; close_holds; destruct messages; try congruence; exact Hgreet.
Qed.

Lemma cleanText_idem (s : jsstring) :
  PDFUpload.cleanText (PDFUpload.cleanText s) = PDFUpload.cleanText s.
Proof.
  rewrite (cleanText_words (PDFUpload.cleanText s)), words_cleanText.
  symmetry. apply cleanText_words.
Qed.

Lemma extract_fulfilled (loaded : Settled PDFUpload.PDFDocument) (text : jsstring) :
  PDFUpload.extractTextFromPDF loaded = Fulfilled text ->
  (50 <= length text)%nat /\ PDFUpload.cleanText text = text.
Proof.
  unfold PDFUpload.extractTextFromPDF.
  destruct loaded as [pdf|e]; [|discriminate].
  destruct (PDFUpload.promiseAll _) as [pageTexts|e]; [|discriminate].
  destruct (_ || _) eqn:Hcheck; [discriminate|].
  intros H. injection H as <-.
  apply orb_false_elim in Hcheck. destruct Hcheck as [_ Hlen].
  apply Nat.ltb_ge in Hlen. split; [exact Hlen | apply cleanText_idem].
Qed.

Section Invariants.

Variable API_KEY : option jsstring.
Variable JSON_parse : jsstring -> option json.
Variable JSON_stringify : json -> jsstring.

Local Abbreviation handle := (Session.handle API_KEY JSON_parse JSON_stringify).
Local Abbreviation step := (Session.step API_KEY JSON_parse JSON_stringify).
Local Abbreviation run := (Session.run API_KEY JSON_parse JSON_stringify).

Lemma handle_idle (now : N) (ev : Event) :
  (forall file, ev <> Drop file) -> handle now ev initial = initial.
Proof.
  intros Hev. destruct ev; try reflexivity.
  - exfalso. exact (Hev _ eq_refl).
  - destruct i; reflexivity.
  - destruct i; reflexivity.
Qed.

Lemma holds_handle (now : N) (ev : Event) (s : t) :
  Invariant.Holds s -> Invariant.Settled_ API_KEY s ->
  Invariant.Holds (handle now ev s).
Proof.
  intros H [Hgreeted _].
  destruct (mounted s) eqn:Hm.
  - destruct ev; unfold Session.handle; rewrite ?Hm; try exact H.
    + (* ExtractionSettles *)
      destruct (pendingExtractions s) as [|n] eqn:Hpe; [exact H|].
      destruct (PDFUpload.extractTextFromPDF loaded) as [text|e] eqn:Hex.
      * destruct (extract_fulfilled _ Hex) as [Hlen Hclean].
        destruct (negb (truthy text) || (length text <? 50)%nat) eqn:Hcheck.
        -- unfold_setters. break_session s. open_holds H. simpl in *. subst.
           destruct Hext as [?|[E ->]]; [discriminate|]. injection E as ->.
           close_holds.
        -- unfold handleTextExtracted. unfold_setters.
           break_session s. open_holds H. simpl in *. subst.
           destruct Hext as [?|[E ->]]; [discriminate|]. injection E as ->.
           assert (Hpa : pendingAnalyses0 = []).
           { destruct pendingAnalyses0 as [|x l]; [reflexivity|].
             inversion Han as [|? ? [-> Hne] _]. congruence. }
           assert (Hpk : pendingAsks0 = []).
           { destruct pendingAsks0 as [|x l]; [reflexivity|].
             inversion Hasks as [|? ? (Hd & Hne & _) _]. congruence. }
           subst. close_holds.
      * unfold_setters. break_session s. open_holds H. simpl in *. subst.
        destruct Hext as [?|[E ->]]; [discriminate|]. injection E as ->.
        close_holds.
    + apply holds_analyzeDocument; assumption.
    + apply holds_reanalyze; assumption.
    + destruct (nth_error (pendingAnalyses s) i) eqn:Hnth; [|exact H].
      apply holds_analyzeDocumentSettled; assumption.
    + apply holds_setInput; assumption.
    + apply holds_handleSubmit; assumption.
    + destruct (nth_error (pendingAsks s) i) as [call|] eqn:Hnth; [|exact H].
      eapply holds_handleSubmitSettled; eassumption.
    + apply holds_clearChat; assumption.
  - pose proof (Invariant.idle H Hm) as ->.
    destruct ev; try (rewrite handle_idle by discriminate; exact holds_initial).
    unfold Session.handle. simpl.
    destruct (PDFUpload.validate file) eqn:Hv; [exact holds_initial|].
    unfold handleFileUpload. unfold_setters. simpl. close_holds.
Qed.

Lemma mounted_handle (now : N) (ev : Event) (s : t) :
  mounted s = true ->
  App.uploadedFile (app (handle now ev s)) = App.uploadedFile (app s).
Proof.
  intros Hm. destruct ev; unfold Session.handle; rewrite ?Hm; try reflexivity.
  - destruct (pendingExtractions s); [reflexivity|].
    destruct (PDFUpload.extractTextFromPDF loaded); [|reflexivity].
    destruct (_ || _); reflexivity.
  - apply analyzeDocument_keeps.
  - unfold reanalyze.
    destruct (analyzeDocument_keeps
                (setAutoAnalyzeStarted false (setAnalysis None s)))
      as (_ & _ & _ & -> & _). reflexivity.
  - destruct (nth_error (pendingAnalyses s) i); [|reflexivity].
    unfold analyzeDocumentSettled. destruct (Gemini.analyzeDocument _ _ _ _);
      reflexivity.
  - unfold handleSubmit. case_conditions; reflexivity.
  - destruct (nth_error (pendingAsks s) i); [|reflexivity].
    unfold handleSubmitSettled. destruct (Gemini.askQuestion _ _ _ _ _);
      reflexivity.
Qed.

Lemma welcomeEffect_keeps (now : N) (s : t) :
  app (welcomeEffect now s) = app s /\ doc (welcomeEffect now s) = doc s.
Proof. unfold welcomeEffect. destruct (_ && _); split; reflexivity. Qed.

Lemma welcomeEffect_greeted (now : N) (s : t) :
  App.extractedText (app s) <> [] ->
  ChatInterface.messages (chat (welcomeEffect now s)) <> [].
Proof.
  intros Hne. apply truthy_iff in Hne. unfold welcomeEffect. rewrite Hne.
  destruct (ChatInterface.messages (chat s)) eqn:E; simpl.
  - discriminate.
  - rewrite E. discriminate.
Qed.

Lemma autoAnalyzeEffect_text (s : t) :
  App.extractedText (app (autoAnalyzeEffect API_KEY s))
  = App.extractedText (app s).
Proof.
  unfold autoAnalyzeEffect. destruct (_ && _); [|reflexivity].
  destruct (analyzeDocument_keeps (setAutoAnalyzeStarted true s))
    as (_ & _ & -> & _). reflexivity.
Qed.

Lemma autoAnalyzeEffect_started (s : t) :
  App.extractedText (app s) <> [] -> isConfigured API_KEY = true ->
  DocumentAnalysis.autoAnalyzeStarted (doc (autoAnalyzeEffect API_KEY s)) = true.
Proof.
  intros Hne Hcfg. apply truthy_iff in Hne.
  unfold autoAnalyzeEffect. rewrite Hne, Hcfg.
  destruct (DocumentAnalysis.autoAnalyzeStarted (doc s)) eqn:Hst;
    simpl; [exact Hst|].
  unfold analyzeDocument. cbn [setAutoAnalyzeStarted withDoc app].
  rewrite Hne. reflexivity.
Qed.

Lemma holds_step (now : N) (ev : Event) (s : t) :
  Invariant.Holds s -> Invariant.Settled_ API_KEY s ->
  Invariant.Holds (step now ev s) /\ Invariant.Settled_ API_KEY (step now ev s).
Proof.
  intros H Hs. pose proof (holds_handle now ev H Hs) as H1.
  unfold Session.step, runEffects.
  set (s1 := handle now ev s) in *.
  destruct (mounted s1) eqn:Hm.
  - assert (Hm2 : mounted (autoAnalyzeEffect API_KEY s1) = true).
    { unfold autoAnalyzeEffect. destruct (_ && _); [|exact Hm].
      unfold mounted in *.
      destruct (analyzeDocument_keeps (setAutoAnalyzeStarted true s1))
        as (_ & _ & _ & -> & _). exact Hm. }
    pose proof (holds_autoAnalyzeEffect API_KEY H1 Hm) as H2.
    split; [apply holds_welcomeEffect; assumption|].
    destruct (welcomeEffect_keeps now (autoAnalyzeEffect API_KEY s1)) as [Ea Ed].
    constructor; rewrite Ea.
    + intros Hne. apply welcomeEffect_greeted. exact Hne.
    + rewrite Ed, autoAnalyzeEffect_text. apply autoAnalyzeEffect_started.
  - split; [exact H1|].
    pose proof (Invariant.idle H1 Hm) as E. rewrite E.
    constructor; simpl; congruence.
Qed.

Lemma holds_run (evs : list (N * Event)) (s : t) :
  Invariant.Holds s -> Invariant.Settled_ API_KEY s ->
  Invariant.Holds (run evs s) /\ Invariant.Settled_ API_KEY (run evs s).
Proof.
  revert s. induction evs as [|[now ev] evs IH]; intros s H Hs; [auto|].
  simpl. destruct (holds_step now ev H Hs) as [H' Hs']. apply IH; assumption.
Qed.

Lemma holds_reachable (evs : list (N * Event)) :
  Invariant.Holds (run evs initial)
  /\ Invariant.Settled_ API_KEY (run evs initial).
Proof.
  apply holds_run; [exact holds_initial|].
  constructor; simpl; congruence.
Qed.

End Invariants.

Section Reachable.

Variable API_KEY : option jsstring.
Variable JSON_parse : jsstring -> option json.
Variable JSON_stringify : json -> jsstring.

Local Abbreviation handle := (Session.handle API_KEY JSON_parse JSON_stringify).
Local Abbreviation step := (Session.step API_KEY JSON_parse JSON_stringify).
Local Abbreviation run := (Session.run API_KEY JSON_parse JSON_stringify).

Lemma runEffects_file (now : N) (s : t) :
  App.uploadedFile (app (runEffects API_KEY now s)) = App.uploadedFile (app s).
Proof.
  unfold runEffects. destruct (mounted s); [|reflexivity].
  destruct (welcomeEffect_keeps now (autoAnalyzeEffect API_KEY s)) as [-> _].
  unfold autoAnalyzeEffect. destruct (_ && _); [|reflexivity].
  destruct (analyzeDocument_keeps (setAutoAnalyzeStarted true s))
    as (_ & _ & _ & -> & _). reflexivity.
Qed.

(** X10: until a valid file is dropped, no event changes the session: it
    stays the initial one. The file that a session holds has passed the
    validation, and no later event replaces or removes it. *)
Theorem session_file_is_set_once (evs : list (N * Event)) :
  let s := run evs initial in
  (mounted s = false -> s = initial)
  /\ forall file,
       App.uploadedFile (app s) = Some file ->
       PDFUpload.validate file = None
       /\ forall now ev, App.uploadedFile (app (step now ev s)) = Some file.
Proof.
  intros s. destruct (holds_reachable API_KEY JSON_parse JSON_stringify evs)
    as [H _]. fold s in H.
  split; [exact (Invariant.idle H)|].
  intros file Hfile. split; [exact (Invariant.file_valid H Hfile)|].
  intros now ev. unfold Session.step.
  rewrite runEffects_file, mounted_handle; [exact Hfile|].
  unfold mounted. rewrite Hfile. reflexivity.
Qed.

Lemma handle_text (now : N) (ev : Event) (s : t) :
  pendingExtractions s = 0%nat ->
  App.extractedText (app (handle now ev s)) = App.extractedText (app s).
Proof.
  intros Hpe. destruct ev; unfold Session.handle; try rewrite Hpe;
    try reflexivity.
  - destruct (mounted s); [reflexivity|].
    destruct (PDFUpload.validate file); reflexivity.
  - destruct (mounted s); [|reflexivity]. apply analyzeDocument_keeps.
  - destruct (mounted s); [|reflexivity]. apply reanalyze_clears.
  - destruct (nth_error (pendingAnalyses s) i); [|reflexivity].
    unfold analyzeDocumentSettled. destruct (Gemini.analyzeDocument _ _ _ _);
      reflexivity.
  - destruct (mounted s); reflexivity.
  - destruct (mounted s); [|reflexivity].
    unfold handleSubmit. case_conditions; reflexivity.
  - destruct (nth_error (pendingAsks s) i); [|reflexivity].
    unfold handleSubmitSettled. destruct (Gemini.askQuestion _ _ _ _ _);
      reflexivity.
  - destruct (mounted s); reflexivity.
Qed.

(** X11: the text that a session holds is either empty or the text of a
    successful extraction: at least 50 code units, and left as it is by
    the clean-up (single-spaced, trimmed). Once it is there, no event
    changes it. *)
Theorem session_text_is_set_once (evs : list (N * Event)) :
  let s := run evs initial in
  let text := App.extractedText (app s) in
  (text = [] \/ ((50 <= length text)%nat /\ PDFUpload.cleanText text = text))
  /\ (text <> [] ->
      forall now ev, App.extractedText (app (step now ev s)) = text).
Proof.
  intros s text. destruct (holds_reachable API_KEY JSON_parse JSON_stringify evs)
    as [H _]. fold s in H.
  pose proof (Invariant.text_clean H) as Htext. fold text in Htext.
  split; [destruct Htext as [?|(_ & ? & ?)]; auto|].
  intros Hne now ev. destruct Htext as [?|(Hpe & _)]; [congruence|].
  unfold Session.step.
  destruct (runEffects_keeps API_KEY now (handle now ev s)) as (_ & _ & -> & _).
  apply handle_text. exact Hpe.
Qed.

(** X12: in every session, each call in flight is about the text that the
    session now holds, and that text is not empty: the analysis calls
    were made on it, and the questions in flight were asked of it and are
    not empty themselves. *)
Theorem calls_in_flight_concern_current_text (evs : list (N * Event)) :
  let s := run evs initial in
  Forall (fun text => text = App.extractedText (app s) /\ text <> [])
    (pendingAnalyses s)
  /\ Forall (fun call => documentText call = App.extractedText (app s)
                         /\ question call <> [])
       (pendingAsks s).
Proof.
  intros s. destruct (holds_reachable API_KEY JSON_parse JSON_stringify evs)
    as [H _]. fold s in H.
  split; [exact (Invariant.analyses_current H)|].
  pose proof (Invariant.asks_current H) as Hasks.
  eapply Forall_impl; [|exact Hasks]. intros call (? & _ & ?). auto.
Qed.

(** X13: a session has at most one question in flight, and the loading
    flag of the chat is set exactly while there is one; the analysing
    flag of [App] is never set without an analysis call in flight. *)
Theorem one_question_in_flight (evs : list (N * Event)) :
  let s := run evs initial in
  (length (pendingAsks s) <= 1)%nat
  /\ (ChatInterface.isLoading (chat s) = true <-> pendingAsks s <> [])
  /\ (App.isAnalyzing (app s) = true -> pendingAnalyses s <> []).
Proof.
  intros s. destruct (holds_reachable API_KEY JSON_parse JSON_stringify evs)
    as [H _]. fold s in H.
  pose proof (Invariant.one_question H) as Hone.
  split; [|split; [|exact (Invariant.analyzing_pending H)]].
  - destruct Hone as [[-> _]|[[call ->] _]]; simpl; lia.
  - destruct Hone as [[-> ->]|[[call ->] ->]]; split; congruence.
Qed.

(** X14: once a session holds text, its conversation is not empty and
    opens with the greeting that names the uploaded file; and with a key
    configured the analysis has been started without a click. *)
Theorem conversation_opens_with_greeting (evs : list (N * Event)) :
  let s := run evs initial in
  App.extractedText (app s) <> [] ->
  (exists now rest,
     ChatInterface.messages (chat s) = welcomeMessage now (fileName s) :: rest)
  /\ (isConfigured API_KEY = true ->
      DocumentAnalysis.autoAnalyzeStarted (doc s) = true).
Proof.
  intros s Hne. destruct (holds_reachable API_KEY JSON_parse JSON_stringify evs)
    as [H [Hgreeted Hauto]]. fold s in H, Hgreeted, Hauto.
  split; [|exact (Hauto Hne)].
  pose proof (Invariant.greeting_first H) as Hg. specialize (Hgreeted Hne).
  destruct (ChatInterface.messages (chat s)) as [|m rest]; [congruence|].
  destruct Hg as [now ->]. eauto.
Qed.

End Reachable.

(** ** Dropping a file, and what its extraction sets off *)

Lemma eqb_eq (s t : jsstring) : eqb s t = true <-> s = t.
Proof.
  unfold eqb. destruct (list_eq_dec N.eq_dec s t); split; congruence.
Qed.

Lemma validate_passes (file : PDFUpload.File) :
  PDFUpload.validate file = None
  <-> PDFUpload.type file = lit "application/pdf"
      /\ (PDFUpload.size file <= 52428800)%N.
Proof.
  unfold PDFUpload.validate.
  destruct (eqb (PDFUpload.type file) (lit "application/pdf")) eqn:Htype;
    cbn [negb].
  - apply eqb_eq in Htype.
    change (50 * 1024 * 1024)%N with 52428800%N.
    destruct (52428800 <? PDFUpload.size file)%N eqn:Hsize.
    + apply N.ltb_lt in Hsize. split; [discriminate|]. intros [_ ?]. lia.
    + apply N.ltb_ge in Hsize. split; auto.
  - split; [discriminate|]. intros [Heq _]. apply eqb_eq in Heq. congruence.
Qed.

Lemma truthy_long (text : jsstring) :
  (50 <= length text)%nat ->
  truthy text = true /\ (length text <? 50)%nat = false.
Proof.
  intros H. split; [destruct text; [simpl in H; lia|reflexivity]|].
  apply Nat.ltb_ge. exact H.
Qed.

Section Dropping.

Variable API_KEY : option jsstring.
Variable JSON_parse : jsstring -> option json.
Variable JSON_stringify : json -> jsstring.

Local Abbreviation handle := (Session.handle API_KEY JSON_parse JSON_stringify).
Local Abbreviation step := (Session.step API_KEY JSON_parse JSON_stringify).
Local Abbreviation run := (Session.run API_KEY JSON_parse JSON_stringify).

(** X15: while the session has no file, a dropped file is taken exactly
    when its type is application/pdf and its size is at most 52428800
    bytes: the file is stored and one extraction is started, with nothing
    else set. Any other file leaves the session as it was at the start. *)
Theorem drop_takes_pdf_within_limit (evs : list (N * Event)) (now : N)
    (file : PDFUpload.File) :
  let s := run evs initial in
  mounted s = false ->
  let s' := step now (Drop file) s in
  (PDFUpload.type file = lit "application/pdf"
   /\ (PDFUpload.size file <= 52428800)%N ->
   s' = withPendingExtractions 1 (setUploadedFile (Some file) initial))
  /\ (PDFUpload.type file <> lit "application/pdf"
      \/ (52428800 < PDFUpload.size file)%N ->
      s' = initial).
Proof.
  intros s Hm s'.
  destruct (holds_reachable API_KEY JSON_parse JSON_stringify evs) as [H _].
  fold s in H. pose proof (Invariant.idle H Hm) as Hs.
  unfold s'. rewrite Hs. unfold Session.step, Session.handle.
  change (mounted initial) with false. cbv iota.
  split.
  - intros Hok. apply validate_passes in Hok. rewrite Hok. reflexivity.
  - intros Hbad. destruct (PDFUpload.validate file) eqn:Hv; [reflexivity|].
    apply validate_passes in Hv. destruct Hv, Hbad; [congruence|lia].
Qed.

Lemma welcomeEffect_frame (now : N) (s : t) :
  pendingExtractions (welcomeEffect now s) = pendingExtractions s
  /\ pendingAnalyses (welcomeEffect now s) = pendingAnalyses s
  /\ pendingAsks (welcomeEffect now s) = pendingAsks s.
Proof. unfold welcomeEffect. destruct (_ && _); repeat split. Qed.

Lemma analyzeDocument_frame (s : t) :
  pendingExtractions (analyzeDocument s) = pendingExtractions s
  /\ DocumentAnalysis.autoAnalyzeStarted (doc (analyzeDocument s))
     = DocumentAnalysis.autoAnalyzeStarted (doc s)
  /\ (truthy (App.extractedText (app s)) = true ->
      App.isAnalyzing (app (analyzeDocument s)) = true).
Proof.
  unfold analyzeDocument.
  destruct (truthy (App.extractedText (app s))); repeat split. discriminate.
Qed.

Lemma autoAnalyzeEffect_frame (s : t) :
  App.uploadedFile (app (autoAnalyzeEffect API_KEY s)) = App.uploadedFile (app s)
  /\ chat (autoAnalyzeEffect API_KEY s) = chat s
  /\ pendingExtractions (autoAnalyzeEffect API_KEY s) = pendingExtractions s
  /\ pendingAsks (autoAnalyzeEffect API_KEY s) = pendingAsks s.
Proof.
  unfold autoAnalyzeEffect. destruct (_ && _); [|repeat split].
  destruct (analyzeDocument_keeps (setAutoAnalyzeStarted true s))
    as (_ & _ & _ & -> & -> & ->).
  destruct (analyzeDocument_frame (setAutoAnalyzeStarted true s)) as (-> & _).
  repeat split.
Qed.

Lemma runEffects_extractions (now : N) (s : t) :
  pendingExtractions (runEffects API_KEY now s) = pendingExtractions s.
Proof.
  unfold runEffects. destruct (mounted s); [|reflexivity].
  destruct (welcomeEffect_frame now (autoAnalyzeEffect API_KEY s)) as (-> & _).
  apply autoAnalyzeEffect_frame.
Qed.

(** X16: when the extraction of the dropped file fulfils, its text becomes
    the text of the session; the render that follows opens an empty
    conversation with the greeting, and with a key configured it starts
    the first analysis on that text without a click. Without a key no
    analysis call is made. *)
Theorem extraction_opens_chat_and_analysis (now : N)
    (loaded : Settled PDFUpload.PDFDocument) (text : jsstring) (s : t) :
  mounted s = true ->
  pendingExtractions s <> 0%nat ->
  PDFUpload.extractTextFromPDF loaded = Fulfilled text ->
  let s' := step now (ExtractionSettles loaded) s in
  App.extractedText (app s') = text
  /\ (ChatInterface.messages (chat s) = [] ->
      ChatInterface.messages (chat s') = [welcomeMessage now (fileName s)])
  /\ (isConfigured API_KEY = true ->
      DocumentAnalysis.autoAnalyzeStarted (doc s) = false ->
      pendingAnalyses s' = pendingAnalyses s ++ [text]
      /\ App.isAnalyzing (app s') = true
      /\ DocumentAnalysis.autoAnalyzeStarted (doc s') = true)
  /\ (isConfigured API_KEY = false ->
      pendingAnalyses s' = pendingAnalyses s
      /\ App.isAnalyzing (app s') = App.isAnalyzing (app s)).
Proof.
  intros Hm Hpe Hext s'.
  destruct (@extract_fulfilled loaded text Hext) as [Hlen _].
  destruct (@truthy_long text Hlen) as [Htruthy Hshort].
  unfold s', Session.step, Session.handle.
  destruct (pendingExtractions s) as [|n] eqn:Hn; [congruence|].
  rewrite Hext, Htruthy, Hshort. cbn [negb orb].
  set (s1 := handleTextExtracted text (withPendingExtractions n s)).
  assert (Htext1 : App.extractedText (app s1) = text) by reflexivity.
  assert (Hm1 : mounted s1 = true) by exact Hm.
  unfold runEffects. rewrite Hm1.
  set (s2 := autoAnalyzeEffect API_KEY s1).
  assert (Htext2 : App.extractedText (app s2) = text)
    by (unfold s2; rewrite autoAnalyzeEffect_text; exact Htext1).
  destruct (autoAnalyzeEffect_frame s1) as (Hfile2 & Hchat2 & _). fold s2 in Hfile2, Hchat2.
  destruct (welcomeEffect_keeps now s2) as [Happ Hdoc].
  destruct (welcomeEffect_frame now s2) as (_ & Hpending & _).
  rewrite Happ, Hdoc, Hpending, Htext2.
  split; [reflexivity|]. split; [|split].
  - intros Hnil. unfold welcomeEffect, fileName.
    rewrite Htext2, Htruthy, Hchat2, Hfile2.
    change (chat s1) with (chat s). rewrite Hnil. reflexivity.
  - intros Hcfg Hstart. unfold s2, autoAnalyzeEffect.
    rewrite Htext1, Htruthy, Hcfg.
    change (doc s1) with (doc s). rewrite Hstart. cbn [negb andb].
    set (s3 := setAutoAnalyzeStarted true s1).
    assert (Htext3 : truthy (App.extractedText (app s3)) = true)
      by exact Htruthy.
    destruct (analyzeDocument_frame s3) as (_ & -> & Hspin).
    rewrite (analyzeDocument_calls s3 Htext3), (Hspin Htext3).
    repeat split.
  - intros Hcfg. unfold s2, autoAnalyzeEffect.
    rewrite Hcfg, andb_false_r. split; reflexivity.
Qed.



Lemma step_without_extraction (now : N) (ev : Event) (s : t) :
  mounted s = true ->
  pendingExtractions s = 0%nat ->
  mounted (step now ev s) = true
  /\ pendingExtractions (step now ev s) = 0%nat
  /\ App.extractedText (app (step now ev s)) = App.extractedText (app s).
Proof.
  intros Hm Hpe. split; [|split].
  - unfold mounted, Session.step.
    rewrite runEffects_file, mounted_handle by exact Hm. exact Hm.
  - unfold Session.step. rewrite runEffects_extractions.
    destruct ev; unfold Session.handle; rewrite ?Hm.
    + exact Hpe.
    + rewrite Hpe. exact Hpe.
    + destruct (analyzeDocument_frame s) as (-> & _). exact Hpe.
    + unfold reanalyze.
      match goal with
      | |- pendingExtractions (analyzeDocument ?x) = _ =>
          destruct (analyzeDocument_frame x) as (-> & _)
      end. exact Hpe.
    + destruct (nth_error (pendingAnalyses s) i); [|exact Hpe].
      unfold analyzeDocumentSettled.
      destruct (Gemini.analyzeDocument _ _ _ _); exact Hpe.
    + exact Hpe.
    + unfold handleSubmit. case_conditions; exact Hpe.
    + destruct (nth_error (pendingAsks s) i); [|exact Hpe].
      unfold handleSubmitSettled.
      destruct (Gemini.askQuestion _ _ _ _ _); exact Hpe.
    + exact Hpe.
  - unfold Session.step.
    destruct (runEffects_keeps API_KEY now (handle now ev s))
      as (_ & _ & -> & _).
    apply handle_text. exact Hpe.
Qed.

Lemma run_without_extraction (evs : list (N * Event)) (s : t) :
  mounted s = true ->
  pendingExtractions s = 0%nat ->
  pendingExtractions (run evs s) = 0%nat
  /\ App.extractedText (app (run evs s)) = App.extractedText (app s).
Proof.
  revert s. induction evs as [|[now ev] evs IH]; intros s Hm Hpe; [auto|].
  destruct (@step_without_extraction now ev s Hm Hpe) as (Hm' & Hpe' & Htext).
  cbn [Session.run]. destruct (IH _ Hm' Hpe') as [-> ->]. auto.
Qed.

Lemma run_app (evs evs' : list (N * Event)) (s : t) :
  run (evs ++ evs') s = run evs' (run evs s).
Proof.
  revert s. induction evs as [|[now ev] evs IH]; intros s; [reflexivity|].
  simpl. apply IH.
Qed.

(** X17: a failed extraction is final. When the extraction of the dropped
    file rejects, the file stays the file of the session and the text
    stays empty whatever happens afterwards: no event starts another
    extraction, and no analysis call or question is ever sent. *)
Theorem failed_extraction_is_final (file : PDFUpload.File)
    (loaded : Settled PDFUpload.PDFDocument) (now1 now2 : N)
    (evs : list (N * Event)) :
  PDFUpload.validate file = None ->
  (forall text, PDFUpload.extractTextFromPDF loaded <> Fulfilled text) ->
  let s := run ((now1, Drop file) :: (now2, ExtractionSettles loaded) :: evs)
             initial in
  App.uploadedFile (app s) = Some file
  /\ App.extractedText (app s) = []
  /\ pendingExtractions s = 0%nat
  /\ pendingAnalyses s = []
  /\ pendingAsks s = [].
Proof.
  intros Hvalid Hfail s.
  destruct (holds_reachable API_KEY JSON_parse JSON_stringify
              ((now1, Drop file) :: (now2, ExtractionSettles loaded) :: evs))
    as [H _]. fold s in H.
  set (s2 := withPendingExtractions 0 (handleFileUpload file initial)).
  assert (Hs : s = run evs s2).
  { unfold s. cbn [Session.run]. f_equal.
    unfold Session.step at 2. unfold Session.handle.
    change (mounted initial) with false. cbv iota. rewrite Hvalid.
    unfold Session.step, Session.handle.
    destruct (PDFUpload.extractTextFromPDF loaded) as [text|e] eqn:Hext;
      [destruct (Hfail text eq_refl)|]. reflexivity. }
  destruct (@run_without_extraction evs s2 eq_refl eq_refl) as [Hpe Htext].
  rewrite <- Hs in Hpe, Htext. change (App.extractedText (app s2)) with (@nil N) in Htext.
  assert (Hfile : App.uploadedFile (app s) = Some file).
  { rewrite Hs. clear. induction evs as [|[now ev] evs' IH] using rev_ind;
      [reflexivity|].
    rewrite run_app. cbn [Session.run]. unfold Session.step.
    rewrite runEffects_file, mounted_handle; [exact IH|].
    unfold mounted. rewrite IH. reflexivity. }
  repeat split; auto.
  - pose proof (Invariant.analyses_current H) as Han.
    destruct (pendingAnalyses s) as [|t0 l]; [reflexivity|].
    inversion Han as [|? ? [Heq Hne]]. congruence.
  - pose proof (Invariant.asks_current H) as Hasks.
    destruct (pendingAsks s) as [|c l]; [reflexivity|].
    inversion Hasks as [|? ? (Heq & Hne & _)]. congruence.
Qed.

End Dropping.

Section DroppingSamples.

Local Abbreviation step := (Session.step Samples.key Json.parse Json.stringify).
Local Abbreviation run := (Session.run Samples.key Json.parse Json.stringify).

Lemma drop_takes_pdf_within_limit_witness :
  mounted (run [] initial) = false
  /\ step 1000 (Drop Samples.leaseFile) (run [] initial)
     = withPendingExtractions 1 (setUploadedFile (Some Samples.leaseFile) initial).
Proof.
  split; [reflexivity|].
  apply (@drop_takes_pdf_within_limit Samples.key Json.parse Json.stringify [] 1000
           Samples.leaseFile eq_refl).
  split; [reflexivity|]. simpl. lia.
Defined.

Lemma extraction_opens_chat_and_analysis_witness :
  let s := step 1000 (Drop Samples.leaseFile) initial in
  let loaded := Samples.loadedWith Samples.leasePages in
  mounted s = true
  /\ pendingExtractions s <> 0%nat
  /\ App.extractedText (app (step 1200 (ExtractionSettles loaded) s))
     = lit "LEASE AGREEMENT between Alice Landlord and Bob Tenant, governed by the laws of Ohio.".
Proof.
  intros s loaded.
  assert (Hm : mounted s = true) by reflexivity.
  assert (Hpe : pendingExtractions s <> 0%nat) by (vm_compute; lia).
  split; [exact Hm|split; [exact Hpe|]].
  apply (@extraction_opens_chat_and_analysis Samples.key Json.parse Json.stringify
           1200 loaded _ s Hm Hpe).
  vm_compute. reflexivity.
Defined.

Lemma failed_extraction_is_final_witness :
  let s := run [ (1000%N, Drop Samples.leaseFile);
                 (1200%N, ExtractionSettles (Samples.loadedWith Samples.scannedPages));
                 (1300%N, ClickAnalyze); (1400%N, Type_ Samples.rentQuestion);
                 (1500%N, Submit) ] initial in
  PDFUpload.validate Samples.leaseFile = None
  /\ App.extractedText (app s) = [].
Proof.
  intros s. assert (Hv : PDFUpload.validate Samples.leaseFile = None) by reflexivity.
  split; [exact Hv|].
  apply (@failed_extraction_is_final Samples.key Json.parse Json.stringify
           Samples.leaseFile
           (Samples.loadedWith Samples.scannedPages) 1000 1200
           [ (1300%N, ClickAnalyze); (1400%N, Type_ Samples.rentQuestion);
             (1500%N, Submit) ] Hv).
  intros text. vm_compute. discriminate.
Defined.

End DroppingSamples.

(** ** The document information card on extracted text *)

Lemma splitFrom_pieces_ink (b : bool) (s : jsstring) :
  Forall (fun p => Shape.ink p = p) (DocumentInfo.splitFrom b s).
Proof.
  revert b. induction s as [|c s IH]; intros b; simpl.
  - constructor; [reflexivity|constructor].
  - destruct (isWhiteSpace c) eqn:Hc.
    + destruct b; [apply IH|]. constructor; [reflexivity|apply IH].
    + specialize (IH false).
      destruct (DocumentInfo.splitFrom false s) as [|piece pieces].
      * constructor; [|constructor]. unfold Shape.ink. simpl. rewrite Hc.
        reflexivity.
      * inversion IH as [|? ? Hp Hps]. constructor; [|exact Hps].
        unfold Shape.ink in *. simpl. rewrite Hc. simpl. rewrite Hp.
        reflexivity.
Qed.

Lemma words_ink (s : jsstring) :
  Forall (fun w => Shape.ink w = w /\ w <> []) (DocumentInfo.words s).
Proof.
  unfold DocumentInfo.words, DocumentInfo.split.
  pose proof (splitFrom_pieces_ink false s) as H.
  induction H as [|p l Hp Hl IH]; simpl; [constructor|].
  destruct p; simpl; [exact IH|]. constructor; [|exact IH].
  split; [exact Hp|discriminate].
Qed.

Lemma ink_app (a b : jsstring) : Shape.ink (a ++ b) = Shape.ink a ++ Shape.ink b.
Proof. apply filter_app. Qed.

Lemma join_words_length (ws : list jsstring) :
  Forall (fun w => Shape.ink w = w /\ w <> []) ws ->
  ws <> [] ->
  (length (join [32%N] ws) + 1
   = length (Shape.ink (join [32%N] ws)) + length ws)%nat.
Proof.
  induction 1 as [|w ws [Hw _] Hws IH]; [congruence|]. intros _.
  destruct ws as [|w' ws'].
  - simpl. rewrite ?app_nil_r, Hw. lia.
  - rewrite join_cons by discriminate.
    rewrite ink_app, ink_app, Hw.
    change (Shape.ink [32%N]) with (@nil N).
    specialize (IH ltac:(discriminate)).
    rewrite !length_app. simpl length in *. lia.
Qed.

(** X18: on the text of a successful extraction the figures of the
    document information card are exact: the text is its words with one
    space between two neighbours, so its length is the number of ink code
    units plus the word count less one, and there is at least one word.
    The quality label is never the one for no text, and it is the one for
    a very short text exactly below 100 code units. *)
Theorem extracted_text_card_is_exact (loaded : Settled PDFUpload.PDFDocument)
    (text : jsstring) :
  PDFUpload.extractTextFromPDF loaded = Fulfilled text ->
  text = join [32%N] (DocumentInfo.words text)
  /\ (1 <= DocumentInfo.wordCount text)%nat
  /\ (length text + 1
      = length (Shape.ink text) + DocumentInfo.wordCount text)%nat
  /\ DocumentInfo.getTextQuality text <> lit "No text"
  /\ (DocumentInfo.getTextQuality text = lit "Very short"
      <-> (length text < 100)%nat).
Proof.
  intros Hext. destruct (@extract_fulfilled loaded text Hext) as [Hlen Hclean].
  destruct (@truthy_long text Hlen) as [Htruthy _].
  assert (Hjoin : text = join [32%N] (DocumentInfo.words text)).
  { rewrite <- Hclean at 1. apply cleanText_words. }
  assert (Hne : DocumentInfo.words text <> []).
  { intros Hnil. rewrite Hnil in Hjoin. subst text. discriminate. }
  split; [exact Hjoin|]. split; [|split].
  - unfold DocumentInfo.wordCount.
    destruct (DocumentInfo.words text); [congruence|simpl; lia].
  - unfold DocumentInfo.wordCount. rewrite Hjoin at 1 2.
    apply join_words_length; [apply words_ink|exact Hne].
  - unfold DocumentInfo.getTextQuality. rewrite Htruthy. cbn [negb].
    split.
    + case_conditions; vm_compute; discriminate.
    + destruct (length text <? 100)%nat eqn:Hshort.
      * apply Nat.ltb_lt in Hshort. split; auto.
      * apply Nat.ltb_ge in Hshort. split; [|lia].
        case_conditions; vm_compute; discriminate.
Qed.

Lemma extracted_text_card_is_exact_witness :
  let text :=
    lit "LEASE AGREEMENT between Alice Landlord and Bob Tenant, governed by the laws of Ohio." in
  PDFUpload.extractTextFromPDF (Samples.loadedWith Samples.leasePages)
  = Fulfilled text
  /\ text = join [32%N] (DocumentInfo.words text).
Proof.
  intros text.
  assert (H : PDFUpload.extractTextFromPDF (Samples.loadedWith Samples.leasePages)
              = Fulfilled text) by (vm_compute; reflexivity).
  split; [exact H|].
  apply (@extracted_text_card_is_exact _ text H).
Defined.

(** ** Progress reports, page by page *)

Lemma progressAt_last (numPages : nat) :
  (0 < numPages)%nat -> (PDFUpload.progressAt numPages numPages == 100)%Q.
Proof.
  intros Hn. destruct numPages as [|n]; [lia|].
  unfold PDFUpload.progressAt, Qeq, Qdiv, Qmult, Qinv, inject_Z.
  change (Z.of_nat (S n)) with (Z.pos (Pos.of_succ_nat n)).
  cbn -[Z.mul Z.of_nat Pos.mul]. nia.
Qed.

Lemma progressAt_first (numPages : nat) :
  (PDFUpload.progressAt numPages 0 == 0)%Q.
Proof.
  unfold PDFUpload.progressAt, Qdiv. change (inject_Z (Z.of_nat 0)) with 0%Q.
  rewrite Qmult_0_l. apply Qmult_0_l.
Qed.

(** X19: during the extraction of a document of [numPages] pages, the
    value reported for a page lies above 0 and is at most 100, and it is
    100 exactly for the last page. *)
Theorem progress_report_within_bounds (numPages pageNum : nat) :
  (1 <= pageNum <= numPages)%nat ->
  (0 < PDFUpload.progressAt numPages pageNum)%Q
  /\ (PDFUpload.progressAt numPages pageNum <= 100)%Q
  /\ ((PDFUpload.progressAt numPages pageNum == 100)%Q <-> pageNum = numPages).
Proof.
  intros [Hlo Hhi].
  assert (Hn : (0 < numPages)%nat) by lia.
  pose proof (progressAt_last Hn) as Hlast.
  pose proof (progressAt_first numPages) as Hfirst.
  split; [|split; [|split]].
  - apply Qnot_le_lt. rewrite <- Hfirst. intros H.
    apply (progressAt_le _ _ Hn) in H. lia.
  - rewrite <- Hlast. apply (progressAt_le _ _ Hn). exact Hhi.
  - intros Heq. rewrite <- Hlast in Heq.
    assert (H : (PDFUpload.progressAt numPages numPages
                 <= PDFUpload.progressAt numPages pageNum)%Q)
      by (rewrite Heq; apply Qle_refl).
    apply (progressAt_le _ _ Hn) in H. lia.
  - intros ->. exact Hlast.
Qed.

Lemma progress_report_within_bounds_witness :
  (1 <= 2 <= 3)%nat /\ (0 < PDFUpload.progressAt 3 2)%Q.
Proof.
  assert (H : (1 <= 2 <= 3)%nat) by lia.
  split; [exact H|]. apply (@progress_report_within_bounds 3 2 H).
Defined.

(** ** Calls that overlap *)

Section Overlap.

Variable API_KEY : option jsstring.
Variable JSON_parse : jsstring -> option json.
Variable JSON_stringify : json -> jsstring.

Local Abbreviation handle := (Session.handle API_KEY JSON_parse JSON_stringify).
Local Abbreviation step := (Session.step API_KEY JSON_parse JSON_stringify).

Lemma autoAnalyzeEffect_done (s : t) :
  DocumentAnalysis.autoAnalyzeStarted (doc s) = true ->
  autoAnalyzeEffect API_KEY s = s.
Proof.
  intros H. unfold autoAnalyzeEffect. rewrite H, andb_false_r. reflexivity.
Qed.

Lemma runEffects_done (now : N) (s : t) :
  DocumentAnalysis.autoAnalyzeStarted (doc s) = true ->
  app (runEffects API_KEY now s) = app s
  /\ pendingAnalyses (runEffects API_KEY now s) = pendingAnalyses s.
Proof.
  intros H. unfold runEffects. destruct (mounted s); [|split; reflexivity].
  rewrite (autoAnalyzeEffect_done s H).
  destruct (welcomeEffect_keeps now s) as [-> _].
  destruct (welcomeEffect_frame now s) as (_ & -> & _). split; reflexivity.
Qed.

Lemma analyzeDocumentSettled_frame (outcome : Settled json) (s : t) :
  pendingAnalyses (analyzeDocumentSettled JSON_stringify outcome s)
  = pendingAnalyses s
  /\ App.isAnalyzing (app (analyzeDocumentSettled JSON_stringify outcome s))
     = false
  /\ DocumentAnalysis.autoAnalyzeStarted
       (doc (analyzeDocumentSettled JSON_stringify outcome s))
     = DocumentAnalysis.autoAnalyzeStarted (doc s).
Proof. unfold analyzeDocumentSettled. destruct outcome; repeat split. Qed.

(** X20: with a key configured, one click on the re-analyze button sends
    two analysis calls on the text of the session: one by the click
    handler, and one by the effect that the reset of the auto-analyze mark
    sets off. When the first of the two settles, the analysing flag is
    lowered although the second is still in flight. *)
Theorem reanalysis_sends_two_calls (now : N) (s : t) :
  mounted s = true ->
  App.extractedText (app s) <> [] ->
  isConfigured API_KEY = true ->
  let text := App.extractedText (app s) in
  let s1 := step now ClickReanalyze s in
  pendingAnalyses s1 = pendingAnalyses s ++ [text; text]
  /\ App.isAnalyzing (app s1) = true
  /\ DocumentAnalysis.autoAnalyzeStarted (doc s1) = true
  /\ (pendingAnalyses s = [] ->
      forall now' reply,
        let s2 := step now' (AnalysisSettles 0 reply) s1 in
        pendingAnalyses s2 = [text] /\ App.isAnalyzing (app s2) = false).
Proof.
  intros Hm Hne Hcfg text s1. apply truthy_iff in Hne.
  set (s0 := setAutoAnalyzeStarted false (setAnalysis None s)).
  assert (Hr : handle now ClickReanalyze s = analyzeDocument s0)
    by (unfold Session.handle; rewrite Hm; reflexivity).
  assert (Htext0 : truthy (App.extractedText (app s0)) = true) by exact Hne.
  destruct (analyzeDocument_keeps s0) as (_ & _ & Htext & Hfile & _).
  destruct (analyzeDocument_frame s0) as (_ & Hstart & _).
  pose proof (analyzeDocument_calls s0 Htext0) as Hcalls.
  set (r := analyzeDocument s0) in *.
  assert (Hmr : mounted r = true) by (unfold mounted; rewrite Hfile; exact Hm).
  set (r1 := setAutoAnalyzeStarted true r).
  assert (Htext1 : truthy (App.extractedText (app r1)) = true)
    by (change (App.extractedText (app r1)) with (App.extractedText (app r));
        rewrite Htext; exact Hne).
  assert (Hauto : autoAnalyzeEffect API_KEY r = analyzeDocument r1).
  { unfold autoAnalyzeEffect. rewrite Htext, Hstart, Hcfg.
    change (App.extractedText (app s0)) with text.
    unfold text. rewrite Hne. reflexivity. }
  assert (Hs1 : s1 = welcomeEffect now (analyzeDocument r1)).
  { unfold s1, Session.step. rewrite Hr. unfold runEffects.
    rewrite Hmr, Hauto. reflexivity. }
  destruct (analyzeDocument_frame r1) as (_ & Hstart1 & Hspin).
  pose proof (analyzeDocument_calls r1 Htext1) as Hcalls1.
  destruct (welcomeEffect_keeps now (analyzeDocument r1)) as [Happ Hdoc].
  destruct (welcomeEffect_frame now (analyzeDocument r1)) as (_ & Hpend & _).
  rewrite <- Hs1 in Happ, Hdoc, Hpend.
  assert (Htwo : pendingAnalyses s1 = pendingAnalyses s ++ [text; text]).
  { rewrite Hpend, Hcalls1.
    change (pendingAnalyses r1) with (pendingAnalyses r). rewrite Hcalls.
    change (App.extractedText (app r1)) with (App.extractedText (app r)).
    rewrite Htext. rewrite <- app_assoc. reflexivity. }
  assert (Hst : DocumentAnalysis.autoAnalyzeStarted (doc s1) = true)
    by (rewrite Hdoc, Hstart1; reflexivity).
  split; [exact Htwo|]. split; [rewrite Happ; exact (Hspin Htext1)|].
  split; [exact Hst|].
  intros Hnil now' reply s2. rewrite Hnil in Htwo. cbn [List.app] in Htwo.
  unfold s2, Session.step, Session.handle. rewrite Htwo. cbn [nth_error].
  match goal with
  | |- context [analyzeDocumentSettled _ ?o ?x] =>
      set (outcome := o); set (x1 := x)
  end.
  destruct (analyzeDocumentSettled_frame outcome x1) as (Hp & Hi & Hd).
  destruct (runEffects_done now' (analyzeDocumentSettled JSON_stringify outcome x1))
    as [-> ->].
  - rewrite Hd. exact Hst.
  - rewrite Hp, Hi. split; reflexivity.
Qed.

(** X21: clearing the conversation does not cancel a question in flight.
    The cleared conversation holds the greeting only, the call stays in
    flight with the loading flag as it was, and when the call settles its
    reply is appended to the greeting, with no question before it. *)
Theorem clear_chat_keeps_question_in_flight (now1 now2 : N) (i : nat)
    (reply : Settled jsstring) (call : AskCall) (s : t) :
  mounted s = true ->
  nth_error (pendingAsks s) i = Some call ->
  let s1 := step now1 ClearChat s in
  let s2 := step now2 (AskSettles i reply) s1 in
  ChatInterface.messages (chat s1) = [welcomeMessage now1 (fileName s)]
  /\ pendingAsks s1 = pendingAsks s
  /\ ChatInterface.isLoading (chat s1) = ChatInterface.isLoading (chat s)
  /\ ChatInterface.messages (chat s2)
     = [welcomeMessage now1 (fileName s);
        Turns.replyTurn now2
          (Gemini.askQuestion API_KEY (fun _ => reply) (documentText call)
             (question call) (Some (previousContext call)))].
Proof.
  intros Hm Hnth s1 s2.
  assert (Hh : handle now1 ClearChat s = clearChat now1 s)
    by (unfold Session.handle; rewrite Hm; reflexivity).
  assert (Hchat1 : chat s1 = chat (clearChat now1 s)).
  { unfold s1, Session.step. rewrite Hh. apply runEffects_nonempty_chat.
    discriminate. }
  assert (Hasks1 : pendingAsks s1 = pendingAsks s).
  { unfold s1, Session.step. rewrite Hh.
    destruct (runEffects_keeps API_KEY now1 (clearChat now1 s))
      as (_ & _ & _ & -> & _). reflexivity. }
  rewrite Hchat1. split; [reflexivity|]. split; [exact Hasks1|].
  split; [reflexivity|].
  unfold s2, Session.step, Session.handle. rewrite Hasks1, Hnth.
  match goal with
  | |- context [handleSubmitSettled ?n ?o ?x] =>
      destruct (handleSubmitSettled_appends n o x) as (Hmsgs & _);
      rewrite (runEffects_nonempty_chat API_KEY now2 (handleSubmitSettled n o x))
  end.
  - rewrite Hmsgs. change (chat (withPendingAsks _ s1)) with (chat s1).
    rewrite Hchat1. reflexivity.
  - rewrite Hmsgs. intros Hnil. apply app_eq_nil in Hnil.
    destruct Hnil as [_ Hnil]. discriminate.
Qed.

End Overlap.

Section OverlapSamples.

Local Abbreviation step := (Session.step Samples.key Json.parse Json.stringify).

Lemma reanalysis_sends_two_calls_witness :
  mounted Samples.ready = true
  /\ App.extractedText (app Samples.ready) <> []
  /\ isConfigured Samples.key = true
  /\ pendingAnalyses (step 4000 ClickReanalyze Samples.ready)
     = pendingAnalyses Samples.ready
         ++ [App.extractedText (app Samples.ready);
             App.extractedText (app Samples.ready)].
Proof.
  assert (Hm : mounted Samples.ready = true) by (vm_compute; reflexivity).
  assert (Hne : App.extractedText (app Samples.ready) <> [])
    by (vm_compute; discriminate).
  assert (Hcfg : isConfigured Samples.key = true) by reflexivity.
  split; [exact Hm|]. split; [exact Hne|]. split; [exact Hcfg|].
  pose proof (@reanalysis_sends_two_calls Samples.key Json.parse Json.stringify
                4000 Samples.ready Hm Hne Hcfg) as H.
  cbv zeta in H. destruct H as (H1 & _). exact H1.
Defined.

Lemma clear_chat_keeps_question_in_flight_witness :
  let s := step 5100 Submit (step 5000 (Type_ Samples.rentQuestion) Samples.ready) in
  let call :=
    {| documentText := App.extractedText (app Samples.ready);
       question := lit "What is the rent?";
       previousContext := App.analysis (app Samples.ready) |} in
  mounted s = true
  /\ nth_error (pendingAsks s) 0 = Some call
  /\ pendingAsks (step 6000 ClearChat s) = pendingAsks s.
Proof.
  intros s call.
  assert (Hm : mounted s = true) by (vm_compute; reflexivity).
  assert (Hnth : nth_error (pendingAsks s) 0 = Some call)
    by (vm_compute; reflexivity).
  split; [exact Hm|]. split; [exact Hnth|].
  pose proof (@clear_chat_keeps_question_in_flight Samples.key Json.parse
                Json.stringify 6000 7000 0 (Fulfilled (lit "It is not stated."))
                call s Hm Hnth) as H.
  cbv zeta in H. destruct H as (_ & H2 & _). exact H2.
Defined.

End OverlapSamples.

Lemma conversation_opens_with_greeting_witness :
  let evs := [ (1000%N, Drop Samples.leaseFile);
               (1200%N, ExtractionSettles (Samples.loadedWith Samples.leasePages)) ] in
  let s := Session.run Samples.key Json.parse Json.stringify evs initial in
  App.extractedText (app s) <> []
  /\ (isConfigured Samples.key = true ->
      DocumentAnalysis.autoAnalyzeStarted (doc s) = true).
Proof.
  intros evs s.
  assert (Hne : App.extractedText (app s) <> []) by (vm_compute; discriminate).
  split; [exact Hne|].
  pose proof (@conversation_opens_with_greeting Samples.key Json.parse
                Json.stringify evs Hne) as H.
  cbv zeta in H. destruct H as [_ H2]. exact H2.
Defined.

(** ** Re-analysis, uploads and questions as the page offers them *)

Section Offered.

Variable API_KEY : option jsstring.
Variable JSON_parse : jsstring -> option json.
Variable JSON_stringify : json -> jsstring.

Local Abbreviation handle := (Session.handle API_KEY JSON_parse JSON_stringify).
Local Abbreviation step := (Session.step API_KEY JSON_parse JSON_stringify).
Local Abbreviation run := (Session.run API_KEY JSON_parse JSON_stringify).

Lemma reanalyze_calls (now : N) (s : t) :
  mounted s = true ->
  truthy (App.extractedText (app s)) = true ->
  isConfigured API_KEY = true ->
  pendingAnalyses (step now ClickReanalyze s)
  = pendingAnalyses s ++ [App.extractedText (app s); App.extractedText (app s)]
  /\ App.isAnalyzing (app (step now ClickReanalyze s)) = true.
Proof.
  intros Hm Hne Hcfg.
  set (s0 := setAutoAnalyzeStarted false (setAnalysis None s)).
  assert (Hr : handle now ClickReanalyze s = analyzeDocument s0)
    by (unfold Session.handle; rewrite Hm; reflexivity).
  assert (Htext0 : truthy (App.extractedText (app s0)) = true) by exact Hne.
  destruct (analyzeDocument_keeps s0) as (_ & _ & Htext & Hfile & _).
  destruct (analyzeDocument_frame s0) as (_ & Hstart & _).
  pose proof (analyzeDocument_calls s0 Htext0) as Hcalls.
  set (r := analyzeDocument s0) in *.
  assert (Hmr : mounted r = true) by (unfold mounted; rewrite Hfile; exact Hm).
  set (r1 := setAutoAnalyzeStarted true r).
  assert (Htext1 : truthy (App.extractedText (app r1)) = true)
    by (change (App.extractedText (app r1)) with (App.extractedText (app r));
        rewrite Htext; exact Hne).
  assert (Hauto : autoAnalyzeEffect API_KEY r = analyzeDocument r1).
  { unfold autoAnalyzeEffect. rewrite Htext, Hstart, Hcfg.
    change (App.extractedText (app s0)) with (App.extractedText (app s)).
    rewrite Hne. reflexivity. }
  unfold Session.step. rewrite Hr. unfold runEffects. rewrite Hmr, Hauto.
  destruct (analyzeDocument_frame r1) as (_ & _ & Hspin).
  pose proof (analyzeDocument_calls r1 Htext1) as Hcalls1.
  destruct (welcomeEffect_keeps now (analyzeDocument r1)) as [-> _].
  destruct (welcomeEffect_frame now (analyzeDocument r1)) as (_ & -> & _).
  split; [|exact (Hspin Htext1)].
  rewrite Hcalls1. change (pendingAnalyses r1) with (pendingAnalyses r).
  rewrite Hcalls.
  change (App.extractedText (app r1)) with (App.extractedText (app r)).
  rewrite Htext, <- app_assoc. reflexivity.
Qed.

Lemma step_keeps_empty_pane (now : N) (ev : Event) (s : t) :
  (forall i reply, ev <> AnalysisSettles i reply) ->
  DocumentAnalysis.analysis (doc s) = None ->
  DocumentAnalysis.analysis (doc (step now ev s)) = None.
Proof.
  intros Hev Hnone. unfold Session.step.
  destruct (runEffects_keeps API_KEY now (handle now ev s)) as (-> & _).
  destruct ev; unfold Session.handle.
  - destruct (mounted s); [exact Hnone|].
    destruct (PDFUpload.validate file); exact Hnone.
  - destruct (pendingExtractions s); [exact Hnone|].
    destruct (PDFUpload.extractTextFromPDF loaded); [|exact Hnone].
    destruct (_ || _); exact Hnone.
  - destruct (mounted s); [|exact Hnone].
    destruct (analyzeDocument_keeps s) as (-> & _). exact Hnone.
  - destruct (mounted s); [|exact Hnone]. apply reanalyze_clears.
  - destruct (Hev i reply eq_refl).
  - destruct (mounted s); exact Hnone.
  - destruct (mounted s); [|exact Hnone].
    unfold handleSubmit. case_conditions; exact Hnone.
  - destruct (nth_error (pendingAsks s) i); [|exact Hnone].
    unfold handleSubmitSettled.
    destruct (Gemini.askQuestion _ _ _ _ _); exact Hnone.
  - destruct (mounted s); exact Hnone.
Qed.

(** C7, as the code has it: the re-analyze button clears the stored
    AnalysisResult of the pane at once, raises the analysing flag and
    puts two calls on the text in flight, one by its handler and one by
    the auto-analyze effect that the handler re-arms; only the analysis
    string kept by [App] for the chat is still the prior one. Whenever a
    call in flight settles, in whatever session: if it fulfils, its result
    is stored in the pane and in the string, in the place of what is
    there; if it rejects, the pane and the string stay as they are. No
    other event stores a result: the pane holds none until a call
    fulfils. *)
Theorem reanalysis_clears_result_at_once (now : N) (s : t) :
  mounted s = true ->
  truthy (App.extractedText (app s)) = true ->
  isConfigured API_KEY = true ->
  let text := App.extractedText (app s) in
  let s1 := step now ClickReanalyze s in
  DocumentAnalysis.analysis (doc s1) = None
  /\ App.analysis (app s1) = App.analysis (app s)
  /\ pendingAnalyses s1 = pendingAnalyses s ++ [text; text]
  /\ App.isAnalyzing (app s1) = true
  /\ (forall (now' : N) (i : nat) (reply : Settled jsstring) (text' : jsstring)
             (s' : t),
       nth_error (pendingAnalyses s') i = Some text' ->
       let s2 := step now' (AnalysisSettles i reply) s' in
       match Gemini.analyzeDocument API_KEY (fun _ => reply) JSON_parse text' with
       | Fulfilled result =>
           DocumentAnalysis.analysis (doc s2) = orNull result
           /\ App.analysis (app s2) = JSON_stringify result
       | Rejected _ =>
           DocumentAnalysis.analysis (doc s2) = DocumentAnalysis.analysis (doc s')
           /\ App.analysis (app s2) = App.analysis (app s')
       end)
  /\ (forall (now' : N) (ev : Event) (s' : t),
        (forall i reply, ev <> AnalysisSettles i reply) ->
        DocumentAnalysis.analysis (doc s') = None ->
        DocumentAnalysis.analysis (doc (step now' ev s')) = None).
Proof.
  intros Hm Htext Hcfg text s1.
  assert (Hs1 : s1 = runEffects API_KEY now (reanalyze s)).
  { unfold s1, Session.step, Session.handle. rewrite Hm. reflexivity. }
  destruct (reanalyze_clears s) as (Hr1 & Hr2 & _).
  destruct (runEffects_keeps API_KEY now (reanalyze s)) as (He1 & He2 & _).
  destruct (@reanalyze_calls now s Hm Htext Hcfg) as [Hcalls Hspin].
  split; [rewrite Hs1, He1; exact Hr1|].
  split; [rewrite Hs1, He2; exact Hr2|].
  split; [exact Hcalls|]. split; [exact Hspin|]. split.
  - intros now' i reply text' s' Hnth.
    exact (@settle_analysis API_KEY JSON_parse JSON_stringify now' i reply
             text' s' Hnth).
  - intros now' ev s' Hev Hnone. apply step_keeps_empty_pane; assumption.
Qed.




End Offered.

Section OfferedSamples.

Local Abbreviation step := (Session.step Samples.key Json.parse Json.stringify).
Local Abbreviation run := (Session.run Samples.key Json.parse Json.stringify).

Lemma reanalysis_clears_result_at_once_witness :
  Page.resultsRendered Samples.key Samples.ready = true
  /\ DocumentAnalysis.analysis (doc Samples.ready) = Some Samples.leaseResult
  /\ DocumentAnalysis.analysis (doc (step 4000 ClickReanalyze Samples.ready))
     = None
  /\ pendingAnalyses (step 4000 ClickReanalyze Samples.ready)
     = pendingAnalyses Samples.ready
         ++ [App.extractedText (app Samples.ready);
             App.extractedText (app Samples.ready)].
Proof.
  assert (Hm : mounted Samples.ready = true) by (vm_compute; reflexivity).
  assert (Htext : truthy (App.extractedText (app Samples.ready)) = true)
    by (vm_compute; reflexivity).
  assert (Hcfg : isConfigured Samples.key = true) by reflexivity.
  pose proof (@reanalysis_clears_result_at_once Samples.key Json.parse
                Json.stringify 4000 Samples.ready Hm Htext Hcfg) as H.
  cbv zeta in H. destruct H as (H1 & _ & H3 & _).
  split; [vm_compute; reflexivity|]. split; [vm_compute; reflexivity|].
  split; [exact H1 | exact H3].
Defined.

(** C7 fails as stated, in a session whose results are on the page: the
    stored result is gone as soon as re-analysis is requested, while its
    calls are pending; and when both calls have failed, the prior result
    has not come back, though nothing has replaced it. *)
Lemma reanalysis_drops_prior_result_while_pending :
  let s := Samples.ready in
  let s1 := step 4000 ClickReanalyze s in
  let s2 := step 5000 (AnalysisSettles 0 (Rejected (ErrorObject (lit "fetch failed")))) s1 in
  let s3 := step 6000 (AnalysisSettles 0 (Rejected (ErrorObject (lit "fetch failed")))) s2 in
  Page.resultsRendered Samples.key s = true
  /\ DocumentAnalysis.analysis (doc s) = Some Samples.leaseResult
  /\ pendingAnalyses s1 <> []
  /\ DocumentAnalysis.analysis (doc s1) <> Some Samples.leaseResult
  /\ pendingAnalyses s3 = []
  /\ DocumentAnalysis.analysis (doc s3) <> Some Samples.leaseResult.
Proof.
  vm_compute. split; [reflexivity|]. split; [reflexivity|].
  split; [discriminate|]. split; [discriminate|].
  split; [reflexivity | discriminate].
Qed.



End OfferedSamples.
